(** * Albion market analyser: profitability and arbitrage engine

    A shallow embedding of the refining calculator, the crafting
    calculator, the arbitrage analyser and the action planner, with the
    properties of the engine's specification stated and settled on it.

    Conventions of the embedding.
    - Two layers.  In the modules named after the source files a
      Python [float] is an exact rational of [Q]: the formulas, the
      selections and the orderings are studied in exact arithmetic, and
      Python's [float('inf')] is [None] in an [option Q].  What the
      rounding itself decides (the truncation of a focus cost, the end
      of the break-even search, whether a margin is finite) is studied
      on the module [Binary64], where the calculators are embedded on
      IEEE 754 binary64 values.
    - A Python [int] is a [Z]; [//] is [Z.div]; [int(x)] on a float is
      truncation towards zero ([py_int]).
    - A Python [dict] is an association list in insertion order
      ([dict V]); [d.get(k, v)] is [get_default], [k in d] is [contains].
    - A Python exception is the [Raise] case of [result]; a division
      whose divisor is computed is the checked [pydiv]. *)

From Stdlib Require Import ZArith QArith Qround Qminmax Qabs String Ascii List Bool Lia Lqa.
From Stdlib Require Import DecimalString.
Import ListNotations.

Open Scope string_scope.
Open Scope Q_scope.

(** ** Python values *)

Definition dict (V : Type) : Type := list (string * V).

Fixpoint get {V : Type} (d : dict V) (k : string) : option V :=
  match d with
  | [] => None
  | (k', v) :: d' => if String.eqb k' k then Some v else get d' k
  end.

Definition get_default {V : Type} (d : dict V) (k : string) (dflt : V) : V :=
  match get d k with
  | Some v => v
  | None => dflt
  end.

Definition contains {V : Type} (d : dict V) (k : string) : bool :=
  match get d k with
  | Some _ => true
  | None => false
  end.

Definition keys {V : Type} (d : dict V) : list string := map fst d.

Definition mem (k : string) (l : list string) : bool :=
  existsb (String.eqb k) l.

Definition Qltb (x y : Q) : bool := negb (Qle_bool y x).
Definition Qgtb (x y : Q) : bool := Qltb y x.

(** [int(x)]: truncation towards zero. *)
Definition py_int (x : Q) : Z :=
  if Qle_bool 0 x then Qfloor x else Qceiling x.

Inductive exn : Type :=
| ValueError (msg : string)
| TypeError (msg : string)
| OverflowError (msg : string)
| ZeroDivisionError.

Inductive result (A : Type) : Type :=
| Ok (a : A)
| Raise (e : exn).

Arguments Ok {A} a.
Arguments Raise {A} e.

Definition bind {A B : Type} (r : result A) (k : A -> result B) : result B :=
  match r with
  | Ok a => k a
  | Raise e => Raise e
  end.

Notation "x <- r ;; k" := (bind r (fun x => k))
  (at level 61, r at next level, right associativity).

(** [s[1:]] and [str(n)] for an int. *)
Definition str_tail (s : string) : string :=
  match s with
  | EmptyString => EmptyString
  | String _ rest => rest
  end.

Definition py_str (n : Z) : string := NilZero.string_of_int (Z.to_int n).

(** Python's [x / y] on floats. *)
Definition pydiv (x y : Q) : result Q :=
  if Qeq_bool y 0 then Raise ZeroDivisionError else Ok (x / y).

(** Stable sort in descending order of a rational key, as
    [sorted(..., key=..., reverse=True)] and [list.sort(reverse=True)]
    do: elements with equal keys keep their order. *)
Section SortDesc.
Context {A : Type} (key : A -> Q).

Fixpoint insert_desc (x : A) (l : list A) : list A :=
  match l with
  | [] => [x]
  | y :: l' =>
      if Qle_bool (key x) (key y) then y :: insert_desc x l'
      else x :: l
  end.

Definition sort_desc (l : list A) : list A :=
  fold_left (fun acc x => insert_desc x acc) l [].
End SortDesc.

(** ** src/refining_calculator.py *)

Module RefiningCalculator.

Record RefiningResult : Type := mkRefiningResult {
  total_cost : Q;
  total_revenue : Q;
  net_profit : Q;
  profit_margin : Q;
  focus_cost : Z;
  tax_cost : Q;
  return_rate : Q;
  resources_returned : Z;
  refined_quantity : Z;
  prev_refined_needed : Z;
  raw_material_cost : Q;
  prev_refined_material_cost : Q;
  output_value : Q;
  input_cost : Q;
  premium : bool;
  use_focus : bool
}.

Record requirement : Type := mkRequirement {
  raw : Z;
  refined_prev : Z
}.

(** REFINING_DATA *)

Definition bonus_row (ore wood hide fiber stone rock : Q) : dict Q :=
  [("ORE", ore); ("WOOD", wood); ("HIDE", hide);
   ("FIBER", fiber); ("STONE", stone); ("ROCK", rock)].

Definition local_production_bonus : dict (dict Q) :=
  [("Fort Sterling", bonus_row 0.00 0.40 0.00 0.00 0.00 0.00);
   ("Lymhurst",      bonus_row 0.00 0.00 0.00 0.40 0.00 0.00);
   ("Bridgewatch",   bonus_row 0.00 0.00 0.00 0.00 0.40 0.40);
   ("Martlock",      bonus_row 0.00 0.00 0.40 0.00 0.00 0.00);
   ("Thetford",      bonus_row 0.40 0.00 0.00 0.00 0.00 0.00);
   ("Caerleon",      bonus_row 0.00 0.00 0.00 0.00 0.00 0.00);
   ("Brecilien",     bonus_row 0.00 0.00 0.00 0.00 0.00 0.00)].

Definition tax_rates : dict Q :=
  [("Thetford", 0.045); ("Fort Sterling", 0.045); ("Lymhurst", 0.045);
   ("Bridgewatch", 0.045); ("Martlock", 0.045); ("Caerleon", 0.035);
   ("Brecilien", 0.020)].

Definition base_focus_cost : dict Z :=
  [("T4", 10); ("T5", 20); ("T6", 40); ("T7", 80); ("T8", 160)]%Z.

Definition resource_requirements : dict requirement :=
  [("T4", mkRequirement 2 1); ("T5", mkRequirement 3 1);
   ("T6", mkRequirement 4 1); ("T7", mkRequirement 5 1);
   ("T8", mkRequirement 6 1)].

Definition resource_type_mapping : dict string :=
  [("ORE", "ORE"); ("WOOD", "WOOD"); ("HIDE", "HIDE");
   ("FIBER", "FIBER"); ("STONE", "ROCK"); ("ROCK", "ROCK")].

Definition premium_bonus : Q := 0.50.
Definition focus_bonus : Q := 0.45.
Definition base_refining_bonus : Q := 0.18.

Definition item_values : dict Z :=
  [("T2_RAW", 2); ("T3_RAW", 4); ("T4_RAW", 8); ("T5_RAW", 16);
   ("T6_RAW", 32); ("T7_RAW", 64); ("T8_RAW", 128);
   ("T2_REFINED", 8); ("T3_REFINED", 24); ("T4_REFINED", 72);
   ("T5_REFINED", 192); ("T6_REFINED", 480); ("T7_REFINED", 1152);
   ("T8_REFINED", 2688)]%Z.

Definition nutrition_cost_multiplier : Q := 0.1125.

(** [get_optimal_refining_city]: the loop keeps the first city whose
    bonus is strictly above every bonus seen before it. *)
Definition optimal_step (resource_type : string)
    (st : option string * Q) (entry : string * dict Q) : option string * Q :=
  let '(optimal_city, max_bonus) := st in
  let '(city, bonuses) := entry in
  let bonus := get_default bonuses resource_type 0 in
  if Qgtb bonus max_bonus then (Some city, bonus) else (optimal_city, max_bonus).

Definition get_optimal_refining_city (resource_type : string) : string :=
  match fst (fold_left (optimal_step resource_type) local_production_bonus (None, 0)) with
  | Some city => city
  | None => "Caerleon"
  end.

Definition normalize_resource_type (resource_type : string) : string :=
  get_default resource_type_mapping resource_type resource_type.

(** The table local to [get_local_production_bonus]. *)
Definition city_bonuses : dict (dict Q) :=
  [("Fort Sterling", [("WOOD", 0.40)]);
   ("Lymhurst", [("FIBER", 0.40)]);
   ("Bridgewatch", [("ROCK", 0.40)]);
   ("Martlock", [("HIDE", 0.40)]);
   ("Thetford", [("ORE", 0.40)]);
   ("Caerleon", []);
   ("Brecilien", [])].

Definition get_local_production_bonus (city resource_type : string) : Q :=
  let city_bonus := get_default city_bonuses city [] in
  get_default city_bonus resource_type 0.0.

Definition total_bonus (city resource_type : string)
    (use_focus personal_island : bool) : Q :=
  let total_bonus := base_refining_bonus in
  let total_bonus :=
    if negb personal_island
    then total_bonus + get_local_production_bonus city resource_type
    else total_bonus in
  let total_bonus :=
    if use_focus then total_bonus + focus_bonus else total_bonus in
  total_bonus.

Definition calculate_return_rate (city resource_type : string)
    (use_focus personal_island : bool) : result Q :=
  let total_bonus := total_bonus city resource_type use_focus personal_island in
  q <- pydiv 1 (1 + total_bonus) ;;
  Ok (1 - q).

(** The focus cost in exact arithmetic.  [int] truncates the exact
    product here; the code truncates the rounded one, which is
    [Binary64.Refining.calculate_focus_cost] below. *)
Definition calculate_focus_cost (tier : string) (quantity specialization : Z)
    (premium : bool) : Z :=
  let base_cost := get_default base_focus_cost tier 10%Z in
  let spec_reduction := 1 - (inject_Z specialization / 100 * 0.5) in
  let premium_reduction := if premium then 1 - premium_bonus else 1.0 in
  let total_cost :=
    inject_Z base_cost * inject_Z quantity * spec_reduction * premium_reduction in
  Z.max 1 (py_int total_cost).

(** The profit calculation in exact arithmetic: the amounts and the
    margin are the exact values of the formulas, and the two truncated
    fields ([focus_cost], [resources_returned]) truncate exact products.
    The calculation on the code's own binary64 values, with its
    rounding, overflow and NaN, is
    [Binary64.Refining.calculate_refining_profit] below. *)
Definition calculate_refining_profit (tier resource_type city : string)
    (raw_price refined_price : Q) (quantity specialization : Z)
    (premium use_focus : bool) (prev_refined_price : Q) : result RefiningResult :=
  let requirements := get_default resource_requirements tier (mkRequirement 2 1) in
  let raw_per_refined := raw requirements in
  let prev_refined_per_refined := refined_prev requirements in
  let refined_quantity := (quantity / raw_per_refined)%Z in
  if (refined_quantity =? 0)%Z then
    (* RefiningResult(0, ..., 0, premium=..., use_focus=...) passes twelve
       positional values to a dataclass of sixteen fields without
       defaults: output_value and input_cost are never given. *)
    Raise (TypeError "__init__() missing 2 required positional arguments: 'output_value' and 'input_cost'")
  else
    let prev_refined_needed := (refined_quantity * prev_refined_per_refined)%Z in
    let raw_material_cost := inject_Z quantity * raw_price in
    let prev_refined_material_cost := inject_Z prev_refined_needed * prev_refined_price in
    let input_cost := raw_material_cost + prev_refined_material_cost in
    return_rate <- calculate_return_rate city resource_type use_focus false ;;
    let focus_cost :=
      if use_focus
      then calculate_focus_cost tier refined_quantity specialization premium
      else 0%Z in
    let tax_rate := get_default tax_rates city 0.05 in
    let item_value := get_default item_values (tier ++ "_REFINED") 0%Z in
    let tax_cost :=
      inject_Z refined_quantity * inject_Z item_value
      * nutrition_cost_multiplier * tax_rate in
    let total_cost := input_cost + tax_cost in
    let total_revenue := inject_Z refined_quantity * refined_price in
    let resources_returned_value :=
      (inject_Z quantity * return_rate * raw_price)
      + (inject_Z prev_refined_needed * return_rate * prev_refined_price) in
    let total_revenue := total_revenue + resources_returned_value in
    let net_profit := total_revenue - total_cost in
    profit_margin <-
      (if Qgtb total_cost 0
       then (m <- pydiv net_profit total_cost ;; Ok (m * 100))
       else Ok 0) ;;
    let resources_returned := py_int (inject_Z quantity * return_rate) in
    Ok {| total_cost := total_cost;
          total_revenue := total_revenue;
          net_profit := net_profit;
          profit_margin := profit_margin;
          focus_cost := focus_cost;
          tax_cost := tax_cost;
          return_rate := return_rate;
          resources_returned := resources_returned;
          refined_quantity := refined_quantity;
          prev_refined_needed := prev_refined_needed;
          raw_material_cost := raw_material_cost;
          prev_refined_material_cost := prev_refined_material_cost;
          output_value := total_revenue;
          input_cost := input_cost;
          premium := premium;
          use_focus := use_focus |}.

(** One entry of the ranking built by [find_best_refining_city]. *)
Record city_ranking : Type := mkCityRanking {
  profit : Q;
  margin : Q;
  ranking_return_rate : Q;
  tax_rate : Q;
  lpb : Q;
  full_result : RefiningResult
}.

Fixpoint rank_cities (tier resource_type : string) (raw_price refined_price : Q)
    (specialization : Z) (premium use_focus : bool) (prev_refined_price : Q)
    (cities : list string) : result (dict city_ranking) :=
  match cities with
  | [] => Ok []
  | city :: cities' =>
      result <- calculate_refining_profit tier resource_type city raw_price
                  refined_price 100 specialization premium use_focus
                  prev_refined_price ;;
      let entry :=
        {| profit := net_profit result;
           margin := profit_margin result;
           ranking_return_rate := return_rate result;
           tax_rate := get_default tax_rates city 0.05;
           lpb := get_local_production_bonus city resource_type;
           full_result := result |} in
      results <- rank_cities tier resource_type raw_price refined_price
                   specialization premium use_focus prev_refined_price cities' ;;
      Ok ((city, entry) :: results)
  end.

Definition find_best_refining_city (tier resource_type : string)
    (raw_price refined_price : Q) (specialization : Z)
    (premium use_focus : bool) (prev_refined_price : Q)
    : result (dict city_ranking) :=
  let cities := keys local_production_bonus in
  results <- rank_cities tier resource_type raw_price refined_price
               specialization premium use_focus prev_refined_price cities ;;
  Ok (sort_desc (fun x => profit (snd x)) results).

End RefiningCalculator.

(** ** src/crafting_calculator.py *)

Module CraftingCalculator.

Record CraftingResult : Type := mkCraftingResult {
  net_profit : Q;
  gross_profit : Q;
  total_cost : Q;
  total_revenue : Q;
  profit_margin : Q;
  return_rate : Q;
  focus_cost : Z;
  tax_amount : Q;
  material_costs : dict Q;
  items_produced : Q;
  break_even_price : Q
}.

Record recipe : Type := mkRecipe {
  materials : dict Z;
  category : string;
  crafting_city_bonus : string
}.

(** [_load_crafting_data] *)

Definition base_return_rate : dict Q :=
  [("T4", 0.15); ("T5", 0.20); ("T6", 0.22); ("T7", 0.24); ("T8", 0.26)].

Definition focus_per_craft : dict Z :=
  [("T4", 10); ("T5", 20); ("T6", 40); ("T7", 80); ("T8", 160)]%Z.

Definition tax_rates : dict Q :=
  [("Caerleon", 0.035); ("Thetford", 0.045); ("Fort Sterling", 0.045);
   ("Lymhurst", 0.045); ("Bridgewatch", 0.045); ("Martlock", 0.045);
   ("Brecilien", 0.045)].

Definition city_bonuses : dict (dict Q) :=
  [("Thetford", [("FIBER", 0.15); ("CLOTH", 0.15)]);
   ("Fort Sterling", [("ORE", 0.15); ("METAL", 0.15)]);
   ("Lymhurst", [("WOOD", 0.15)]);
   ("Bridgewatch", [("HIDE", 0.15); ("LEATHER", 0.15)]);
   ("Martlock", [("ROCK", 0.15); ("STONE", 0.15)]);
   ("Caerleon", []);
   ("Brecilien", [])].

Definition two_materials (m1 : string) (n1 : Z) (m2 : string) (n2 : Z)
    (cat bonus : string) : recipe :=
  {| materials := [(m1, n1); (m2, n2)];
     category := cat;
     crafting_city_bonus := bonus |}.

Definition recipes : dict recipe :=
  [("T4_SWORD", two_materials "T4_METAL" 16 "T3_METAL" 8 "WEAPON" "METAL");
   ("T5_SWORD", two_materials "T5_METAL" 16 "T4_METAL" 8 "WEAPON" "METAL");
   ("T6_SWORD", two_materials "T6_METAL" 16 "T5_METAL" 8 "WEAPON" "METAL");
   ("T7_SWORD", two_materials "T7_METAL" 16 "T6_METAL" 8 "WEAPON" "METAL");
   ("T8_SWORD", two_materials "T8_METAL" 16 "T7_METAL" 8 "WEAPON" "METAL");
   ("T4_ARMOR_CLOTH_ROBE", two_materials "T4_CLOTH" 16 "T3_CLOTH" 8 "ARMOR" "CLOTH");
   ("T5_ARMOR_CLOTH_ROBE", two_materials "T5_CLOTH" 16 "T4_CLOTH" 8 "ARMOR" "CLOTH");
   ("T6_ARMOR_CLOTH_ROBE", two_materials "T6_CLOTH" 16 "T5_CLOTH" 8 "ARMOR" "CLOTH");
   ("T4_BAG", two_materials "T4_CLOTH" 8 "T4_LEATHER" 4 "ACCESSORY" "CLOTH");
   ("T5_BAG", two_materials "T5_CLOTH" 8 "T5_LEATHER" 4 "ACCESSORY" "CLOTH");
   ("T6_BAG", two_materials "T6_CLOTH" 8 "T6_LEATHER" 4 "ACCESSORY" "CLOTH")].

Definition calculate_return_rate (tier : string) (specialization : Z)
    (premium use_focus : bool) : Q :=
  let base_rate := get_default base_return_rate tier 0.15 in
  let spec_bonus := (inject_Z specialization / 100) * 0.30 in
  let return_rate :=
    if use_focus
    then (let focus_bonus := 0.35 in base_rate + spec_bonus + focus_bonus)
    else base_rate + spec_bonus in
  Qmin return_rate 0.70.

Definition calculate_focus_cost (tier : string) (specialization : Z)
    (premium use_focus : bool) : Z :=
  if negb use_focus then 0%Z
  else
    let base_focus := get_default focus_per_craft tier 10%Z in
    let spec_reduction := (inject_Z specialization / 100) * 0.50 in
    let focus_cost := inject_Z base_focus * (1 - spec_reduction) in
    Z.max (py_int focus_cost) 1.

(** [item_id.split('_')[0]] *)
Fixpoint split_head (s : string) : string :=
  match s with
  | EmptyString => EmptyString
  | String c s' =>
      if Ascii.eqb c "_"%char then EmptyString else String c (split_head s')
  end.

(** The loop over [recipe['materials'].items()]. *)
Definition material_step (city_bonus : Q) (quantity : Z) (material_prices : dict Q)
    (st : dict Q * Q) (entry : string * Z) : dict Q * Q :=
  let '(material_costs, total_material_cost) := st in
  let '(material, base_amount) := entry in
  let actual_amount := inject_Z base_amount * (1 - city_bonus) * inject_Z quantity in
  let material_price := get_default material_prices material 0 in
  let cost := actual_amount * material_price in
  ((material_costs ++ [(material, cost)])%list, total_material_cost + cost).

Definition calculate_crafting_profit (item_id city : string)
    (material_prices : dict Q) (item_sell_price : Q)
    (quantity specialization : Z) (premium use_focus : bool)
    : result CraftingResult :=
  match get recipes item_id with
  | None => Raise (ValueError ("Recipe not found for " ++ item_id))
  | Some recipe =>
      let tier := split_head item_id in
      let return_rate := calculate_return_rate tier specialization premium use_focus in
      let focus_cost := calculate_focus_cost tier specialization premium use_focus in
      let crafting_bonus_type := crafting_city_bonus recipe in
      let city_bonus :=
        match get city_bonuses city with
        | Some bonuses =>
            match get bonuses crafting_bonus_type with
            | Some b => b
            | None => 0
            end
        | None => 0
        end in
      let '(material_costs, total_material_cost) :=
        fold_left (material_step city_bonus quantity material_prices)
          (materials recipe) ([], 0) in
      let items_produced := inject_Z quantity * (1 + return_rate) in
      let total_revenue := items_produced * item_sell_price in
      let tax_rate := get_default tax_rates city 0.05 in
      let tax_amount := total_revenue * tax_rate in
      let gross_profit := total_revenue - total_material_cost in
      let net_profit := gross_profit - tax_amount in
      let total_cost := total_material_cost + tax_amount in
      profit_margin <-
        (if Qgtb total_revenue 0
         then (m <- pydiv net_profit total_revenue ;; Ok (m * 100))
         else Ok 0) ;;
      break_even_price <-
        (if Qgtb items_produced 0
         then pydiv total_cost items_produced
         else Ok 0) ;;
      Ok {| net_profit := net_profit;
            gross_profit := gross_profit;
            total_cost := total_cost;
            total_revenue := total_revenue;
            profit_margin := profit_margin;
            return_rate := return_rate;
            focus_cost := (focus_cost * quantity)%Z;
            tax_amount := tax_amount;
            material_costs := material_costs;
            items_produced := items_produced;
            break_even_price := break_even_price |}
  end.

End CraftingCalculator.

(** ** src/config.py: the fields and methods the engine reads *)

Module AlbionConfig.

Record AlbionConfig : Type := mkAlbionConfig {
  premium : bool;
  use_focus : bool;
  specializations : dict Z;
  tax_rates : dict Q;
  exclude_brecilien : bool;
  exclude_caerleon : bool
}.

(** The values [__post_init__] installs. *)
Definition default_specializations : dict Z :=
  [("ore_refining", 0); ("hide_refining", 0); ("fiber_refining", 0);
   ("wood_refining", 0); ("stone_refining", 0); ("weapon_smith", 0);
   ("armor_smith", 0); ("toolmaker", 0); ("artifact_founder", 0);
   ("cook", 0); ("alchemist", 0); ("scholar", 0); ("farmer", 0);
   ("hunter", 0); ("fisher", 0); ("lumberjack", 0); ("miner", 0);
   ("quarrier", 0)]%Z.

Definition default_tax_rates : dict Q :=
  [("Thetford", 0.045); ("Fort Sterling", 0.045); ("Lymhurst", 0.045);
   ("Bridgewatch", 0.045); ("Martlock", 0.045); ("Caerleon", 0.035);
   ("Brecilien", 0.02)].

Definition get_allowed_cities (self : AlbionConfig) : list string :=
  let all_cities := keys (tax_rates self) in
  filter (fun city =>
            if exclude_brecilien self && String.eqb city "Brecilien" then false
            else if exclude_caerleon self && String.eqb city "Caerleon" then false
            else true)
         all_cities.

Definition get_specialization_level (self : AlbionConfig) (activity_type : string) : Z :=
  get_default (specializations self) activity_type 0%Z.

(** The cities a configuration excludes. *)
Definition excluded_cities (self : AlbionConfig) : list string :=
  ((if exclude_brecilien self then ["Brecilien"] else [])
   ++ (if exclude_caerleon self then ["Caerleon"] else []))%list.

End AlbionConfig.

(** ** src/arbitrage_analyzer.py *)

Module ArbitrageAnalyzer.

Import RefiningCalculator.

(** One item's quote in one city, as the price source delivers it. *)
Record quote : Type := mkQuote {
  buy_max : Q;
  sell_min : Q;
  quote_item_id : string
}.

(** A city's entry of [price_data]: each of the keys 'raw',
    'prev_refined' and 'refined' may be absent. *)
Record city_data : Type := mkCityData {
  cd_raw : option quote;
  cd_prev_refined : option quote;
  cd_refined : option quote
}.

Record price_entry : Type := mkPriceEntry {
  buy_price : Q;
  sell_price : Q;
  item_id : string
}.

Record city_price : Type := mkCityPrice {
  cp_city : option string;
  cp_price : Q;
  cp_action : string
}.

Record arbitrage_profit_info : Type := mkArbitrageProfit {
  profit_per_unit : Q;
  profit_margin_percent : Q;
  is_profitable : bool
}.

Record recommendation : Type := mkRecommendation {
  item_type : string;
  rec_tier : string;
  rec_resource_type : string;
  buy_recommendation : city_price;
  sell_recommendation : city_price;
  arbitrage_profit : arbitrage_profit_info
}.

(** An entry of [opportunities]; its display string [strategy], made
    of the same city names, is left out. *)
Record opportunity : Type := mkOpportunity {
  raw_city : string;
  refined_city : string;
  refine_city : string;
  opp_raw_price : Q;
  opp_refined_price : Q;
  estimated_profit : Q;
  opp_profit_margin : Q;
  prev_city : option string
}.

Record refining_opportunities_info : Type := mkRefiningOpportunities {
  best_opportunities : list opportunity;
  total_opportunities : Z
}.

(** The dictionary [analyze_opportunities] returns; [None] is [{}]. *)
Record analysis : Type := mkAnalysis {
  raw_recommendations : option recommendation;
  prev_refined_recommendations : option recommendation;
  refined_recommendations : option recommendation;
  refining_opportunities : option refining_opportunities_info
}.

(** The analyser object: [calculator] tells whether a
    RefiningCalculator was given. *)
Record ArbitrageAnalyzer : Type := mkArbitrageAnalyzer {
  config : option AlbionConfig.AlbionConfig;
  calculator : bool
}.

Definition entry_of (q : quote) : price_entry :=
  {| buy_price := buy_max q; sell_price := sell_min q; item_id := quote_item_id q |}.

(** State of the loop of [_find_best_buy_sell]; [best_buy_price] is
    [None] while it is [float('inf')]. *)
Record best_state : Type := mkBest {
  best_buy_city : option string;
  best_buy_price : option Q;
  best_sell_city : option string;
  best_sell_price : Q
}.

Definition lt_best (x : Q) (best : option Q) : bool :=
  match best with
  | None => true
  | Some b => Qltb x b
  end.

Definition best_step (st : best_state) (entry : string * price_entry) : best_state :=
  let '(city, data) := entry in
  let sell_price := sell_price data in
  let buy_price := buy_price data in
  let st :=
    if Qgtb sell_price 0 && lt_best sell_price (best_buy_price st)
    then {| best_buy_city := Some city; best_buy_price := Some sell_price;
            best_sell_city := best_sell_city st;
            best_sell_price := best_sell_price st |}
    else st in
  if Qgtb buy_price (best_sell_price st)
  then {| best_buy_city := best_buy_city st; best_buy_price := best_buy_price st;
          best_sell_city := Some city; best_sell_price := buy_price |}
  else st.

Definition best_init : best_state :=
  {| best_buy_city := None; best_buy_price := None;
     best_sell_city := None; best_sell_price := 0 |}.

Definition _find_best_buy_sell (prices : dict price_entry)
    (item_type tier resource_type : string) : result (option recommendation) :=
  match prices with
  | [] => Ok None
  | _ =>
      let st := fold_left best_step prices best_init in
      pm <-
        match best_buy_price st with
        | Some bbp =>
            if Qgtb (best_sell_price st) 0 then
              let profit := best_sell_price st - bbp in
              margin <-
                (if Qgtb bbp 0
                 then (m <- pydiv profit bbp ;; Ok (m * 100))
                 else Ok 0) ;;
              Ok (profit, margin)
            else Ok (0, 0)
        | None => Ok (0, 0)
        end ;;
      let '(profit, profit_margin) := pm in
      Ok (Some
        {| item_type := item_type;
           rec_tier := tier;
           rec_resource_type := resource_type;
           buy_recommendation :=
             {| cp_city := best_buy_city st;
                cp_price := match best_buy_price st with Some b => b | None => 0 end;
                cp_action := "ACHETER ICI" |};
           sell_recommendation :=
             {| cp_city := best_sell_city st;
                cp_price := best_sell_price st;
                cp_action := "VENDRE ICI" |};
           arbitrage_profit :=
             {| profit_per_unit := profit;
                profit_margin_percent := profit_margin;
                is_profitable := Qgtb profit 0 && Qgtb profit_margin 5 |} |})
  end.

(** [min(prices, key=lambda city: sell_price if sell_price > 0 else inf)]
    on a non-empty dictionary: the first city of least key. *)
Definition buy_key (data : price_entry) : option Q :=
  if Qgtb (sell_price data) 0 then Some (sell_price data) else None.

Definition key_lt (k1 k2 : option Q) : bool :=
  match k1, k2 with
  | Some a, Some b => Qltb a b
  | Some _, None => true
  | None, _ => false
  end.

Definition min_step (best : string * price_entry) (entry : string * price_entry)
    : string * price_entry :=
  if key_lt (buy_key (snd entry)) (buy_key (snd best)) then entry else best.

Definition min_by_sell_price (first : string * price_entry)
    (rest : dict price_entry) : string * price_entry :=
  fold_left min_step rest first.

(** ASCII [str.lower()]. *)
Definition lower_ascii (c : ascii) : ascii :=
  let n := nat_of_ascii c in
  if (65 <=? n)%nat && (n <=? 90)%nat then ascii_of_nat (n + 32) else c.

Fixpoint lower (s : string) : string :=
  match s with
  | EmptyString => EmptyString
  | String c s' => String (lower_ascii c) (lower s')
  end.

(** The loop over [refined_prices.items()]. *)
Fixpoint collect_opportunities (cfg : AlbionConfig.AlbionConfig)
    (tier resource_type optimal_refining_city best_raw_buy_city : string)
    (best_prev_refined_buy_city : option string)
    (raw_buy_price prev_refined_buy_price : Q) (specialization : Z)
    (refined_prices : dict price_entry) : result (list opportunity) :=
  match refined_prices with
  | [] => Ok []
  | (sell_city, refined_data) :: rest =>
      let refined_sell_price := buy_price refined_data in
      here <-
        (if Qgtb raw_buy_price 0 && Qgtb refined_sell_price 0 then
           profit_result <-
             calculate_refining_profit tier resource_type optimal_refining_city
               raw_buy_price refined_sell_price 100 specialization
               (AlbionConfig.premium cfg) (AlbionConfig.use_focus cfg)
               prev_refined_buy_price ;;
           if Qgtb (net_profit profit_result) 0 then
             Ok [{| raw_city := best_raw_buy_city;
                    refined_city := sell_city;
                    refine_city := optimal_refining_city;
                    opp_raw_price := raw_buy_price;
                    opp_refined_price := refined_sell_price;
                    estimated_profit := net_profit profit_result;
                    opp_profit_margin := profit_margin profit_result;
                    prev_city := best_prev_refined_buy_city |}]
           else Ok []
         else Ok []) ;;
      others <-
        collect_opportunities cfg tier resource_type optimal_refining_city
          best_raw_buy_city best_prev_refined_buy_city raw_buy_price
          prev_refined_buy_price specialization rest ;;
      Ok (here ++ others)%list
  end.

Definition _analyze_refining_arbitrage (self : ArbitrageAnalyzer)
    (raw_prices prev_refined_prices refined_prices : dict price_entry)
    (tier resource_type : string) : result (option refining_opportunities_info) :=
  match calculator self, raw_prices, refined_prices, config self with
  | true, first_raw :: rest_raw, _ :: _, Some cfg =>
      let best_raw := min_by_sell_price first_raw rest_raw in
      let best_raw_buy_city := fst best_raw in
      let raw_buy_price := sell_price (snd best_raw) in
      let '(best_prev_refined_buy_city, prev_refined_buy_price) :=
        match prev_refined_prices with
        | [] => (None, 0)
        | first_prev :: rest_prev =>
            let best_prev := min_by_sell_price first_prev rest_prev in
            (Some (fst best_prev), sell_price (snd best_prev))
        end in
      let optimal_refining_city := get_optimal_refining_city resource_type in
      let spec_key := lower resource_type ++ "_refining" in
      let specialization := AlbionConfig.get_specialization_level cfg spec_key in
      opportunities <-
        collect_opportunities cfg tier resource_type optimal_refining_city
          best_raw_buy_city best_prev_refined_buy_city raw_buy_price
          prev_refined_buy_price specialization refined_prices ;;
      let opportunities := sort_desc estimated_profit opportunities in
      Ok (Some {| best_opportunities := firstn 5 opportunities;
                  total_opportunities := Z.of_nat (length opportunities) |})
  | _, _, _, _ => Ok None
  end.

(** The loop of [analyze_opportunities] that fills the three price
    dictionaries, one function per dictionary. *)
Definition select_prices (field : city_data -> option quote)
    (keep : quote -> bool) (price_data : dict city_data)
    (filtered_cities : list string) : dict price_entry :=
  flat_map (fun city =>
              match get price_data city with
              | Some cd =>
                  match field cd with
                  | Some q => if keep q then [(city, entry_of q)] else []
                  | None => []
                  end
              | None => []
              end)
           filtered_cities.

Definition filtered_cities (self : ArbitrageAnalyzer) (price_data : dict city_data)
    : list string :=
  match config self with
  | Some cfg =>
      let allowed_cities := AlbionConfig.get_allowed_cities cfg in
      filter (fun city => mem city allowed_cities) (keys price_data)
  | None => keys price_data
  end.

Definition raw_prices_of (self : ArbitrageAnalyzer) (price_data : dict city_data) :=
  select_prices cd_raw (fun q => Qgtb (buy_max q) 0) price_data
    (filtered_cities self price_data).

Definition prev_refined_prices_of (self : ArbitrageAnalyzer) (price_data : dict city_data) :=
  select_prices cd_prev_refined (fun q => Qgtb (buy_max q) 0) price_data
    (filtered_cities self price_data).

Definition refined_prices_of (self : ArbitrageAnalyzer) (price_data : dict city_data) :=
  select_prices cd_refined (fun q => Qgtb (sell_min q) 0) price_data
    (filtered_cities self price_data).

Definition analyze_opportunities (self : ArbitrageAnalyzer)
    (price_data : dict city_data) (tier resource_type : string) : result analysis :=
  let raw_prices := raw_prices_of self price_data in
  let prev_refined_prices := prev_refined_prices_of self price_data in
  let refined_prices := refined_prices_of self price_data in
  r1 <- _find_best_buy_sell raw_prices "raw" tier resource_type ;;
  r2 <- _find_best_buy_sell prev_refined_prices "prev_refined" tier resource_type ;;
  r3 <- _find_best_buy_sell refined_prices "refined" tier resource_type ;;
  r4 <- _analyze_refining_arbitrage self raw_prices prev_refined_prices
          refined_prices tier resource_type ;;
  Ok {| raw_recommendations := r1;
        prev_refined_recommendations := r2;
        refined_recommendations := r3;
        refining_opportunities := r4 |}.

End ArbitrageAnalyzer.

(** ** src/action_planner.py *)

Module ActionPlanner.

Import RefiningCalculator ArbitrageAnalyzer.

Inductive action_kind : Type := ACHETER | TRANSPORTER | RAFFINER | VENDRE.

(** A step of the plan.  The display strings 'what', 'price' and
    'total_cost' are replaced by what they print: the quantity, the
    tier names in the order 'what' shows them, and the two amounts. *)
Record plan_step : Type := mkStep {
  step : Z;
  action : action_kind;
  where_ : option string;
  step_quantity : Z;
  what_tiers : list string;
  unit_price : option Q;
  subtotal : option Q
}.

Inductive plan_summary : Type :=
| NoSummary
| PlanRentable (profit margin : Q)
| NonRentable (loss_per_unit : Q)
| DonneesInsuffisantes.

Inductive plan_warning : Type :=
| SameCityWarning
| LowMarginWarning
| DoubleTransportWarning
| LossWarning
| CheckPricesWarning.

Record financial_summary_info : Type := mkFinancial {
  investment : Q;
  revenue : Q;
  fin_profit : Q;
  fin_margin : Q;
  raw_needed : Z;
  fin_prev_refined_needed : Z;
  refined_produced : Z;
  premium_status : bool;
  focus_used : bool
}.

Record action_plan : Type := mkPlan {
  plan_is_profitable : bool;
  summary : plan_summary;
  steps : list plan_step;
  financial_summary : option financial_summary_info;
  warnings : list plan_warning
}.

Definition rec_city (r : option recommendation)
    (side : recommendation -> city_price) : option string :=
  match r with
  | Some r => cp_city (side r)
  | None => None
  end.

Definition rec_price (r : option recommendation)
    (side : recommendation -> city_price) : Q :=
  match r with
  | Some r => cp_price (side r)
  | None => 0
  end.

Definition option_string_eqb (a b : option string) : bool :=
  match a, b with
  | Some x, Some y => String.eqb x y
  | None, None => true
  | _, _ => false
  end.

Section Builtins.

(** Python's [int] applied to a string. *)
Variable int_of_str : string -> result Z.

Definition create_refining_action_plan (arbitrage_analysis : analysis)
    (tier resource_type : string) (quantity : Z)
    (profit_data : option RefiningResult) (selected_city : string)
    : result action_plan :=
  let raw_rec := raw_recommendations arbitrage_analysis in
  let prev_refined_rec := prev_refined_recommendations arbitrage_analysis in
  let refined_rec := refined_recommendations arbitrage_analysis in
  let raw_buy_city := rec_city raw_rec buy_recommendation in
  let raw_buy_price := rec_price raw_rec buy_recommendation in
  let prev_refined_buy_city := rec_city prev_refined_rec buy_recommendation in
  let prev_refined_buy_price := rec_price prev_refined_rec buy_recommendation in
  let refined_sell_city := rec_city refined_rec sell_recommendation in
  let refined_sell_price := rec_price refined_rec sell_recommendation in
  match profit_data with
  | Some profit_data =>
      if Qgtb (net_profit profit_data) 0 then
        let refined_quantity := refined_quantity profit_data in
        let prev_refined_needed := prev_refined_needed profit_data in
        tier_num <- int_of_str (str_tail tier) ;;
        let prev_tier_num := (tier_num - 1)%Z in
        let prev_tier :=
          if (prev_tier_num >=? 1)%Z then "T" ++ py_str prev_tier_num else tier in
        Ok {| plan_is_profitable := true;
              summary := PlanRentable (net_profit profit_data)
                                      (profit_margin profit_data);
              steps :=
                [ mkStep 1 ACHETER raw_buy_city quantity [tier]
                    (Some raw_buy_price) (Some (raw_material_cost profit_data));
                  mkStep 2 ACHETER prev_refined_buy_city prev_refined_needed
                    [prev_tier] (Some prev_refined_buy_price)
                    (Some (prev_refined_material_cost profit_data));
                  mkStep 3 TRANSPORTER (Some selected_city) quantity [] None None;
                  mkStep 4 RAFFINER (Some selected_city) refined_quantity
                    [tier; prev_tier; tier] None None;
                  mkStep 5 TRANSPORTER refined_sell_city refined_quantity [] None None;
                  mkStep 6 VENDRE refined_sell_city refined_quantity [tier]
                    (Some refined_sell_price) (Some (total_revenue profit_data)) ];
              financial_summary :=
                Some {| investment := total_cost profit_data;
                        revenue := total_revenue profit_data;
                        fin_profit := net_profit profit_data;
                        fin_margin := profit_margin profit_data;
                        raw_needed := quantity;
                        fin_prev_refined_needed := prev_refined_needed;
                        refined_produced := refined_quantity;
                        premium_status := premium profit_data;
                        focus_used := use_focus profit_data |};
              warnings :=
                ((if option_string_eqb raw_buy_city refined_sell_city
                  then [SameCityWarning] else [])
                 ++ (if Qltb (profit_margin profit_data) 10
                     then [LowMarginWarning] else [])
                 ++ (if negb (option_string_eqb (Some selected_city) raw_buy_city)
                        && negb (option_string_eqb (Some selected_city) refined_sell_city)
                     then [DoubleTransportWarning] else []))%list |}
      else
        let requirements :=
          get_default resource_requirements tier (mkRequirement 2 1) in
        let raw_per_refined := raw requirements in
        let refined_quantity :=
          if (raw_per_refined >? 0)%Z then (quantity / raw_per_refined)%Z else 0%Z in
        loss_per_unit <-
          (if (refined_quantity >? 0)%Z
           then pydiv (net_profit profit_data) (inject_Z refined_quantity)
           else Ok 0) ;;
        Ok {| plan_is_profitable := false;
              summary := NonRentable (Qabs loss_per_unit);
              steps := [];
              financial_summary := None;
              warnings := [LossWarning] |}
  | None =>
      Ok {| plan_is_profitable := false;
            summary := DonneesInsuffisantes;
            steps := [];
            financial_summary := None;
            warnings := [CheckPricesWarning] |}
  end.

End Builtins.

End ActionPlanner.


(** ** Auxiliary definitions for the statements *)

Import RefiningCalculator ArbitrageAnalyzer ActionPlanner.

(** The requirement row [calculate_refining_profit] reads for a tier. *)
Definition requirements_of (tier : string) : requirement :=
  get_default resource_requirements tier (mkRequirement 2 1).


(** The focus-cost formula as the specification words it: the product
    of the base cost, the quantity, the specialization reduction and the
    premium multiplier, with a minimum of 1. *)
Definition focus_cost_per_spec (base quantity specialization : Z)
    (reductionFactor premiumFocusMultiplier : Q) (premium : bool) : Q :=
  Qmax 1 (inject_Z base * inject_Z quantity
          * (1 - inject_Z specialization / 100 * reductionFactor)
          * (if premium then premiumFocusMultiplier else 1)).


(** A configuration with the values [__post_init__] installs and the
    given exclusion flags. *)
Definition config_with (premium use_focus exclude_brecilien exclude_caerleon : bool)
    : AlbionConfig.AlbionConfig :=
  {| AlbionConfig.premium := premium;
     AlbionConfig.use_focus := use_focus;
     AlbionConfig.specializations := AlbionConfig.default_specializations;
     AlbionConfig.tax_rates := AlbionConfig.default_tax_rates;
     AlbionConfig.exclude_brecilien := exclude_brecilien;
     AlbionConfig.exclude_caerleon := exclude_caerleon |}.

Definition analyzer_with (cfg : AlbionConfig.AlbionConfig)
    : ArbitrageAnalyzer.ArbitrageAnalyzer :=
  {| ArbitrageAnalyzer.config := Some cfg; ArbitrageAnalyzer.calculator := true |}.

(** Quotes in which Thetford has the lowest ask for the raw item and the
    highest bid for the refined item, but no bid for the raw item and no
    ask for the refined one. *)
Definition one_sided_quotes : dict ArbitrageAnalyzer.city_data :=
  [("Thetford",
    {| ArbitrageAnalyzer.cd_raw :=
         Some (ArbitrageAnalyzer.mkQuote 0 50 "T5_ORE");
       ArbitrageAnalyzer.cd_prev_refined := None;
       ArbitrageAnalyzer.cd_refined :=
         Some (ArbitrageAnalyzer.mkQuote 300 0 "T5_METALBAR") |});
   ("Martlock",
    {| ArbitrageAnalyzer.cd_raw :=
         Some (ArbitrageAnalyzer.mkQuote 10 80 "T5_ORE");
       ArbitrageAnalyzer.cd_prev_refined := None;
       ArbitrageAnalyzer.cd_refined :=
         Some (ArbitrageAnalyzer.mkQuote 200 210 "T5_METALBAR") |})].

(** What the loop of [_find_best_buy_sell] has established after the
    entries [seen]. *)
Definition best_inv (seen : dict ArbitrageAnalyzer.price_entry)
    (st : ArbitrageAnalyzer.best_state) : Prop :=
  let sell_price := ArbitrageAnalyzer.sell_price in
  let buy_price := ArbitrageAnalyzer.buy_price in
  (forall c e, In (c, e) seen -> buy_price e <= ArbitrageAnalyzer.best_sell_price st)
  /\ match ArbitrageAnalyzer.best_sell_city st with
     | None => ArbitrageAnalyzer.best_sell_price st = 0
     | Some c =>
         0 < ArbitrageAnalyzer.best_sell_price st
         /\ exists e, In (c, e) seen /\ buy_price e = ArbitrageAnalyzer.best_sell_price st
     end
  /\ match ArbitrageAnalyzer.best_buy_price st with
     | None =>
         ArbitrageAnalyzer.best_buy_city st = None
         /\ forall c e, In (c, e) seen -> sell_price e <= 0
     | Some p =>
         0 < p
         /\ (exists c e, In (c, e) seen
                         /\ ArbitrageAnalyzer.best_buy_city st = Some c
                         /\ sell_price e = p)
         /\ forall c e, In (c, e) seen -> 0 < sell_price e -> p <= sell_price e
     end.

(** What every collected opportunity records. *)
Definition opportunity_ok (cfg : AlbionConfig.AlbionConfig)
    (tier resource_type optimal best_raw : string) (best_prev : option string)
    (raw_buy_price prev_price : Q) (specialization : Z)
    (refined_prices : dict price_entry) (o : opportunity) : Prop :=
  raw_city o = best_raw
  /\ In (refined_city o) (keys refined_prices)
  /\ refine_city o = optimal
  /\ prev_city o = best_prev
  /\ opp_raw_price o = raw_buy_price
  /\ exists r,
       calculate_refining_profit tier resource_type optimal raw_buy_price
         (opp_refined_price o) 100 specialization (AlbionConfig.premium cfg)
         (AlbionConfig.use_focus cfg) prev_price = Ok r
       /\ estimated_profit o = net_profit r
       /\ opp_profit_margin o = profit_margin r
       /\ 0 < net_profit r.


(** The recommendation side of [_analyze_refining_arbitrage]: the buy
    city and price of the raw leg and of the previous-tier leg. *)
Definition raw_leg (raw_prices : dict price_entry) : option (string * Q) :=
  match raw_prices with
  | [] => None
  | first :: rest =>
      let best := min_by_sell_price first rest in
      Some (fst best, sell_price (snd best))
  end.

Definition prev_leg (prev_refined_prices : dict price_entry) : option string * Q :=
  match prev_refined_prices with
  | [] => (None, 0)
  | first :: rest =>
      let best := min_by_sell_price first rest in
      (Some (fst best), sell_price (snd best))
  end.

Definition refining_spec_key (resource_type : string) : string :=
  lower resource_type ++ "_refining".

(** The refining resource types of the reference tables. *)
Definition refining_resource_types : list string :=
  ["ORE"; "WOOD"; "HIDE"; "FIBER"; "STONE"; "ROCK"].

(** The cities a recommendation names. *)
Definition recommended_cities (r : option recommendation) : list string :=
  match r with
  | None => []
  | Some r =>
      (match cp_city (buy_recommendation r) with Some c => [c] | None => [] end)
      ++ (match cp_city (sell_recommendation r) with Some c => [c] | None => [] end)
  end%list.

(** Whether the loop of [_analyze_refining_arbitrage] keeps the route
    that sells in the city of [entry]: the raw buy price and the sell
    price are positive and refining 100 units in the bonus city leaves a
    positive net profit. *)
Definition route_is_profitable (cfg : AlbionConfig.AlbionConfig)
    (tier resource_type : string) (raw_buy_price prev_refined_buy_price : Q)
    (entry : string * price_entry) : bool :=
  Qgtb raw_buy_price 0 && Qgtb (buy_price (snd entry)) 0
  && match calculate_refining_profit tier resource_type
             (get_optimal_refining_city resource_type) raw_buy_price
             (buy_price (snd entry)) 100
             (AlbionConfig.get_specialization_level cfg
                (refining_spec_key resource_type))
             (AlbionConfig.premium cfg) (AlbionConfig.use_focus cfg)
             prev_refined_buy_price with
     | Ok r => Qgtb (net_profit r) 0
     | Raise _ => false
     end.



(** Refined prices in seven cities, for a witness of the cut at five. *)
Definition seven_refined_prices : dict price_entry :=
  [("Thetford", mkPriceEntry 300 310 "T5_METALBAR");
   ("Fort Sterling", mkPriceEntry 340 350 "T5_METALBAR");
   ("Lymhurst", mkPriceEntry 320 330 "T5_METALBAR");
   ("Bridgewatch", mkPriceEntry 100 110 "T5_METALBAR");
   ("Martlock", mkPriceEntry 360 370 "T5_METALBAR");
   ("Caerleon", mkPriceEntry 310 320 "T5_METALBAR");
   ("Brecilien", mkPriceEntry 350 360 "T5_METALBAR")].



From Stdlib Require Import Permutation Sorted DecimalString.

(** ** src/action_planner.py, continued *)

Module QuickSummary.

Import ActionPlanner.

(** The three texts [create_quick_summary] can return; the route text
    shows the 'where' of the first, the third and the last step. *)
Inductive quick_summary : Type :=
| NonRentableActuellement
| Route (buy_where refine_where sell_where : option string)
| PlanDisponible.

Definition create_quick_summary (plan : action_plan) : quick_summary :=
  if negb (plan_is_profitable plan) then NonRentableActuellement
  else
    match steps plan with
    | buy_step :: second :: refine_step :: rest =>
        let sell_step := last rest refine_step in
        Route (where_ buy_step) (where_ refine_step) (where_ sell_step)
    | _ => PlanDisponible
    end.

End QuickSummary.

(** ** src/crafting_calculator.py, continued *)

Module CraftingCities.

Import CraftingCalculator.

(** One pass of the loop of [find_best_crafting_city]: a city without
    material prices or with a zero sell price is skipped, and so is a
    city whose calculation raises. *)
Definition city_result (item_id : string)
    (material_prices_by_city : dict (dict Q)) (item_sell_prices_by_city : dict Q)
    (quantity specialization : Z) (premium use_focus : bool) (city : string)
    : dict CraftingResult :=
  let material_prices := get_default material_prices_by_city city [] in
  let sell_price := get_default item_sell_prices_by_city city 0 in
  match material_prices with
  | [] => []
  | _ :: _ =>
      if Qeq_bool sell_price 0 then []
      else
        match calculate_crafting_profit item_id city material_prices sell_price
                quantity specialization premium use_focus with
        | Ok result => [(city, result)]
        | Raise _ => []
        end
  end.

Definition find_best_crafting_city (item_id : string)
    (material_prices_by_city : dict (dict Q)) (item_sell_prices_by_city : dict Q)
    (quantity specialization : Z) (premium use_focus : bool)
    : dict CraftingResult :=
  let results :=
    flat_map (city_result item_id material_prices_by_city item_sell_prices_by_city
                quantity specialization premium use_focus)
             (keys tax_rates) in
  sort_desc (fun x => net_profit (snd x)) results.

Definition get_available_recipes : list string := keys recipes.

Definition get_recipe_materials (item_id : string) : dict Z :=
  match get recipes item_id with
  | None => []
  | Some recipe => materials recipe
  end.

Definition get_recipe_category (item_id : string) : string :=
  match get recipes item_id with
  | None => "UNKNOWN"
  | Some recipe => category recipe
  end.

End CraftingCities.

(** ** src/item_mapping.py *)

Module ItemMapping.

Definition RAW_RESOURCES : dict string :=
  [("T3_ORE", "T3_ORE"); ("T4_ORE", "T4_ORE"); ("T5_ORE", "T5_ORE");
   ("T6_ORE", "T6_ORE"); ("T7_ORE", "T7_ORE"); ("T8_ORE", "T8_ORE");
   ("T3_WOOD", "T3_WOOD"); ("T4_WOOD", "T4_WOOD"); ("T5_WOOD", "T5_WOOD");
   ("T6_WOOD", "T6_WOOD"); ("T7_WOOD", "T7_WOOD"); ("T8_WOOD", "T8_WOOD");
   ("T3_HIDE", "T3_HIDE"); ("T4_HIDE", "T4_HIDE"); ("T5_HIDE", "T5_HIDE");
   ("T6_HIDE", "T6_HIDE"); ("T7_HIDE", "T7_HIDE"); ("T8_HIDE", "T8_HIDE");
   ("T3_FIBER", "T3_FIBER"); ("T4_FIBER", "T4_FIBER"); ("T5_FIBER", "T5_FIBER");
   ("T6_FIBER", "T6_FIBER"); ("T7_FIBER", "T7_FIBER"); ("T8_FIBER", "T8_FIBER");
   ("T3_ROCK", "T3_ROCK"); ("T4_ROCK", "T4_ROCK"); ("T5_ROCK", "T5_ROCK");
   ("T6_ROCK", "T6_ROCK"); ("T7_ROCK", "T7_ROCK"); ("T8_ROCK", "T8_ROCK")].

Definition REFINED_RESOURCES : dict string :=
  [("T3_ORE", "T3_METALBAR"); ("T4_ORE", "T4_METALBAR"); ("T5_ORE", "T5_METALBAR");
   ("T6_ORE", "T6_METALBAR"); ("T7_ORE", "T7_METALBAR"); ("T8_ORE", "T8_METALBAR");
   ("T3_WOOD", "T3_PLANKS"); ("T4_WOOD", "T4_PLANKS"); ("T5_WOOD", "T5_PLANKS");
   ("T6_WOOD", "T6_PLANKS"); ("T7_WOOD", "T7_PLANKS"); ("T8_WOOD", "T8_PLANKS");
   ("T3_HIDE", "T3_LEATHER"); ("T4_HIDE", "T4_LEATHER"); ("T5_HIDE", "T5_LEATHER");
   ("T6_HIDE", "T6_LEATHER"); ("T7_HIDE", "T7_LEATHER"); ("T8_HIDE", "T8_LEATHER");
   ("T3_FIBER", "T3_CLOTH"); ("T4_FIBER", "T4_CLOTH"); ("T5_FIBER", "T5_CLOTH");
   ("T6_FIBER", "T6_CLOTH"); ("T7_FIBER", "T7_CLOTH"); ("T8_FIBER", "T8_CLOTH");
   ("T3_ROCK", "T3_STONEBLOCK"); ("T4_ROCK", "T4_STONEBLOCK"); ("T5_ROCK", "T5_STONEBLOCK");
   ("T6_ROCK", "T6_STONEBLOCK"); ("T7_ROCK", "T7_STONEBLOCK"); ("T8_ROCK", "T8_STONEBLOCK")].

(** The [enchantment] argument: an int, or a list whose first element is
    converted with [int]. *)
Inductive enchantment_arg : Type :=
| EnchInt (n : Z)
| EnchList (l : list string).

(** [str(n)] for an int, as an f-string prints it. *)
Definition str (n : Z) : string := NilZero.string_of_int (Z.to_int n).

Definition old_format_mapping : dict string :=
  [("ORE", "ORE"); ("WOOD", "WOOD"); ("HIDE", "HIDE"); ("FIBER", "FIBER");
   ("STONE", "ROCK")].

Definition get_resource_type_from_old_format (resource_type : string) : string :=
  get_default old_format_mapping resource_type resource_type.

Section Builtins.

(** Python's [int] applied to a string. *)
Variable int_of_str : string -> result Z.

Definition enchantment_level (enchantment : enchantment_arg) : result Z :=
  match enchantment with
  | EnchInt n => Ok n
  | EnchList [] => Ok 0%Z
  | EnchList (first :: _) => int_of_str first
  end.

Definition with_level (base_id : string) (enchantment : Z) : string :=
  if (enchantment >? 0)%Z
  then base_id ++ "_LEVEL" ++ str enchantment ++ "@" ++ str enchantment
  else base_id.

Definition get_raw_item_id (tier resource_type : string)
    (enchantment : enchantment_arg) : result string :=
  enchantment <- enchantment_level enchantment ;;
  let key := tier ++ "_" ++ resource_type in
  let base_id := get_default RAW_RESOURCES key key in
  Ok (with_level base_id enchantment).

Definition get_refined_item_id (tier resource_type : string)
    (enchantment : enchantment_arg) : result string :=
  enchantment <- enchantment_level enchantment ;;
  let key := tier ++ "_" ++ resource_type in
  let base_id :=
    get_default REFINED_RESOURCES key (tier ++ "_REFINED_" ++ resource_type) in
  Ok (with_level base_id enchantment).

End Builtins.

End ItemMapping.

(** ** src/price_manager.py: the two price searches, as functions of the
    prices [get_refining_prices] delivered *)

Module PriceManager.

Import ArbitrageAnalyzer.

(** [quote[key] > 0 and ...]: reading a number under [key] from a quote
    of the formatted price data, whose keys are 'buy_max', 'sell_min'
    and 'item_id'.  [None] stands for the exception Python raises: a
    missing key, or a string compared with a number. *)
Definition quote_number (q : quote) (key : string) : option Q :=
  if String.eqb key "buy_max" then Some (buy_max q)
  else if String.eqb key "sell_min" then Some (sell_min q)
  else None.

Record side_best : Type := mkSideBest {
  sb_buy_min : option Q;
  sb_buy_max : Q;
  sb_sell_min : option Q;
  sb_sell_max : Q;
  sb_best_buy_city : option string;
  sb_best_sell_city : option string
}.

Record best_prices : Type := mkBestPrices {
  bp_raw : side_best;
  bp_refined : side_best
}.

Definition side_init : side_best :=
  {| sb_buy_min := None; sb_buy_max := 0; sb_sell_min := None; sb_sell_max := 0;
     sb_best_buy_city := None; sb_best_sell_city := None |}.

Definition below (x : Q) (best : option Q) : bool :=
  match best with
  | None => true
  | Some b => Qltb x b
  end.

(** One pass of the loop of [get_best_prices_for_refining]; [None] when
    an exception is raised. *)
Definition best_prices_step (st : option best_prices)
    (entry : string * city_data) : option best_prices :=
  match st with
  | None => None
  | Some bp =>
      let '(city, city_data) := entry in
      let after_raw :=
        match cd_raw city_data with
        | None => Some bp
        | Some raw_data =>
            match quote_number raw_data "buy_price_min" with
            | None => None
            | Some buy_price_min =>
                let raw1 :=
                  if Qgtb buy_price_min 0 && below buy_price_min (sb_buy_min (bp_raw bp))
                  then {| sb_buy_min := Some buy_price_min;
                          sb_buy_max := sb_buy_max (bp_raw bp);
                          sb_sell_min := sb_sell_min (bp_raw bp);
                          sb_sell_max := sb_sell_max (bp_raw bp);
                          sb_best_buy_city := Some city;
                          sb_best_sell_city := sb_best_sell_city (bp_raw bp) |}
                  else bp_raw bp in
                match quote_number raw_data "sell_price_min" with
                | None => None
                | Some sell_price_min =>
                    let raw2 :=
                      if Qgtb sell_price_min 0 && below sell_price_min (sb_sell_min raw1)
                      then {| sb_buy_min := sb_buy_min raw1;
                              sb_buy_max := sb_buy_max raw1;
                              sb_sell_min := Some sell_price_min;
                              sb_sell_max := sb_sell_max raw1;
                              sb_best_buy_city := sb_best_buy_city raw1;
                              sb_best_sell_city := Some city |}
                      else raw1 in
                    Some {| bp_raw := raw2; bp_refined := bp_refined bp |}
                end
            end
        end in
      match after_raw with
      | None => None
      | Some bp =>
          match cd_refined city_data with
          | None => Some bp
          | Some refined_data =>
              match quote_number refined_data "sell_price_min" with
              | None => None
              | Some sell_price_min =>
                  if Qgtb sell_price_min 0
                     && Qgtb sell_price_min (sb_sell_max (bp_refined bp))
                  then Some {| bp_raw := bp_raw bp;
                               bp_refined :=
                                 {| sb_buy_min := sb_buy_min (bp_refined bp);
                                    sb_buy_max := sb_buy_max (bp_refined bp);
                                    sb_sell_min := sb_sell_min (bp_refined bp);
                                    sb_sell_max := sell_price_min;
                                    sb_best_buy_city := sb_best_buy_city (bp_refined bp);
                                    sb_best_sell_city := Some city |} |}
                  else Some bp
              end
          end
      end
  end.

(** [get_best_prices_for_refining] on the prices fetched; [None] is the
    empty dictionary, returned for no prices and from the [except]
    clause. *)
Definition get_best_prices_for_refining (all_prices : dict city_data)
    : option best_prices :=
  match all_prices with
  | [] => None
  | _ :: _ =>
      fold_left best_prices_step all_prices
        (Some {| bp_raw := side_init; bp_refined := side_init |})
  end.

Record raw_arbitrage : Type := mkRawArbitrage {
  ra_type : string;
  ra_item : string;
  ra_buy_city : string;
  ra_buy_price : Q;
  ra_sell_city : string;
  ra_sell_price : Q;
  ra_profit_per_unit : Q;
  ra_profit_margin : Q
}.

(** The dictionary [raw_prices]: the cities with a positive raw ask. *)
Definition raw_asks (market_prices : dict city_data) : dict Q :=
  flat_map (fun entry : string * city_data =>
              match cd_raw (snd entry) with
              | Some q => if Qgtb (sell_min q) 0 then [(fst entry, sell_min q)] else []
              | None => []
              end)
           market_prices.

(** [min(items, key=lambda x: x[1])] and [max(...)]: the first item of
    least, respectively greatest, value. *)
Definition min_item (first : string * Q) (rest : dict Q) : string * Q :=
  fold_left (fun best x => if Qltb (snd x) (snd best) then x else best) rest first.

Definition max_item (first : string * Q) (rest : dict Q) : string * Q :=
  fold_left (fun best x => if Qgtb (snd x) (snd best) then x else best) rest first.

(** [get_arbitrage_opportunities] on the prices fetched. *)
Definition get_arbitrage_opportunities (market_prices : dict city_data)
    (tier resource_type : string) : result (list raw_arbitrage) :=
  match raw_asks market_prices with
  | [] => Ok []
  | first :: rest =>
      let min_city := min_item first rest in
      let max_city := max_item first rest in
      if Qgtb (snd max_city) (snd min_city * 1.1) then
        margin <- pydiv (snd max_city - snd min_city) (snd min_city) ;;
        Ok [{| ra_type := "raw_arbitrage";
               ra_item := tier ++ "_" ++ resource_type;
               ra_buy_city := fst min_city;
               ra_buy_price := snd min_city;
               ra_sell_city := fst max_city;
               ra_sell_price := snd max_city;
               ra_profit_per_unit := snd max_city - snd min_city;
               ra_profit_margin := margin * 100 |}]
      else Ok []
  end.

End PriceManager.

(** ** src/data_collector.py: [_format_price_data] *)

Module DataCollector.

Import ArbitrageAnalyzer.

(** A row of the API answer.  [item.get('city')] and
    [item.get('item_id')] may be missing; the two prices are numbers. *)
Record api_row : Type := mkRow {
  row_city : option string;
  row_item_id : option string;
  sell_price_min : Q;
  buy_price_max : Q
}.

(** Truth value of [item.get(...)]: neither [None] nor the empty string. *)
Definition truthy (s : option string) : bool :=
  match s with
  | Some (String _ _) => true
  | _ => false
  end.

(** Dictionaries keyed by the pair (city, item_id). *)
Definition pair_dict (V : Type) : Type := list ((string * string) * V).

Definition key_eqb (a b : string * string) : bool :=
  String.eqb (fst a) (fst b) && String.eqb (snd a) (snd b).

Fixpoint pget {V : Type} (d : pair_dict V) (k : string * string) : option V :=
  match d with
  | [] => None
  | (k', v) :: d' => if key_eqb k' k then Some v else pget d' k
  end.

(** [grouped_prices[key].append(item)], creating the list at the end of
    the dictionary when the key is new. *)
Fixpoint add_row (grouped : pair_dict (list api_row)) (key : string * string)
    (item : api_row) : pair_dict (list api_row) :=
  match grouped with
  | [] => [(key, [item])]
  | (k', items) :: rest =>
      if key_eqb k' key then (k', (items ++ [item])%list) :: rest
      else (k', items) :: add_row rest key item
  end.

Definition group_step (grouped : pair_dict (list api_row)) (item : api_row)
    : pair_dict (list api_row) :=
  match row_city item, row_item_id item with
  | Some city, Some item_id =>
      if truthy (Some city) && truthy (Some item_id)
      then add_row grouped (city, item_id) item
      else grouped
  | _, _ => grouped
  end.

Definition grouped_prices (data : list api_row) : pair_dict (list api_row) :=
  fold_left group_step data [].

(** [min(l) if l else 0] and [max(l) if l else 0]. *)
Definition min_or_zero (l : list Q) : Q :=
  match l with
  | [] => 0
  | x :: rest => fold_left (fun best y => if Qltb y best then y else best) rest x
  end.

Definition max_or_zero (l : list Q) : Q :=
  match l with
  | [] => 0
  | x :: rest => fold_left (fun best y => if Qgtb y best then y else best) rest x
  end.

Record price_info : Type := mkPriceInfo {
  info_sell_price_min : Q;
  info_buy_price_max : Q
}.

Definition best_of (items : list api_row) : price_info :=
  let valid_sell_prices :=
    map sell_price_min (filter (fun i => Qgtb (sell_price_min i) 0) items) in
  let valid_buy_prices :=
    map buy_price_max (filter (fun i => Qgtb (buy_price_max i) 0) items) in
  {| info_sell_price_min := min_or_zero valid_sell_prices;
     info_buy_price_max := max_or_zero valid_buy_prices |}.

Definition best_prices (data : list api_row) : pair_dict price_info :=
  map (fun entry => (fst entry, best_of (snd entry))) (grouped_prices data).

(** [best_prices.get((city, item), {})] for an item that may be [None];
    [None] is the empty dictionary. *)
Definition info_for (best : pair_dict price_info) (city : string)
    (item : option string) : option price_info :=
  match item with
  | Some item_id => pget best (city, item_id)
  | None => None
  end.

(** [info.get('sell_price_min', 0)] and [info.get('buy_price_max', 0)]. *)
Definition sell_of (info : option price_info) : Q :=
  match info with Some i => info_sell_price_min i | None => 0 end.

Definition buy_of (info : option price_info) : Q :=
  match info with Some i => info_buy_price_max i | None => 0 end.

Definition item_name (item : option string) : string :=
  match item with Some s => s | None => "" end.

(** [{item.get('city') for item in data if item.get('city')}]: a set,
    whose iteration order Python leaves open; here each city once, in
    some order. *)
Definition all_cities (data : list api_row) : list string :=
  nodup string_dec
    (flat_map (fun item => match row_city item with
                           | Some city => if truthy (Some city) then [city] else []
                           | None => []
                           end) data).

(** [tier[1:]] *)
Definition tail_of (s : string) : string :=
  match s with
  | EmptyString => EmptyString
  | String _ rest => rest
  end.

Section Builtins.

(** Python's [int] applied to a string. *)
Variable int_of_str : string -> result Z.

Definition format_city (best : pair_dict price_info)
    (raw_item prev_refined_item refined_item : option string)
    (tier resource_type : string) (enchantment : Z) (city : string)
    : result (string * city_data) :=
  let raw_price_info := info_for best city raw_item in
  let prev_refined_price_info := info_for best city prev_refined_item in
  let refined_price_info := info_for best city refined_item in
  let raw :=
    if Qgtb (sell_of raw_price_info) 0
    then Some {| buy_max := buy_of raw_price_info;
                 sell_min := sell_of raw_price_info;
                 quote_item_id := item_name raw_item |}
    else None in
  prev_refined <-
    (if Qgtb (sell_of prev_refined_price_info) 0
     then Ok (Some {| buy_max := buy_of prev_refined_price_info;
                      sell_min := sell_of prev_refined_price_info;
                      quote_item_id := item_name prev_refined_item |})
     else if (enchantment >? 0)%Z then
       tier_num <- int_of_str (tail_of tier) ;;
       let prev_tier :=
         if (tier_num >? 1)%Z then "T" ++ ItemMapping.str (tier_num - 1) else tier in
       prev_refined_item_normal <-
         ItemMapping.get_refined_item_id int_of_str prev_tier resource_type
           (ItemMapping.EnchInt 0) ;;
       let fallback_price_info := pget best (city, prev_refined_item_normal) in
       if Qgtb (sell_of fallback_price_info) 0
       then Ok (Some {| buy_max := buy_of fallback_price_info;
                        sell_min := sell_of fallback_price_info;
                        quote_item_id := prev_refined_item_normal |})
       else Ok None
     else Ok None) ;;
  let refined :=
    if Qgtb (buy_of refined_price_info) 0
    then Some {| buy_max := buy_of refined_price_info;
                 sell_min := sell_of refined_price_info;
                 quote_item_id := item_name refined_item |}
    else None in
  Ok (city, {| cd_raw := raw; cd_prev_refined := prev_refined; cd_refined := refined |}).

Fixpoint format_cities (best : pair_dict price_info)
    (raw_item prev_refined_item refined_item : option string)
    (tier resource_type : string) (enchantment : Z) (cities : list string)
    : result (dict city_data) :=
  match cities with
  | [] => Ok []
  | city :: rest =>
      entry <- format_city best raw_item prev_refined_item refined_item tier
                 resource_type enchantment city ;;
      others <- format_cities best raw_item prev_refined_item refined_item tier
                  resource_type enchantment rest ;;
      Ok (entry :: others)
  end.

Definition _format_price_data (data : list api_row) (items_to_fetch : list string)
    (tier resource_type : string) (enchantment : Z) : result (dict city_data) :=
  match data with
  | [] => Ok []
  | _ :: _ =>
      let raw_item := nth_error items_to_fetch 0 in
      let prev_refined_item := nth_error items_to_fetch 1 in
      let refined_item := nth_error items_to_fetch 2 in
      format_cities (best_prices data) raw_item prev_refined_item refined_item
        tier resource_type enchantment (all_cities data)
  end.

End Builtins.

End DataCollector.

(** Descending order of a rational key: every element's key is at least
    the key of every later element. *)
Definition descending {A : Type} (key : A -> Q) (l : list A) : Prop :=
  StronglySorted (fun a b => key b <= key a) l.

(** The city bonus [calculate_crafting_profit] applies to a recipe. *)
Definition crafting_city_bonus_of (city : string) (rcp : CraftingCalculator.recipe) : Q :=
  match get CraftingCalculator.city_bonuses city with
  | Some bonuses =>
      match get bonuses (CraftingCalculator.crafting_city_bonus rcp) with
      | Some b => b
      | None => 0
      end
  | None => 0
  end.

(** The material cost of a recipe before any city bonus. *)
Fixpoint base_material_cost (materials : dict Z) (quantity : Z)
    (material_prices : dict Q) : Q :=
  match materials with
  | [] => 0
  | (material, base_amount) :: rest =>
      inject_Z base_amount * inject_Z quantity * get_default material_prices material 0
      + base_material_cost rest quantity material_prices
  end.

(** The rows of an API answer that [_format_price_data] files under the
    key (city, item). *)
Definition row_matches (city item : string) (r : DataCollector.api_row) : bool :=
  match DataCollector.row_city r, DataCollector.row_item_id r with
  | Some c, Some i =>
      DataCollector.truthy (Some c) && DataCollector.truthy (Some i)
      && String.eqb c city && String.eqb i item
  | _, _ => false
  end.

Definition rows_for (data : list DataCollector.api_row) (city item : string)
    : list DataCollector.api_row :=
  filter (row_matches city item) data.

Definition non_empty {A : Type} (l : list A) : option (list A) :=
  match l with
  | [] => None
  | _ :: _ => Some l
  end.

(** [p] is the least strictly positive ask, respectively the greatest
    bid, among the rows of [data] for an item in a city. *)
Definition least_positive_ask (data : list DataCollector.api_row)
    (city item : string) (p : Q) : Prop :=
  0 < p
  /\ (exists row, In row data /\ DataCollector.row_city row = Some city
                  /\ DataCollector.row_item_id row = Some item
                  /\ DataCollector.sell_price_min row = p)
  /\ forall row, In row data -> DataCollector.row_city row = Some city ->
       DataCollector.row_item_id row = Some item ->
       0 < DataCollector.sell_price_min row -> p <= DataCollector.sell_price_min row.

Definition greatest_bid_or_zero (data : list DataCollector.api_row)
    (city item : string) (p : Q) : Prop :=
  0 <= p
  /\ (0 < p ->
      exists row, In row data /\ DataCollector.row_city row = Some city
                  /\ DataCollector.row_item_id row = Some item
                  /\ DataCollector.buy_price_max row = p)
  /\ forall row, In row data -> DataCollector.row_city row = Some city ->
       DataCollector.row_item_id row = Some item ->
       DataCollector.buy_price_max row <= p.

(** ** The calculators in binary64

    The definitions above study the formulas in exact arithmetic.  The
    focus cost ([int] of a rounded product), the break-even search (a
    loop that ends on a rounded width) and the finiteness of a margin
    are decided by the rounding itself, so the functions they involve
    are embedded a second time here, on Python's own numbers: an [int]
    is a [Z], a [float] is a binary64 value of the kernel ([float],
    IEEE 754 arithmetic, round to nearest even), and every operator
    converts and raises as CPython does.  A decimal literal stands for
    the nearest binary64 value, as in Python. *)

From Stdlib Require Import Floats.

#[local] Set Warnings "-inexact-float".

Module Binary64.

(** *** Python numbers *)

Inductive num : Type :=
| Int (n : Z)
| Float (x : float).

(** [float(n)]: the nearest binary64 value, [OverflowError] beyond the
    range. *)
Definition float_of_int (n : Z) : result float :=
  match binary_normalize prec emax n 0 false with
  | S754_infinity _ => Raise (OverflowError "int too large to convert to float")
  | x => Ok (SF2Prim x)
  end.

Definition to_float (a : num) : result float :=
  match a with
  | Int n => float_of_int n
  | Float x => Ok x
  end.

(** [a + b], [a - b], [a * b]: exact on two ints, binary64 otherwise. *)
Definition add (a b : num) : result num :=
  match a, b with
  | Int m, Int n => Ok (Int (m + n))
  | _, _ => x <- to_float a ;; y <- to_float b ;; Ok (Float (x + y))
  end.

Definition sub (a b : num) : result num :=
  match a, b with
  | Int m, Int n => Ok (Int (m - n))
  | _, _ => x <- to_float a ;; y <- to_float b ;; Ok (Float (x - y))
  end.

Definition mul (a b : num) : result num :=
  match a, b with
  | Int m, Int n => Ok (Int (m * n))
  | _, _ => x <- to_float a ;; y <- to_float b ;; Ok (Float (x * y))
  end.

Definition spec_of_int (n : Z) : spec_float :=
  match n with
  | Z0 => S754_zero false
  | Zpos p => S754_finite false p 0
  | Zneg p => S754_finite true p 0
  end.

(** [m / n] on two ints: the exact quotient rounded once. *)
Definition int_truediv (m n : Z) : result float :=
  match SFdiv prec emax (spec_of_int m) (spec_of_int n) with
  | S754_infinity _ =>
      Raise (OverflowError "integer division result too large for a float")
  | q => Ok (SF2Prim q)
  end.

(** [y == 0.0] *)
Definition float_is_zero (y : float) : bool :=
  match Prim2SF y with
  | S754_zero _ => true
  | _ => false
  end.

(** [a / b] *)
Definition truediv (a b : num) : result num :=
  match a, b with
  | Int m, Int n =>
      if (n =? 0)%Z then Raise ZeroDivisionError
      else (q <- int_truediv m n ;; Ok (Float q))
  | _, _ =>
      x <- to_float a ;;
      y <- to_float b ;;
      if float_is_zero y then Raise ZeroDivisionError else Ok (Float (x / y))
  end.

(** Comparison of a float with an int, on the exact values; [None] for
    NaN. *)
Definition float_cmp_int (x : float) (n : Z) : option comparison :=
  match Prim2SF x with
  | S754_nan => None
  | S754_infinity s => Some (if s then Lt else Gt)
  | S754_zero _ => Some (0 ?= n)%Z
  | S754_finite s m e =>
      let v := if s then Zneg m else Zpos m in
      Some (if (0 <=? e)%Z then (v * 2 ^ e ?= n)%Z else (v ?= n * 2 ^ (- e))%Z)
  end.

Definition cmp (a b : num) : option comparison :=
  match a, b with
  | Int m, Int n => Some (m ?= n)%Z
  | Float x, Int n => float_cmp_int x n
  | Int m, Float y => option_map CompOpp (float_cmp_int y m)
  | Float x, Float y =>
      match (x ?= y)%float with
      | FEq => Some Eq
      | FLt => Some Lt
      | FGt => Some Gt
      | FNotComparable => None
      end
  end.

(** [a > b] and [a < b] *)
Definition gt (a b : num) : bool :=
  match cmp a b with
  | Some Gt => true
  | _ => false
  end.

Definition lt (a b : num) : bool :=
  match cmp a b with
  | Some Lt => true
  | _ => false
  end.

(** [min(a, b)]: the first argument unless the second is smaller. *)
Definition min (a b : num) : num := if lt b a then b else a.

(** [int(a)]: truncation towards zero. *)
Definition int_ (a : num) : result Z :=
  match a with
  | Int n => Ok n
  | Float x =>
      match Prim2SF x with
      | S754_zero _ => Ok 0%Z
      | S754_infinity _ =>
          Raise (OverflowError "cannot convert float infinity to integer")
      | S754_nan => Raise (ValueError "cannot convert float NaN to integer")
      | S754_finite s m e =>
          let t := if (0 <=? e)%Z then (Zpos m * 2 ^ e)%Z
                   else (Zpos m / 2 ^ (- e))%Z in
          Ok (if s then (- t)%Z else t)
      end
  end.

Definition is_nan (a : num) : bool :=
  match a with
  | Int _ => false
  | Float x => PrimFloat.is_nan x
  end.

Definition is_infinite (a : num) : bool :=
  match a with
  | Int _ => false
  | Float x => PrimFloat.is_infinity x
  end.

(** *** src/refining_calculator.py *)

Module Refining.

Record RefiningResult : Type := mkRefiningResult {
  total_cost : num;
  total_revenue : num;
  net_profit : num;
  profit_margin : num;
  focus_cost : Z;
  tax_cost : num;
  return_rate : num;
  resources_returned : Z;
  refined_quantity : Z;
  prev_refined_needed : Z;
  raw_material_cost : num;
  prev_refined_material_cost : num;
  output_value : num;
  input_cost : num;
  premium : bool;
  use_focus : bool
}.

(** REFINING_DATA: the float entries; the integer tables are those of
    [RefiningCalculator]. *)
Definition tax_rates : dict float :=
  [("Thetford", 0.045); ("Fort Sterling", 0.045); ("Lymhurst", 0.045);
   ("Bridgewatch", 0.045); ("Martlock", 0.045); ("Caerleon", 0.035);
   ("Brecilien", 0.020)]%float.

Definition premium_bonus : float := 0.50.
Definition focus_bonus : float := 0.45.
Definition base_refining_bonus : float := 0.18.
Definition nutrition_cost_multiplier : float := 0.1125.

(** The table local to [get_local_production_bonus]. *)
Definition city_bonuses : dict (dict float) :=
  [("Fort Sterling", [("WOOD", 0.40)]);
   ("Lymhurst", [("FIBER", 0.40)]);
   ("Bridgewatch", [("ROCK", 0.40)]);
   ("Martlock", [("HIDE", 0.40)]);
   ("Thetford", [("ORE", 0.40)]);
   ("Caerleon", []);
   ("Brecilien", [])]%float.

Definition get_local_production_bonus (city resource_type : string) : float :=
  let city_bonus := get_default city_bonuses city [] in
  get_default city_bonus resource_type 0.0%float.

Definition calculate_return_rate (city resource_type : string)
    (use_focus personal_island : bool) : result num :=
  let total_bonus := Float base_refining_bonus in
  total_bonus <-
    (if negb personal_island
     then add total_bonus (Float (get_local_production_bonus city resource_type))
     else Ok total_bonus) ;;
  total_bonus <-
    (if use_focus then add total_bonus (Float focus_bonus) else Ok total_bonus) ;;
  s <- add (Int 1) total_bonus ;;
  q <- truediv (Int 1) s ;;
  sub (Int 1) q.

Definition calculate_focus_cost (tier : string) (quantity specialization : Z)
    (premium : bool) : result Z :=
  let base_cost := get_default RefiningCalculator.base_focus_cost tier 10%Z in
  r <- truediv (Int specialization) (Int 100) ;;
  r <- mul r (Float 0.5) ;;
  spec_reduction <- sub (Int 1) r ;;
  premium_reduction <-
    (if premium then sub (Int 1) (Float premium_bonus) else Ok (Float 1.0)) ;;
  t <- mul (Int base_cost) (Int quantity) ;;
  t <- mul t spec_reduction ;;
  total_cost <- mul t premium_reduction ;;
  c <- int_ total_cost ;;
  Ok (Z.max 1 c).

Definition calculate_refining_profit (tier resource_type city : string)
    (raw_price refined_price : num) (quantity specialization : Z)
    (premium use_focus : bool) (prev_refined_price : num) : result RefiningResult :=
  let requirements :=
    get_default RefiningCalculator.resource_requirements tier
      (RefiningCalculator.mkRequirement 2 1) in
  let raw_per_refined := RefiningCalculator.raw requirements in
  let prev_refined_per_refined := RefiningCalculator.refined_prev requirements in
  let refined_quantity := (quantity / raw_per_refined)%Z in
  if (refined_quantity =? 0)%Z then
    Raise (TypeError "__init__() missing 2 required positional arguments: 'output_value' and 'input_cost'")
  else
    let prev_refined_needed := (refined_quantity * prev_refined_per_refined)%Z in
    raw_material_cost <- mul (Int quantity) raw_price ;;
    prev_refined_material_cost <- mul (Int prev_refined_needed) prev_refined_price ;;
    input_cost <- add raw_material_cost prev_refined_material_cost ;;
    return_rate <- calculate_return_rate city resource_type use_focus false ;;
    focus_cost <-
      (if use_focus
       then calculate_focus_cost tier refined_quantity specialization premium
       else Ok 0%Z) ;;
    let tax_rate := get_default tax_rates city 0.05%float in
    let item_value :=
      get_default RefiningCalculator.item_values (tier ++ "_REFINED") 0%Z in
    t <- mul (Int refined_quantity) (Int item_value) ;;
    t <- mul t (Float nutrition_cost_multiplier) ;;
    tax_cost <- mul t (Float tax_rate) ;;
    total_cost <- add input_cost tax_cost ;;
    total_revenue <- mul (Int refined_quantity) refined_price ;;
    a <- mul (Int quantity) return_rate ;;
    a <- mul a raw_price ;;
    b <- mul (Int prev_refined_needed) return_rate ;;
    b <- mul b prev_refined_price ;;
    resources_returned_value <- add a b ;;
    total_revenue <- add total_revenue resources_returned_value ;;
    net_profit <- sub total_revenue total_cost ;;
    profit_margin <-
      (if gt total_cost (Int 0)
       then (m <- truediv net_profit total_cost ;; mul m (Int 100))
       else Ok (Int 0)) ;;
    r <- mul (Int quantity) return_rate ;;
    resources_returned <- int_ r ;;
    Ok {| total_cost := total_cost;
          total_revenue := total_revenue;
          net_profit := net_profit;
          profit_margin := profit_margin;
          focus_cost := focus_cost;
          tax_cost := tax_cost;
          return_rate := return_rate;
          resources_returned := resources_returned;
          refined_quantity := refined_quantity;
          prev_refined_needed := prev_refined_needed;
          raw_material_cost := raw_material_cost;
          prev_refined_material_cost := prev_refined_material_cost;
          output_value := total_revenue;
          input_cost := input_cost;
          premium := premium;
          use_focus := use_focus |}.

(** [calculate_break_even_price]: the [while] loop, with a bound on the
    number of iterations; [None] when the bound is reached before the
    loop ends. *)
Section BreakEven.
Variables (tier resource_type city : string) (refined_price : num)
  (specialization : Z) (premium use_focus : bool) (prev_refined_price : num).

Definition tolerance : float := 0.01.

(** One evaluation of the loop condition and, when it holds, of the
    loop body. *)
Inductive iteration : Type :=
| Return (low : num)
| Continue (low high : num)
| Fail (e : exn).

Definition break_even_step (low high : num) : iteration :=
  match sub high low with
  | Raise e => Fail e
  | Ok width =>
      if gt width (Float tolerance) then
        match (s <- add low high ;; truediv s (Int 2)) with
        | Raise e => Fail e
        | Ok mid =>
            match calculate_refining_profit tier resource_type city mid
                    refined_price 100 specialization premium use_focus
                    prev_refined_price with
            | Raise e => Fail e
            | Ok result =>
                if gt (net_profit result) (Int 0)
                then Continue mid high
                else Continue low mid
            end
        end
      else Return low
  end.

Fixpoint break_even_loop (fuel : nat) (low high : num) : option (result num) :=
  match break_even_step low high with
  | Return low => Some (Ok low)
  | Fail e => Some (Raise e)
  | Continue low high =>
      match fuel with
      | O => None
      | S fuel' => break_even_loop fuel' low high
      end
  end.

Definition calculate_break_even_price (fuel : nat) : option (result num) :=
  match mul refined_price (Int 10) with
  | Raise e => Some (Raise e)
  | Ok high => break_even_loop fuel (Float 1.0) high
  end.

End BreakEven.

End Refining.

(** *** src/crafting_calculator.py *)

Module Crafting.

Record CraftingResult : Type := mkCraftingResult {
  net_profit : num;
  gross_profit : num;
  total_cost : num;
  total_revenue : num;
  profit_margin : num;
  return_rate : num;
  focus_cost : Z;
  tax_amount : num;
  material_costs : dict num;
  items_produced : num;
  break_even_price : num
}.

(** [_load_crafting_data]: the float entries; the recipes and the
    integer table are those of [CraftingCalculator]. *)
Definition base_return_rate : dict float :=
  [("T4", 0.15); ("T5", 0.20); ("T6", 0.22); ("T7", 0.24); ("T8", 0.26)]%float.

Definition tax_rates : dict float :=
  [("Caerleon", 0.035); ("Thetford", 0.045); ("Fort Sterling", 0.045);
   ("Lymhurst", 0.045); ("Bridgewatch", 0.045); ("Martlock", 0.045);
   ("Brecilien", 0.045)]%float.

Definition city_bonuses : dict (dict float) :=
  [("Thetford", [("FIBER", 0.15); ("CLOTH", 0.15)]);
   ("Fort Sterling", [("ORE", 0.15); ("METAL", 0.15)]);
   ("Lymhurst", [("WOOD", 0.15)]);
   ("Bridgewatch", [("HIDE", 0.15); ("LEATHER", 0.15)]);
   ("Martlock", [("ROCK", 0.15); ("STONE", 0.15)]);
   ("Caerleon", []);
   ("Brecilien", [])]%float.

Definition calculate_return_rate (tier : string) (specialization : Z)
    (premium use_focus : bool) : result num :=
  let base_rate := Float (get_default base_return_rate tier 0.15%float) in
  r <- truediv (Int specialization) (Int 100) ;;
  spec_bonus <- mul r (Float 0.30) ;;
  return_rate <-
    (if use_focus
     then (let focus_bonus := Float 0.35 in
           s <- add base_rate spec_bonus ;; add s focus_bonus)
     else add base_rate spec_bonus) ;;
  Ok (min return_rate (Float 0.70)).

Definition calculate_focus_cost (tier : string) (specialization : Z)
    (premium use_focus : bool) : result Z :=
  if negb use_focus then Ok 0%Z
  else
    let base_focus := get_default CraftingCalculator.focus_per_craft tier 10%Z in
    r <- truediv (Int specialization) (Int 100) ;;
    spec_reduction <- mul r (Float 0.50) ;;
    f <- sub (Int 1) spec_reduction ;;
    focus_cost <- mul (Int base_focus) f ;;
    c <- int_ focus_cost ;;
    Ok (Z.max c 1).

(** The loop over [recipe['materials'].items()]. *)
Definition material_step (city_bonus : num) (quantity : Z) (material_prices : dict num)
    (st : result (dict num * num)) (entry : string * Z) : result (dict num * num) :=
  st <- st ;;
  let '(material_costs, total_material_cost) := st in
  let '(material, base_amount) := entry in
  f <- sub (Int 1) city_bonus ;;
  a <- mul (Int base_amount) f ;;
  actual_amount <- mul a (Int quantity) ;;
  let material_price := get_default material_prices material (Int 0) in
  cost <- mul actual_amount material_price ;;
  total_material_cost <- add total_material_cost cost ;;
  Ok ((material_costs ++ [(material, cost)])%list, total_material_cost).

Definition calculate_crafting_profit (item_id city : string)
    (material_prices : dict num) (item_sell_price : num)
    (quantity specialization : Z) (premium use_focus : bool)
    : result CraftingResult :=
  match get CraftingCalculator.recipes item_id with
  | None => Raise (ValueError ("Recipe not found for " ++ item_id))
  | Some recipe =>
      let tier := CraftingCalculator.split_head item_id in
      return_rate <- calculate_return_rate tier specialization premium use_focus ;;
      focus_cost <- calculate_focus_cost tier specialization premium use_focus ;;
      let crafting_bonus_type := CraftingCalculator.crafting_city_bonus recipe in
      let city_bonus :=
        match get city_bonuses city with
        | Some bonuses =>
            match get bonuses crafting_bonus_type with
            | Some b => Float b
            | None => Int 0
            end
        | None => Int 0
        end in
      st <- fold_left (material_step city_bonus quantity material_prices)
              (CraftingCalculator.materials recipe) (Ok ([], Int 0)) ;;
      let '(material_costs, total_material_cost) := st in
      f <- add (Int 1) return_rate ;;
      items_produced <- mul (Int quantity) f ;;
      total_revenue <- mul items_produced item_sell_price ;;
      let tax_rate := get_default tax_rates city 0.05%float in
      tax_amount <- mul total_revenue (Float tax_rate) ;;
      gross_profit <- sub total_revenue total_material_cost ;;
      net_profit <- sub gross_profit tax_amount ;;
      total_cost <- add total_material_cost tax_amount ;;
      profit_margin <-
        (if gt total_revenue (Int 0)
         then (m <- truediv net_profit total_revenue ;; mul m (Int 100))
         else Ok (Int 0)) ;;
      break_even_price <-
        (if gt items_produced (Int 0)
         then truediv total_cost items_produced
         else Ok (Int 0)) ;;
      Ok {| net_profit := net_profit;
            gross_profit := gross_profit;
            total_cost := total_cost;
            total_revenue := total_revenue;
            profit_margin := profit_margin;
            return_rate := return_rate;
            focus_cost := (focus_cost * quantity)%Z;
            tax_amount := tax_amount;
            material_costs := material_costs;
            items_produced := items_produced;
            break_even_price := break_even_price |}
  end.

End Crafting.

End Binary64.

(** ** Auxiliary definitions for the binary64 statements *)

(** The exact value of a finite binary64 number. *)
Definition float_value (x : float) : option Q :=
  match Prim2SF x with
  | S754_zero _ => Some 0
  | S754_finite s m e =>
      let v := if s then Zneg m else Zpos m in
      Some (if (0 <=? e)%Z then inject_Z (v * 2 ^ e)
            else Qmake v (Z.to_pos (2 ^ (- e))))
  | _ => None
  end.

(** The product of the specification's focus formula, evaluated in
    binary64 from left to right: the integer [base * quantity] first,
    then the specialization reduction, then the premium multiplier. *)
Definition focus_product (base quantity specialization : Z)
    (reductionFactor premiumFocusMultiplier : float) (premium : bool)
    : result Binary64.num :=
  let mul := Binary64.mul in
  r <- Binary64.truediv (Binary64.Int specialization) (Binary64.Int 100) ;;
  r <- mul r (Binary64.Float reductionFactor) ;;
  f <- Binary64.sub (Binary64.Int 1) r ;;
  t <- mul (Binary64.Int base) (Binary64.Int quantity) ;;
  t <- mul t f ;;
  mul t (Binary64.Float (if premium then premiumFocusMultiplier else 1.0)).

(** The same product without quantity and premium, as the crafting
    calculator forms it. *)
Definition crafting_focus_product (base specialization : Z) (reductionFactor : float)
    : result Binary64.num :=
  r <- Binary64.truediv (Binary64.Int specialization) (Binary64.Int 100) ;;
  r <- Binary64.mul r (Binary64.Float reductionFactor) ;;
  f <- Binary64.sub (Binary64.Int 1) r ;;
  Binary64.mul (Binary64.Int base) f.

(** [max(1, int(p))] for a computed product. *)
Definition floor_at_one (p : result Binary64.num) : result Z :=
  p <- p ;; c <- Binary64.int_ p ;; Ok (Z.max 1 c).

(** The interval of the break-even search after [n] passes of its
    loop; [None] when the loop has ended before. *)
Fixpoint break_even_state_after (tier resource_type city : string)
    (refined_price : Binary64.num) (specialization : Z) (premium use_focus : bool)
    (prev_refined_price : Binary64.num) (n : nat) (low high : Binary64.num)
    : option (Binary64.num * Binary64.num) :=
  match n with
  | O => Some (low, high)
  | S n' =>
      match Binary64.Refining.break_even_step tier resource_type city refined_price
              specialization premium use_focus prev_refined_price low high with
      | Binary64.Refining.Continue low' high' =>
          break_even_state_after tier resource_type city refined_price
            specialization premium use_focus prev_refined_price n' low' high'
      | _ => None
      end
  end.

(** The search is stuck at an interval when a pass of the loop leaves
    it as it is. *)
Definition break_even_stuck (tier resource_type city : string)
    (refined_price : Binary64.num) (specialization : Z) (premium use_focus : bool)
    (prev_refined_price : Binary64.num) (low high : Binary64.num) : Prop :=
  Binary64.Refining.break_even_step tier resource_type city refined_price
    specialization premium use_focus prev_refined_price low high
  = Binary64.Refining.Continue low high.

(** * Properties *)

(** ** Comparisons, truncation, checked division *)

Lemma Qltb_lt (x y : Q) : Qltb x y = true <-> x < y.
Proof.
  unfold Qltb. rewrite negb_true_iff. split; intro H.
  - apply Qnot_le_lt. intro Hle. apply Qle_bool_iff in Hle. congruence.
  - destruct (Qle_bool y x) eqn:E; [|reflexivity].
    apply Qle_bool_iff in E. exfalso. apply (Qlt_not_le _ _ H E).
Qed.

Lemma Qltb_ge (x y : Q) : Qltb x y = false <-> y <= x.
Proof.
  unfold Qltb. rewrite negb_false_iff. apply Qle_bool_iff.
Qed.

Lemma Qgtb_gt (x y : Q) : Qgtb x y = true <-> y < x.
Proof. apply Qltb_lt. Qed.

Lemma Qgtb_le (x y : Q) : Qgtb x y = false <-> x <= y.
Proof. apply Qltb_ge. Qed.

Lemma pydiv_ok (x y : Q) : ~ y == 0 -> pydiv x y = Ok (x / y).
Proof.
  intro H. unfold pydiv. destruct (Qeq_bool y 0) eqn:E; [|reflexivity].
  apply Qeq_bool_iff in E. contradiction.
Qed.

Lemma pydiv_pos (x y : Q) : 0 < y -> pydiv x y = Ok (x / y).
Proof. intro H. apply pydiv_ok. intro E. rewrite E in H. discriminate. Qed.

Lemma py_int_nonneg (x : Q) :
  0 <= x -> inject_Z (py_int x) <= x /\ x < inject_Z (py_int x) + 1 /\ (0 <= py_int x)%Z.
Proof.
  intro H. unfold py_int.
  destruct (Qle_bool 0 x) eqn:E.
  - split; [apply Qfloor_le|]. split.
    + pose proof (Qlt_floor x) as L. rewrite inject_Z_plus in L. exact L.
    + change 0%Z with (Qfloor 0). apply Qfloor_resp_le. exact H.
  - apply Qle_bool_iff in H. congruence.
Qed.

(** ** The saturating transform [1 - 1/(1+b)] *)

Lemma saturate_range (b : Q) : 0 <= b -> 0 <= 1 - 1 / (1 + b) /\ 1 - 1 / (1 + b) < 1.
Proof.
  intro H.
  assert (P : 0 < 1 + b) by lra.
  assert (E : 1 - 1 / (1 + b) == b / (1 + b)) by (field; lra).
  rewrite E. split.
  - apply Qle_shift_div_l; [exact P | lra].
  - apply Qlt_shift_div_r; [exact P | lra].
Qed.

Lemma saturate_mono (b1 b2 : Q) :
  0 <= b1 -> b1 < b2 -> 1 - 1 / (1 + b1) < 1 - 1 / (1 + b2).
Proof.
  intros H0 H.
  assert (P1 : 0 < 1 + b1) by lra.
  assert (P2 : 0 < 1 + b2) by lra.
  assert (E : (1 - 1 / (1 + b2)) - (1 - 1 / (1 + b1))
              == (b2 - b1) / ((1 + b1) * (1 + b2))) by (field; lra).
  assert (D : 0 < (b2 - b1) / ((1 + b1) * (1 + b2))).
  { apply Qlt_shift_div_l; [nra | lra]. }
  lra.
Qed.

(** ** Reference tables of the refining calculator *)


Lemma get_local_production_bonus_values (city resource_type : string) :
  get_local_production_bonus city resource_type = 0.40
  \/ get_local_production_bonus city resource_type = 0.0.
Proof.
  unfold get_local_production_bonus, get_default, city_bonuses. cbn [get].
  repeat match goal with
         | |- context [String.eqb ?a ?b] => destruct (String.eqb a b); cbn [get]; auto
         end.
Qed.

Lemma get_local_production_bonus_nonneg (city resource_type : string) :
  0 <= get_local_production_bonus city resource_type.
Proof.
  destruct (get_local_production_bonus_values city resource_type) as [E | E];
    rewrite E; discriminate.
Qed.

Lemma total_bonus_sum (city resource_type : string) (use_focus personal_island : bool) :
  total_bonus city resource_type use_focus personal_island
  == 0.18 + (if personal_island then 0 else get_local_production_bonus city resource_type)
     + (if use_focus then 0.45 else 0).
Proof.
  unfold total_bonus, base_refining_bonus, focus_bonus.
  destruct personal_island, use_focus; simpl; ring.
Qed.

Lemma total_bonus_pos (city resource_type : string) (use_focus personal_island : bool) :
  0.18 <= total_bonus city resource_type use_focus personal_island.
Proof.
  rewrite total_bonus_sum.
  pose proof (get_local_production_bonus_nonneg city resource_type).
  destruct personal_island, use_focus; lra.
Qed.

Lemma calculate_return_rate_ok (city resource_type : string) (use_focus personal_island : bool) :
  calculate_return_rate city resource_type use_focus personal_island
  = Ok (1 - 1 / (1 + total_bonus city resource_type use_focus personal_island)).
Proof.
  unfold calculate_return_rate.
  pose proof (total_bonus_pos city resource_type use_focus personal_island).
  rewrite pydiv_pos by lra. reflexivity.
Qed.

(** C1: the refining return rate is [1 - 1/(1+B)] for the additive bonus
    [B] = 0.18 + (city production bonus unless on a personal island)
    + (0.45 with focus); it lies in [0,1), and with focus it is strictly
    greater than without, all else fixed. *)
Theorem refining_return_rate_formula
    (city resource_type : string) (use_focus personal_island : bool) :
  let B (u : bool) := 0.18
             + (if personal_island then 0
                else get_local_production_bonus city resource_type)
             + (if u then 0.45 else 0) in
  exists rate rate_focus rate_no_focus,
    calculate_return_rate city resource_type use_focus personal_island = Ok rate
    /\ rate == 1 - 1 / (1 + B use_focus)
    /\ 0 <= rate /\ rate < 1
    /\ calculate_return_rate city resource_type true personal_island = Ok rate_focus
    /\ calculate_return_rate city resource_type false personal_island = Ok rate_no_focus
    /\ rate_no_focus < rate_focus.
Proof.
  intro B.
  assert (HB : forall u, total_bonus city resource_type u personal_island == B u).
  { intro u. apply total_bonus_sum. }
  assert (H0 : forall u, 0 <= B u).
  { intro u. rewrite <- HB.
    pose proof (total_bonus_pos city resource_type u personal_island). lra. }
  eexists _, _, _.
  rewrite !calculate_return_rate_ok.
  split; [reflexivity|].
  split; [rewrite HB; reflexivity|].
  pose proof (total_bonus_pos city resource_type use_focus personal_island) as P.
  split; [apply saturate_range; lra|].
  split; [apply saturate_range; lra|].
  split; [reflexivity|]. split; [reflexivity|].
  pose proof (total_bonus_pos city resource_type false personal_island) as Pf.
  apply saturate_mono; [lra|].
  rewrite !HB. subst B. simpl. lra.
Qed.

(** ** Crafting yield *)

Lemma crafting_base_rate_bounds (tier : string) :
  0.15 <= get_default CraftingCalculator.base_return_rate tier 0.15
  /\ get_default CraftingCalculator.base_return_rate tier 0.15 <= 0.26.
Proof.
  unfold get_default, CraftingCalculator.base_return_rate. cbn [get].
  repeat match goal with
         | |- context [String.eqb ?a ?b] => destruct (String.eqb a b); cbn [get]
         end; split; discriminate.
Qed.

Lemma spec_fraction_le (s s' : Z) :
  (s <= s')%Z -> inject_Z s / 100 <= inject_Z s' / 100.
Proof.
  intro H. rewrite Zle_Qle in H.
  apply Qle_shift_div_l; [reflexivity|].
  assert (E : inject_Z s / 100 * 100 == inject_Z s) by (field; discriminate).
  rewrite E. exact H.
Qed.

Lemma spec_fraction_range (s : Z) :
  (0 <= s <= 100)%Z -> 0 <= inject_Z s / 100 /\ inject_Z s / 100 <= 1.
Proof.
  intros [H0 H1]. split.
  - pose proof (spec_fraction_le 0 s H0) as L.
    assert (E : inject_Z 0 / 100 == 0) by reflexivity. lra.
  - pose proof (spec_fraction_le s 100 H1) as L.
    assert (E : inject_Z 100 / 100 == 1) by reflexivity. lra.
Qed.

(** C2: the crafting return rate is
    [min(baseReturnRate(tier) + specialization/100*0.30 + (0.35 with focus), 0.70)];
    for a specialization in 0..100 it lies in [0, 0.70], and it does not
    decrease when the specialization grows or when focus is switched on. *)
Theorem crafting_return_rate_formula
    (tier : string) (specialization : Z) (premium use_focus : bool) :
  (0 <= specialization <= 100)%Z ->
  let rate := CraftingCalculator.calculate_return_rate tier in
  rate specialization premium use_focus
    == Qmin (get_default CraftingCalculator.base_return_rate tier 0.15
             + inject_Z specialization / 100 * 0.30
             + (if use_focus then 0.35 else 0)) 0.70
  /\ 0 <= rate specialization premium use_focus
  /\ rate specialization premium use_focus <= 0.70
  /\ (forall specialization' : Z,
        (specialization <= specialization' <= 100)%Z ->
        rate specialization premium use_focus
        <= rate specialization' premium use_focus)
  /\ rate specialization premium false <= rate specialization premium true.
Proof.
  intros Hs rate. subst rate.
  unfold CraftingCalculator.calculate_return_rate.
  pose proof (crafting_base_rate_bounds tier) as [Hb _].
  pose proof (spec_fraction_range specialization Hs) as [Hf0 Hf1].
  set (base := get_default CraftingCalculator.base_return_rate tier 0.15) in *.
  set (f := inject_Z specialization / 100) in *.
  split.
  { destruct use_focus.
    - reflexivity.
    - apply Q.min_compat; [ring | reflexivity]. }
  split.
  { apply Q.min_glb; [destruct use_focus; nra | discriminate]. }
  split.
  { apply Q.le_min_r. }
  split.
  { intros s' Hs'.
    assert (Hle : f <= inject_Z s' / 100) by (apply spec_fraction_le; lia).
    apply Q.min_le_compat_r. destruct use_focus; lra. }
  apply Q.min_le_compat_r. lra.
Qed.

Lemma crafting_return_rate_formula_witness :
  CraftingCalculator.calculate_return_rate "T4" 50 true true == 0.65
  /\ CraftingCalculator.calculate_return_rate "T4" 50 true false
     <= CraftingCalculator.calculate_return_rate "T4" 50 true true.
Proof.
  pose proof (crafting_return_rate_formula "T4" 50 true true
                ltac:(lia)) as [E [_ [_ [_ M]]]].
  split; [|exact M].
  rewrite E. vm_compute. reflexivity.
Defined.

(** ** Focus cost *)

Lemma base_focus_cost_pos (tier : string) :
  (10 <= get_default base_focus_cost tier 10%Z)%Z.
Proof.
  unfold get_default, base_focus_cost. cbn [get].
  repeat match goal with
         | |- context [String.eqb ?a ?b] => destruct (String.eqb a b); cbn [get]
         end; lia.
Qed.

Lemma focus_per_craft_pos (tier : string) :
  (10 <= get_default CraftingCalculator.focus_per_craft tier 10%Z)%Z.
Proof.
  unfold get_default, CraftingCalculator.focus_per_craft. cbn [get].
  repeat match goal with
         | |- context [String.eqb ?a ?b] => destruct (String.eqb a b); cbn [get]
         end; lia.
Qed.

Lemma max1_py_int (x : Q) :
  0 <= x ->
  inject_Z (Z.max 1 (py_int x)) <= Qmax 1 x
  /\ Qmax 1 x - 1 < inject_Z (Z.max 1 (py_int x)).
Proof.
  intro H. destruct (py_int_nonneg x H) as [Hlo [Hhi Hz]].
  destruct (Z.max_spec 1 (py_int x)) as [[Hc E] | [Hc E]]; rewrite E.
  - assert (L : 1 <= inject_Z (py_int x)).
    { change 1 with (inject_Z 1). rewrite <- Zle_Qle. lia. }
    rewrite Q.max_r by lra. split; lra.
  - assert (L : inject_Z (py_int x) <= 1).
    { change 1 with (inject_Z 1). rewrite <- Zle_Qle. lia. }
    change (inject_Z 1) with 1.
    destruct (Q.max_spec 1 x) as [[Hx Em] | [Hx Em]]; rewrite Em; split; lra.
Qed.

Lemma calculate_crafting_profit_known
    (item_id city : string) (material_prices : dict Q) (item_sell_price : Q)
    (quantity specialization : Z) (premium use_focus : bool)
    (rcp : CraftingCalculator.recipe) :
  get CraftingCalculator.recipes item_id = Some rcp ->
  exists r total_material_cost,
    CraftingCalculator.calculate_crafting_profit item_id city material_prices
      item_sell_price quantity specialization premium use_focus = Ok r
    /\ CraftingCalculator.return_rate r
       = CraftingCalculator.calculate_return_rate
           (CraftingCalculator.split_head item_id) specialization premium use_focus
    /\ CraftingCalculator.focus_cost r
       = (CraftingCalculator.calculate_focus_cost
            (CraftingCalculator.split_head item_id) specialization premium use_focus
          * quantity)%Z
    /\ CraftingCalculator.items_produced r
       = inject_Z quantity * (1 + CraftingCalculator.return_rate r)
    /\ CraftingCalculator.total_revenue r
       = CraftingCalculator.items_produced r * item_sell_price
    /\ CraftingCalculator.tax_amount r
       = CraftingCalculator.total_revenue r
         * get_default CraftingCalculator.tax_rates city 0.05
    /\ CraftingCalculator.gross_profit r
       = CraftingCalculator.total_revenue r - total_material_cost
    /\ CraftingCalculator.net_profit r
       = CraftingCalculator.gross_profit r - CraftingCalculator.tax_amount r
    /\ CraftingCalculator.total_cost r
       = total_material_cost + CraftingCalculator.tax_amount r
    /\ CraftingCalculator.profit_margin r
       = (if Qgtb (CraftingCalculator.total_revenue r) 0
          then CraftingCalculator.net_profit r / CraftingCalculator.total_revenue r * 100
          else 0).
Proof.
  intro Hr. unfold CraftingCalculator.calculate_crafting_profit. rewrite Hr.
  destruct (fold_left (CraftingCalculator.material_step _ quantity material_prices)
              (CraftingCalculator.materials rcp) ([], 0)) as [costs total].
  set (rate := CraftingCalculator.calculate_return_rate _ _ _ _).
  set (items := inject_Z quantity * (1 + rate)).
  set (rev := items * item_sell_price).
  assert (Hm : exists m,
             (if Qgtb rev 0
              then (m <- pydiv (rev - total - rev * get_default CraftingCalculator.tax_rates city 0.05) rev ;; Ok (m * 100))
              else Ok 0) = Ok m
             /\ m = (if Qgtb rev 0
                     then (rev - total - rev * get_default CraftingCalculator.tax_rates city 0.05) / rev * 100
                     else 0)).
  { destruct (Qgtb rev 0) eqn:E.
    - apply Qgtb_gt in E. rewrite pydiv_pos by exact E. eexists; split; reflexivity.
    - eexists; split; reflexivity. }
  destruct Hm as [m [Hm Em]]. rewrite Hm. cbn [bind].
  assert (Hb : exists b,
             (if Qgtb items 0
              then pydiv (total + rev * get_default CraftingCalculator.tax_rates city 0.05) items
              else Ok 0) = Ok b).
  { destruct (Qgtb items 0) eqn:E.
    - apply Qgtb_gt in E. rewrite pydiv_pos by exact E. eexists; reflexivity.
    - eexists; reflexivity. }
  destruct Hb as [b Hb]. rewrite Hb. cbn [bind].
  eexists _, total. split; [reflexivity|]. cbn.
  repeat split; try reflexivity. exact Em.
Qed.

Lemma max1_py_int_any (x : Q) :
  inject_Z (Z.max 1 (py_int x)) <= Qmax 1 x
  /\ Qmax 1 x - 1 < inject_Z (Z.max 1 (py_int x)).
Proof.
  destruct (Qlt_le_dec x 0) as [Hneg | Hpos]; [|apply max1_py_int, Hpos].
  unfold py_int.
  destruct (Qle_bool 0 x) eqn:E; [apply Qle_bool_iff in E; lra|].
  pose proof (Qceiling_lt x) as Hc.
  assert (Hz : (Qceiling x <= 0)%Z).
  { assert (L : inject_Z (Qceiling x - 1) < inject_Z 0) by (change (inject_Z 0) with 0; lra).
    rewrite <- Zlt_Qlt in L. lia. }
  rewrite Z.max_l by lia. rewrite Q.max_l by lra.
  change (inject_Z 1) with 1. split; lra.
Qed.

(** [int] on a binary64 number truncates its exact value. *)
Lemma int_float_value (x : float) (t : Z) :
  Binary64.int_ (Binary64.Float x) = Ok t ->
  exists v, float_value x = Some v /\ t = py_int v.
Proof.
  unfold Binary64.int_, float_value.
  destruct (Prim2SF x) as [s | s | | s m e]; try discriminate.
  - intro H. injection H as <-. exists 0. split; reflexivity.
  - intro H. injection H as <-.
    destruct (0 <=? e)%Z eqn:He.
    + eexists. split; [reflexivity|].
      unfold py_int. rewrite Qfloor_Z, Qceiling_Z.
      destruct s.
      * destruct (Qle_bool 0 _); destruct (2 ^ e)%Z; reflexivity.
      * destruct (Qle_bool 0 _); reflexivity.
    + eexists. split; [reflexivity|].
      apply Z.leb_gt in He.
      assert (Hpow : (0 < 2 ^ (- e))%Z) by (apply Z.pow_pos_nonneg; lia).
      assert (Epos : Z.pos (Z.to_pos (2 ^ (- e))) = (2 ^ (- e))%Z)
        by (apply Z2Pos.id, Hpow).
      unfold py_int, Qle_bool, Qfloor, Qceiling, Qopp, Qfloor. cbn [Qnum Qden].
      rewrite Epos.
      destruct s.
      * replace (0 * 2 ^ (- e) <=? Z.neg m * 1)%Z with false
          by (symmetry; apply Z.leb_gt; lia).
        change (- Z.neg m)%Z with (Z.pos m). reflexivity.
      * replace (0 * 2 ^ (- e) <=? Z.pos m * 1)%Z with true
          by (symmetry; apply Z.leb_le; lia).
        reflexivity.
Qed.

Lemma mul_float_r (a : Binary64.num) (y : float) (p : Binary64.num) :
  Binary64.mul a (Binary64.Float y) = Ok p -> exists x, p = Binary64.Float x.
Proof.
  unfold Binary64.mul. destruct a as [n | x].
  - destruct (Binary64.to_float (Binary64.Int n)) as [x | e]; cbn [bind];
      [|discriminate].
    intro H. injection H as <-. eexists. reflexivity.
  - cbn [Binary64.to_float bind]. intro H. injection H as <-. eexists. reflexivity.
Qed.

Lemma sub_float_r (a : Binary64.num) (y : float) (p : Binary64.num) :
  Binary64.sub a (Binary64.Float y) = Ok p -> exists x, p = Binary64.Float x.
Proof.
  unfold Binary64.sub. destruct a as [n | x].
  - destruct (Binary64.to_float (Binary64.Int n)) as [x | e]; cbn [bind];
      [|discriminate].
    intro H. injection H as <-. eexists. reflexivity.
  - cbn [Binary64.to_float bind]. intro H. injection H as <-. eexists. reflexivity.
Qed.

(** What [max(1, int(p))] is for a binary64 product [p]: the exact
    value of [p] floored at 1 and truncated. *)
Lemma floor_at_one_bounds (p : result Binary64.num) (x : float) (c : Z) :
  p = Ok (Binary64.Float x) -> floor_at_one p = Ok c ->
  (1 <= c)%Z
  /\ exists v, float_value x = Some v
               /\ inject_Z c <= Qmax 1 v /\ Qmax 1 v - 1 < inject_Z c.
Proof.
  intros -> H. unfold floor_at_one in H. cbn [bind] in H.
  destruct (Binary64.int_ (Binary64.Float x)) as [t | e] eqn:Et; cbn [bind] in H;
    [|discriminate].
  injection H as <-. split; [lia|].
  destruct (int_float_value x t Et) as [v [Hv ->]].
  exists v. split; [exact Hv|]. apply max1_py_int_any.
Qed.

(** C3, counterexample: the crafting focus cost is the same with and
    without premium, so no premium multiplier other than 1 fits it; and
    the refining focus cost at tier T4, one unit, specialization 1 is 9
    where the product of the formula is 9.95. *)
Lemma focus_cost_claim_counterexample :
  Binary64.Crafting.calculate_focus_cost "T4" 0 true true = Ok 10%Z
  /\ Binary64.Crafting.calculate_focus_cost "T4" 0 false true = Ok 10%Z
  /\ (forall reductionFactor premiumFocusMultiplier : Q,
        ~ premiumFocusMultiplier == 1 ->
        ~ inject_Z (10 * 1)
          == focus_cost_per_spec 10 1 0 reductionFactor premiumFocusMultiplier true)
  /\ Binary64.Refining.calculate_focus_cost "T4" 1 1 false = Ok 9%Z
  /\ focus_cost_per_spec 10 1 1 0.5 0.5 false == 9.95.
Proof.
  split; [vm_compute; reflexivity|]. split; [vm_compute; reflexivity|]. split.
  - intros rf pm Hpm. unfold focus_cost_per_spec. intro E.
    assert (S1 : inject_Z 10 * inject_Z 1 * (1 - inject_Z 0 / 100 * rf) * pm == 10 * pm).
    { change (inject_Z 10) with 10. change (inject_Z 1) with 1.
      change (inject_Z 0 / 100) with (0 / 100). field. }
    rewrite S1 in E. change (inject_Z (10 * 1)) with 10 in E.
    destruct (Q.max_spec 1 (10 * pm)) as [[_ Em] | [_ Em]]; rewrite Em in E.
    + apply Hpm. lra.
    + discriminate E.
  - split; [vm_compute; reflexivity|]. vm_compute. reflexivity.
Qed.

(** C3, amended: the refining focus cost is [max(1, int(p))] for the
    binary64 product
    [p = base(tier) * quantity * (1 - specialization/100*0.5) * (0.5 if premium else 1.0)],
    so it is the exact value of that rounded product floored at 1 and
    truncated: 32 at T4, quantity 5, specialization 68, where the
    product is 33 in exact arithmetic.  The crafting focus cost per
    craft is 0 without focus and otherwise [max(1, int(p))] for
    [p = base(tier) * (1 - specialization/100*0.50)], the same with and
    without premium; the crafting profit reports it times the
    quantity. *)
Theorem focus_cost_formulas
    (tier : string) (quantity specialization : Z) (premium use_focus : bool) :
  let base := get_default base_focus_cost tier 10%Z in
  let craft_base := get_default CraftingCalculator.focus_per_craft tier 10%Z in
  Binary64.Refining.calculate_focus_cost tier quantity specialization premium
  = floor_at_one (focus_product base quantity specialization 0.5 0.5 premium)
  /\ (forall c,
        Binary64.Refining.calculate_focus_cost tier quantity specialization premium
        = Ok c ->
        (1 <= c)%Z
        /\ exists x v,
             focus_product base quantity specialization 0.5 0.5 premium
             = Ok (Binary64.Float x)
             /\ float_value x = Some v
             /\ inject_Z c <= Qmax 1 v /\ Qmax 1 v - 1 < inject_Z c)
  /\ Binary64.Refining.calculate_focus_cost "T4" 5 68 false = Ok 32%Z
  /\ focus_cost_per_spec 10 5 68 0.5 0.5 false == 33
  /\ Binary64.Crafting.calculate_focus_cost tier specialization premium use_focus
     = (if use_focus
        then floor_at_one (crafting_focus_product craft_base specialization 0.50)
        else Ok 0%Z)
  /\ (forall c,
        Binary64.Crafting.calculate_focus_cost tier specialization premium true
        = Ok c ->
        (1 <= c)%Z
        /\ exists x v,
             crafting_focus_product craft_base specialization 0.50
             = Ok (Binary64.Float x)
             /\ float_value x = Some v
             /\ inject_Z c <= Qmax 1 v /\ Qmax 1 v - 1 < inject_Z c)
  /\ Binary64.Crafting.calculate_focus_cost tier specialization true use_focus
     = Binary64.Crafting.calculate_focus_cost tier specialization false use_focus
  /\ (forall item_id city material_prices item_sell_price r,
        Binary64.Crafting.calculate_crafting_profit item_id city material_prices
          item_sell_price quantity specialization premium use_focus = Ok r ->
        exists c,
          Binary64.Crafting.calculate_focus_cost
            (CraftingCalculator.split_head item_id) specialization premium use_focus
          = Ok c
          /\ Binary64.Crafting.focus_cost r = (c * quantity)%Z).
Proof.
  intros base craft_base.
  assert (E1 : Binary64.Refining.calculate_focus_cost tier quantity specialization
                 premium
               = floor_at_one (focus_product base quantity specialization 0.5 0.5
                                 premium)).
  { unfold Binary64.Refining.calculate_focus_cost, floor_at_one, focus_product.
    fold base.
    destruct (Binary64.truediv _ _) as [r | e]; cbn [bind]; [|reflexivity].
    destruct (Binary64.mul r _) as [r' | e]; cbn [bind]; [|reflexivity].
    destruct (Binary64.sub _ r') as [f | e]; cbn [bind];
      [|destruct premium; reflexivity].
    assert (Ep : (if premium
                  then Binary64.sub (Binary64.Int 1)
                         (Binary64.Float Binary64.Refining.premium_bonus)
                  else Ok (Binary64.Float 1.0))
                 = Ok (Binary64.Float (if premium then 0.5 else 1.0)%float))
      by (destruct premium; reflexivity).
    rewrite Ep. cbn [bind].
    change (Binary64.mul (Binary64.Int base) (Binary64.Int quantity))
      with (@Ok Binary64.num (Binary64.Int (base * quantity))).
    cbn [bind].
    destruct (Binary64.mul _ f) as [t | e]; cbn [bind]; [|reflexivity].
    destruct (Binary64.mul t _) as [p | e]; cbn [bind]; reflexivity. }
  assert (E2 : Binary64.Crafting.calculate_focus_cost tier specialization premium
                 use_focus
               = (if use_focus
                  then floor_at_one
                         (crafting_focus_product craft_base specialization 0.50)
                  else Ok 0%Z)).
  { unfold Binary64.Crafting.calculate_focus_cost, floor_at_one,
      crafting_focus_product. fold craft_base.
    destruct use_focus; cbn [negb]; [|reflexivity].
    destruct (Binary64.truediv _ _) as [r | e]; cbn [bind]; [|reflexivity].
    destruct (Binary64.mul r _) as [r' | e]; cbn [bind]; [|reflexivity].
    destruct (Binary64.sub _ r') as [f | e]; cbn [bind]; [|reflexivity].
    destruct (Binary64.mul _ f) as [p | e]; cbn [bind]; [|reflexivity].
    destruct (Binary64.int_ p) as [c | e]; cbn [bind]; [|reflexivity].
    rewrite Z.max_comm. reflexivity. }
  split; [exact E1|]. split.
  { intros c Hc. rewrite E1 in Hc.
    destruct (focus_product base quantity specialization 0.5 0.5 premium)
      as [p | e] eqn:Ep; [|discriminate].
    assert (Hx : exists x, p = Binary64.Float x).
    { unfold focus_product in Ep.
      destruct (Binary64.truediv _ _) as [r | e]; cbn [bind] in Ep; [|discriminate].
      destruct (Binary64.mul r _) as [r' | e]; cbn [bind] in Ep; [|discriminate].
      destruct (Binary64.sub _ r') as [f | e]; cbn [bind] in Ep; [|discriminate].
      change (Binary64.mul (Binary64.Int base) (Binary64.Int quantity))
        with (@Ok Binary64.num (Binary64.Int (base * quantity))) in Ep.
      cbn [bind] in Ep.
      destruct (Binary64.mul _ f) as [t | e]; cbn [bind] in Ep; [|discriminate].
      apply (mul_float_r _ _ _ Ep). }
    destruct Hx as [x ->].
    destruct (floor_at_one_bounds _ x c eq_refl Hc) as [H1 [v [Hv Hb]]].
    split; [exact H1|]. exists x, v. split; [reflexivity|]. split; assumption. }
  split; [vm_compute; reflexivity|].
  split; [vm_compute; reflexivity|].
  split; [exact E2|]. split.
  { intros c Hc.
    assert (E2' : Binary64.Crafting.calculate_focus_cost tier specialization premium
                    true
                  = floor_at_one
                      (crafting_focus_product craft_base specialization 0.50)).
    { unfold Binary64.Crafting.calculate_focus_cost, floor_at_one,
        crafting_focus_product. fold craft_base. cbn [negb].
      destruct (Binary64.truediv _ _) as [r | e]; cbn [bind]; [|reflexivity].
      destruct (Binary64.mul r _) as [r' | e]; cbn [bind]; [|reflexivity].
      destruct (Binary64.sub _ r') as [f | e]; cbn [bind]; [|reflexivity].
      destruct (Binary64.mul _ f) as [p | e]; cbn [bind]; [|reflexivity].
      destruct (Binary64.int_ p) as [c' | e]; cbn [bind]; [|reflexivity].
      rewrite Z.max_comm. reflexivity. }
    rewrite E2' in Hc.
    destruct (crafting_focus_product craft_base specialization 0.50)
      as [p | e] eqn:Ep; [|discriminate].
    assert (Hx : exists x, p = Binary64.Float x).
    { unfold crafting_focus_product in Ep.
      destruct (Binary64.truediv _ _) as [r | e]; cbn [bind] in Ep; [|discriminate].
      destruct (Binary64.mul r _) as [r' | e] eqn:Er; cbn [bind] in Ep;
        [|discriminate].
      destruct (mul_float_r _ _ _ Er) as [y ->].
      destruct (Binary64.sub _ _) as [f | e] eqn:Ef; cbn [bind] in Ep;
        [|discriminate].
      destruct (sub_float_r _ _ _ Ef) as [z ->].
      apply (mul_float_r _ _ _ Ep). }
    destruct Hx as [x ->].
    destruct (floor_at_one_bounds _ x c eq_refl Hc) as [H1 [v [Hv Hb]]].
    split; [exact H1|]. exists x, v. split; [reflexivity|]. split; assumption. }
  split; [reflexivity|].
  intros item_id city mp price r Hr.
  unfold Binary64.Crafting.calculate_crafting_profit in Hr.
  destruct (get CraftingCalculator.recipes item_id) as [rcp |]; [|discriminate].
  clear E1 E2.
  destruct (Binary64.Crafting.calculate_return_rate _ _ _ _) as [rate | e];
    cbn [bind] in Hr; [|discriminate Hr].
  destruct (Binary64.Crafting.calculate_focus_cost
              (CraftingCalculator.split_head item_id) specialization premium
              use_focus) as [c | e];
    cbn [bind] in Hr; [|discriminate Hr].
  exists c. split; [reflexivity|].
  destruct (fold_left _ _ _) as [[costs total] | e]; cbn [bind] in Hr;
    [|discriminate Hr].
  repeat match type of Hr with
         | bind ?P _ = _ => destruct P; cbn [bind] in Hr; [|discriminate Hr]
         end.
  injection Hr as <-. reflexivity.
Qed.

Lemma focus_cost_formulas_witness :
  Binary64.Refining.calculate_focus_cost "T5" 100 50 true = Ok 750%Z
  /\ Binary64.Crafting.calculate_focus_cost "T5" 50 true true = Ok 15%Z.
Proof.
  pose proof (focus_cost_formulas "T5" 100 50 true true)
    as [E [_ [_ [_ [C _]]]]].
  split.
  - rewrite E. vm_compute. reflexivity.
  - rewrite C. vm_compute. reflexivity.
Defined.

(** ** The refining profit calculation *)

Lemma requirements_range (tier : string) :
  (2 <= raw (requirements_of tier) <= 6)%Z
  /\ refined_prev (requirements_of tier) = 1%Z.
Proof.
  unfold requirements_of, get_default, resource_requirements. cbn [get].
  repeat match goal with
         | |- context [String.eqb ?a ?b] => destruct (String.eqb a b); cbn [get]
         end; cbn; split; solve [lia | reflexivity].
Qed.

Lemma item_value_nonneg (key : string) :
  (0 <= get_default item_values key 0)%Z.
Proof.
  unfold get_default, item_values. cbn [get].
  repeat match goal with
         | |- context [String.eqb ?a ?b] => destruct (String.eqb a b); cbn [get]
         end; lia.
Qed.

Lemma refining_tax_rate_range (city : string) :
  0.020 <= get_default RefiningCalculator.tax_rates city 0.05
  /\ get_default RefiningCalculator.tax_rates city 0.05 <= 0.05.
Proof.
  unfold get_default, RefiningCalculator.tax_rates. cbn [get].
  repeat match goal with
         | |- context [String.eqb ?a ?b] => destruct (String.eqb a b); cbn [get]
         end; split; discriminate.
Qed.

(** The result of [calculate_refining_profit] when at least one batch
    can be refined. *)
Lemma calculate_refining_profit_batch
    (tier resource_type city : string) (raw_price refined_price : Q)
    (quantity specialization : Z) (premium use_focus : bool)
    (prev_refined_price : Q) :
  (quantity / raw (requirements_of tier) <> 0)%Z ->
  exists r,
    calculate_refining_profit tier resource_type city raw_price refined_price
      quantity specialization premium use_focus prev_refined_price = Ok r
    /\ refined_quantity r = (quantity / raw (requirements_of tier))%Z
    /\ prev_refined_needed r
       = (refined_quantity r * refined_prev (requirements_of tier))%Z
    /\ raw_material_cost r = inject_Z quantity * raw_price
    /\ prev_refined_material_cost r
       = inject_Z (prev_refined_needed r) * prev_refined_price
    /\ input_cost r = raw_material_cost r + prev_refined_material_cost r
    /\ return_rate r = 1 - 1 / (1 + total_bonus city resource_type use_focus false)
    /\ tax_cost r
       = inject_Z (refined_quantity r)
         * inject_Z (get_default item_values (tier ++ "_REFINED") 0%Z)
         * nutrition_cost_multiplier
         * get_default RefiningCalculator.tax_rates city 0.05
    /\ total_cost r = input_cost r + tax_cost r
    /\ total_revenue r
       = inject_Z (refined_quantity r) * refined_price
         + (inject_Z quantity * return_rate r * raw_price
            + inject_Z (prev_refined_needed r) * return_rate r * prev_refined_price)
    /\ net_profit r = total_revenue r - total_cost r
    /\ profit_margin r
       = (if Qgtb (total_cost r) 0 then net_profit r / total_cost r * 100 else 0)
    /\ focus_cost r
       = (if use_focus
          then calculate_focus_cost tier (refined_quantity r) specialization premium
          else 0%Z).
Proof.
  intro Hq. unfold calculate_refining_profit. fold (requirements_of tier).
  destruct (Z.eqb_spec (quantity / raw (requirements_of tier)) 0) as [E | _];
    [contradiction|].
  rewrite calculate_return_rate_ok. cbn [bind].
  match goal with
  | |- context [if Qgtb ?c 0 then (m <- pydiv ?n ?c ;; Ok (m * 100)) else Ok 0] =>
      assert (Hm : (if Qgtb c 0 then (m <- pydiv n c ;; Ok (m * 100)) else Ok 0)
                   = Ok (if Qgtb c 0 then n / c * 100 else 0));
      [ destruct (Qgtb c 0) eqn:G;
        [ apply Qgtb_gt in G; rewrite pydiv_pos by exact G; reflexivity
        | reflexivity ]
      | rewrite Hm ]
  end.
  cbn [bind]. eexists. split; [reflexivity|]. cbn.
  repeat split; reflexivity.
Qed.

Lemma calculate_refining_profit_degenerate
    (tier resource_type city : string) (raw_price refined_price : Q)
    (quantity specialization : Z) (premium use_focus : bool)
    (prev_refined_price : Q) :
  (quantity / raw (requirements_of tier) = 0)%Z ->
  exists msg,
    calculate_refining_profit tier resource_type city raw_price refined_price
      quantity specialization premium use_focus prev_refined_price
    = Raise (TypeError msg).
Proof.
  intro Hq. unfold calculate_refining_profit. fold (requirements_of tier).
  rewrite Hq. cbn. eexists. reflexivity.
Qed.

Lemma hundred_is_a_batch (tier : string) :
  (100 / raw (requirements_of tier) <> 0)%Z.
Proof.
  destruct (requirements_range tier) as [[H2 H6] _].
  intro E. apply Z.div_small_iff in E; lia.
Qed.

(** ** STONE and ROCK *)

(** C9, the code at the failing input: in Bridgewatch the resource type
    'ROCK' earns the 0.40 production bonus and 'STONE' earns none, so
    the return rate and the refining profit differ, although
    [normalize_resource_type] maps 'STONE' to 'ROCK' and the optimal
    city is Bridgewatch for both. *)
Theorem stone_is_not_normalized_before_lookup :
  normalize_resource_type "STONE" = "ROCK"
  /\ get_optimal_refining_city "STONE" = "Bridgewatch"
  /\ get_optimal_refining_city "ROCK" = "Bridgewatch"
  /\ get_local_production_bonus "Bridgewatch" "ROCK" = 0.40
  /\ get_local_production_bonus "Bridgewatch" "STONE" = 0.0
  /\ (exists rate_rock rate_stone,
        calculate_return_rate "Bridgewatch" "ROCK" true false = Ok rate_rock
        /\ calculate_return_rate "Bridgewatch" "STONE" true false = Ok rate_stone
        /\ rate_stone < rate_rock)
  /\ (exists result_rock result_stone,
        calculate_refining_profit "T5" "ROCK" "Bridgewatch" 100 350 300 50
          true true 0 = Ok result_rock
        /\ calculate_refining_profit "T5" "STONE" "Bridgewatch" 100 350 300 50
             true true 0 = Ok result_stone
        /\ net_profit result_stone < net_profit result_rock).
Proof.
  repeat (split; [reflexivity|]).
  split.
  - eexists _, _. split; [vm_compute; reflexivity|].
    split; [vm_compute; reflexivity|]. vm_compute. reflexivity.
  - eexists _, _. split; [vm_compute; reflexivity|].
    split; [vm_compute; reflexivity|]. vm_compute. reflexivity.
Qed.

(** ** The buy/sell search *)


(** C4, the code at the failing input: Thetford asks 50 for the raw item
    and bids 300 for the refined item, Martlock asks 80 and bids 200;
    the analysis recommends buying raw in Martlock at 80 and selling
    refined in Martlock at 200, because the entry filter of
    [analyze_opportunities] drops Thetford's quotes. *)
Theorem entry_filter_drops_best_quotes :
  exists a raw_rec refined_rec,
    analyze_opportunities (analyzer_with (config_with true true false false))
      one_sided_quotes "T5" "ORE" = Ok a
    /\ raw_recommendations a = Some raw_rec
    /\ cp_city (buy_recommendation raw_rec) = Some "Martlock"
    /\ cp_price (buy_recommendation raw_rec) = 80
    /\ refined_recommendations a = Some refined_rec
    /\ cp_city (sell_recommendation refined_rec) = Some "Martlock"
    /\ cp_price (sell_recommendation refined_rec) = 200
    /\ keys (raw_prices_of (analyzer_with (config_with true true false false))
               one_sided_quotes) = ["Martlock"]
    /\ keys (refined_prices_of (analyzer_with (config_with true true false false))
               one_sided_quotes) = ["Martlock"].
Proof.
  eexists _, _, _.
  split; [vm_compute; reflexivity|].
  repeat (split; [reflexivity|]).
  split; vm_compute; reflexivity.
Qed.

Lemma fold_left_invariant {A S : Type} (P : list A -> S -> Prop) (f : S -> A -> S) :
  (forall seen s x, P seen s -> P (seen ++ [x])%list (f s x)) ->
  forall l seen s, P seen s -> P (seen ++ l)%list (fold_left f l s).
Proof.
  intros Hstep l. induction l as [| x l IH]; intros seen s H.
  - rewrite app_nil_r. exact H.
  - cbn [fold_left].
    replace (seen ++ x :: l)%list with ((seen ++ [x]) ++ l)%list
      by (rewrite <- app_assoc; reflexivity).
    apply IH, Hstep, H.
Qed.

Lemma best_step_inv (seen : dict price_entry) (st : best_state)
    (x : string * price_entry) :
  best_inv seen st -> best_inv (seen ++ [x])%list (best_step st x).
Proof.
  destruct x as [city data]. destruct st as [bbc bbp bsc bsp].
  unfold best_inv, best_step. cbn.
  intros [Hmax [Hsell Hbuy]].
  assert (Hin : forall c e, In (c, e) (seen ++ [(city, data)])%list ->
                            In (c, e) seen \/ (c = city /\ e = data)).
  { intros c e H. apply in_app_or in H. destruct H as [H | [H | []]];
      [left; exact H | right; inversion H; auto]. }
  assert (Hnew : In (city, data) (seen ++ [(city, data)])%list).
  { apply in_or_app. right. left. reflexivity. }
  assert (Hold : forall c e, In (c, e) seen -> In (c, e) (seen ++ [(city, data)])%list).
  { intros c e H. apply in_or_app. left. exact H. }
  (* the buy side *)
  assert (Hbuy' :
    match best_buy_price
            (if Qgtb (sell_price data) 0 && lt_best (sell_price data) bbp
             then mkBest (Some city) (Some (sell_price data)) bsc bsp
             else mkBest bbc bbp bsc bsp) with
    | None =>
        best_buy_city
          (if Qgtb (sell_price data) 0 && lt_best (sell_price data) bbp
           then mkBest (Some city) (Some (sell_price data)) bsc bsp
           else mkBest bbc bbp bsc bsp) = None
        /\ forall c e, In (c, e) (seen ++ [(city, data)])%list -> sell_price e <= 0
    | Some p =>
        0 < p
        /\ (exists c e, In (c, e) (seen ++ [(city, data)])%list
              /\ best_buy_city
                   (if Qgtb (sell_price data) 0 && lt_best (sell_price data) bbp
                    then mkBest (Some city) (Some (sell_price data)) bsc bsp
                    else mkBest bbc bbp bsc bsp) = Some c
              /\ sell_price e = p)
        /\ forall c e, In (c, e) (seen ++ [(city, data)])%list ->
                       0 < sell_price e -> p <= sell_price e
    end).
  { destruct (Qgtb (sell_price data) 0) eqn:G; cbn [andb].
    - apply Qgtb_gt in G.
      destruct bbp as [p |]; cbn [lt_best].
      + destruct Hbuy as [Hp [Hex Hmin]].
        destruct (Qltb (sell_price data) p) eqn:L; cbn.
        * apply Qltb_lt in L. split; [exact G|]. split.
          { exists city, data. auto. }
          intros c e H Hpos. apply Hin in H. destruct H as [H | [-> ->]].
          -- specialize (Hmin c e H Hpos). lra.
          -- apply Qle_refl.
        * apply Qltb_ge in L. split; [exact Hp|]. split.
          { destruct Hex as [c [e [H1 [H2 H3]]]]. exists c, e. auto. }
          intros c e H Hpos. apply Hin in H. destruct H as [H | [-> ->]].
          -- apply (Hmin c e H Hpos).
          -- exact L.
      + cbn. split; [exact G|]. split.
        { exists city, data. auto. }
        destruct Hbuy as [_ Hnone].
        intros c e H Hpos. apply Hin in H. destruct H as [H | [-> ->]].
        * specialize (Hnone c e H). lra.
        * apply Qle_refl.
    - apply Qgtb_le in G. cbn.
      destruct bbp as [p |].
      + destruct Hbuy as [Hp [Hex Hmin]]. split; [exact Hp|]. split.
        { destruct Hex as [c [e [H1 [H2 H3]]]]. exists c, e. auto. }
        intros c e H Hpos. apply Hin in H. destruct H as [H | [-> ->]].
        * apply (Hmin c e H Hpos).
        * lra.
      + destruct Hbuy as [Hc Hnone]. split; [exact Hc|].
        intros c e H. apply Hin in H. destruct H as [H | [-> ->]].
        * apply (Hnone c e H).
        * exact G. }
  set (st1 := if Qgtb (sell_price data) 0 && lt_best (sell_price data) bbp
              then mkBest (Some city) (Some (sell_price data)) bsc bsp
              else mkBest bbc bbp bsc bsp) in *.
  assert (E1 : best_sell_price st1 = bsp /\ best_sell_city st1 = bsc).
  { subst st1. destruct (Qgtb (sell_price data) 0 && lt_best (sell_price data) bbp);
      split; reflexivity. }
  destruct E1 as [E1 E2]. rewrite E1.
  assert (Hbsp : 0 <= bsp).
  { destruct bsc; [destruct Hsell as [H _]; lra | rewrite Hsell; apply Qle_refl]. }
  destruct (Qgtb (buy_price data) bsp) eqn:G; cbn.
  - apply Qgtb_gt in G. split; [|split].
    + intros c e H. apply Hin in H. destruct H as [H | [-> ->]].
      * specialize (Hmax c e H). lra.
      * apply Qle_refl.
    + split; [lra|]. exists data. auto.
    + exact Hbuy'.
  - apply Qgtb_le in G. rewrite E1, E2. split; [|split].
    + intros c e H. apply Hin in H. destruct H as [H | [-> ->]].
      * apply (Hmax c e H).
      * exact G.
    + destruct bsc as [c |]; [|exact Hsell].
      destruct Hsell as [Hp [e [H1 H2]]]. split; [exact Hp|]. exists e. auto.
    + exact Hbuy'.
Qed.

Lemma best_fold_inv (prices : dict price_entry) :
  best_inv prices (fold_left best_step prices best_init).
Proof.
  apply (fold_left_invariant best_inv best_step best_step_inv prices []).
  unfold best_inv, best_init. cbn.
  split; [intros c e []|]. split; [reflexivity|].
  split; [reflexivity|]. intros c e [].
Qed.

(** The dictionary [_find_best_buy_sell] returns, in terms of the final
    state of its loop. *)
Lemma find_best_buy_sell_result (prices : dict price_entry)
    (item_type tier resource_type : string) :
  prices <> [] ->
  let st := fold_left best_step prices best_init in
  let profit :=
    match best_buy_price st with
    | Some b => if Qgtb (best_sell_price st) 0 then best_sell_price st - b else 0
    | None => 0
    end in
  let margin :=
    match best_buy_price st with
    | Some b =>
        if Qgtb (best_sell_price st) 0 then (best_sell_price st - b) / b * 100 else 0
    | None => 0
    end in
  _find_best_buy_sell prices item_type tier resource_type
  = Ok (Some
      {| item_type := item_type;
         rec_tier := tier;
         rec_resource_type := resource_type;
         buy_recommendation :=
           {| cp_city := best_buy_city st;
              cp_price := match best_buy_price st with Some b => b | None => 0 end;
              cp_action := "ACHETER ICI" |};
         sell_recommendation :=
           {| cp_city := best_sell_city st;
              cp_price := best_sell_price st;
              cp_action := "VENDRE ICI" |};
         arbitrage_profit :=
           {| profit_per_unit := profit;
              profit_margin_percent := margin;
              is_profitable := Qgtb profit 0 && Qgtb margin 5 |} |}).
Proof.
  intros Hne st profit margin.
  pose proof (best_fold_inv prices) as [_ [_ Hbuy]]. fold st in Hbuy.
  unfold _find_best_buy_sell. destruct prices as [| p0 prices']; [contradiction|].
  fold st. subst profit margin.
  destruct (best_buy_price st) as [b |].
  - destruct Hbuy as [Hb _].
    destruct (Qgtb (best_sell_price st) 0); cbn [bind]; [|reflexivity].
    apply Qgtb_gt in Hb. rewrite Hb. rewrite pydiv_pos by (apply Qgtb_gt, Hb).
    reflexivity.
  - reflexivity.
Qed.

Lemma find_best_buy_sell_empty (item_type tier resource_type : string) :
  _find_best_buy_sell [] item_type tier resource_type = Ok None.
Proof. reflexivity. Qed.

Lemma find_best_buy_sell_total (prices : dict price_entry)
    (item_type tier resource_type : string) :
  exists r, _find_best_buy_sell prices item_type tier resource_type = Ok r.
Proof.
  destruct prices as [| p prices'].
  - eexists. reflexivity.
  - eexists. apply find_best_buy_sell_result. discriminate.
Qed.

(** The search of [_find_best_buy_sell] on the dictionary it is given:
    the buy city has the least strictly positive sell price, the sell
    city the greatest strictly positive buy price, the profit is their
    difference, and the pair is profitable exactly when the profit is
    positive and the margin above 5. *)
Lemma find_best_buy_sell_spec (prices : dict price_entry)
    (item_type tier resource_type : string) :
  prices <> [] ->
  exists r,
    _find_best_buy_sell prices item_type tier resource_type = Ok (Some r)
    /\ (forall c, cp_city (buy_recommendation r) = Some c ->
          exists e, In (c, e) prices /\ 0 < sell_price e
                    /\ cp_price (buy_recommendation r) = sell_price e
                    /\ forall c' e', In (c', e') prices -> 0 < sell_price e' ->
                                     sell_price e <= sell_price e')
    /\ (cp_city (buy_recommendation r) = None ->
          forall c e, In (c, e) prices -> sell_price e <= 0)
    /\ (forall c, cp_city (sell_recommendation r) = Some c ->
          exists e, In (c, e) prices /\ 0 < buy_price e
                    /\ cp_price (sell_recommendation r) = buy_price e
                    /\ forall c' e', In (c', e') prices -> buy_price e' <= buy_price e)
    /\ (cp_city (sell_recommendation r) = None ->
          forall c e, In (c, e) prices -> buy_price e <= 0)
    /\ (forall cb cs, cp_city (buy_recommendation r) = Some cb ->
          cp_city (sell_recommendation r) = Some cs ->
          profit_per_unit (arbitrage_profit r)
          = cp_price (sell_recommendation r) - cp_price (buy_recommendation r)
          /\ profit_margin_percent (arbitrage_profit r)
             = profit_per_unit (arbitrage_profit r)
               / cp_price (buy_recommendation r) * 100)
    /\ (is_profitable (arbitrage_profit r) = true <->
          0 < profit_per_unit (arbitrage_profit r)
          /\ 5 < profit_margin_percent (arbitrage_profit r)).
Proof.
  intro Hne. eexists. split; [apply find_best_buy_sell_result, Hne|]. cbn.
  pose proof (best_fold_inv prices) as [Hmax [Hsell Hbuy]].
  set (st := fold_left best_step prices best_init) in *.
  split; [|split; [|split; [|split; [|split]]]].
  - intros c Hc. destruct (best_buy_price st) as [p |].
    + destruct Hbuy as [Hp [[c' [e [Hin [Hc' He]]]] Hmin]].
      rewrite Hc in Hc'. injection Hc' as <-.
      exists e. rewrite He. repeat split; auto.
    + destruct Hbuy as [Hnone _]. congruence.
  - intros Hc. destruct (best_buy_price st) as [p |].
    + destruct Hbuy as [_ [[c' [e [_ [Hc' _]]]] _]]. congruence.
    + apply Hbuy.
  - intros c Hc. rewrite Hc in Hsell. destruct Hsell as [Hp [e [Hin He]]].
    exists e. rewrite He. repeat split; auto.
  - intros Hc. rewrite Hc in Hsell. rewrite Hsell in Hmax. exact Hmax.
  - intros cb cs Hb Hs. rewrite Hs in Hsell. destruct Hsell as [Hp _].
    destruct (best_buy_price st) as [p |].
    + apply Qgtb_gt in Hp. rewrite Hp. split; reflexivity.
    + destruct Hbuy as [Hnone _]. congruence.
  - rewrite andb_true_iff, !Qgtb_gt. reflexivity.
Qed.

Lemma in_keys {V : Type} (c : string) (v : V) (d : dict V) :
  In (c, v) d -> In c (keys d).
Proof. intro H. unfold keys. apply (in_map fst) in H. exact H. Qed.

Lemma find_best_buy_sell_cities (prices : dict price_entry)
    (item_type tier resource_type : string) (r : recommendation) (c : string) :
  _find_best_buy_sell prices item_type tier resource_type = Ok (Some r) ->
  cp_city (buy_recommendation r) = Some c \/ cp_city (sell_recommendation r) = Some c ->
  In c (keys prices).
Proof.
  intros Hr Hc. destruct prices as [| p0 prices']; [discriminate|].
  destruct (find_best_buy_sell_spec (p0 :: prices') item_type tier resource_type)
    as [r' [Hr' [Hb [_ [Hs _]]]]]; [discriminate|].
  rewrite Hr in Hr'. injection Hr' as <-.
  destruct Hc as [Hc | Hc].
  - destruct (Hb c Hc) as [e [Hin _]]. apply (in_keys c e), Hin.
  - destruct (Hs c Hc) as [e [Hin _]]. apply (in_keys c e), Hin.
Qed.

(** ** City exclusion *)

Lemma mem_In (k : string) (l : list string) : mem k l = true <-> In k l.
Proof.
  unfold mem. rewrite existsb_exists. split.
  - intros [x [Hin E]]. apply String.eqb_eq in E. subst x. exact Hin.
  - intro H. exists k. split; [exact H | apply String.eqb_refl].
Qed.

Lemma allowed_not_excluded (cfg : AlbionConfig.AlbionConfig) (c : string) :
  In c (AlbionConfig.get_allowed_cities cfg) ->
  ~ In c (AlbionConfig.excluded_cities cfg).
Proof.
  unfold AlbionConfig.get_allowed_cities, AlbionConfig.excluded_cities.
  intros H Hex. apply filter_In in H. destruct H as [_ H].
  apply in_app_or in Hex.
  destruct (AlbionConfig.exclude_brecilien cfg), (AlbionConfig.exclude_caerleon cfg);
    cbn in *; destruct Hex as [Hex | Hex]; try contradiction;
    destruct Hex as [<- | []]; cbn in H; discriminate.
Qed.

Lemma select_prices_keys (field : city_data -> option quote) (keep : quote -> bool)
    (price_data : dict city_data) (cities : list string) (c : string) :
  In c (keys (select_prices field keep price_data cities)) -> In c cities.
Proof.
  unfold keys, select_prices. intro H.
  apply in_map_iff in H. destruct H as [[c' e] [Hc H]]. cbn in Hc. subst c'.
  apply in_flat_map in H. destruct H as [city [Hcity H]].
  destruct (get price_data city) as [cd |]; [|contradiction].
  destruct (field cd) as [q |]; [|contradiction].
  destruct (keep q); [|contradiction].
  destruct H as [H | []]. injection H as <- _. exact Hcity.
Qed.

Lemma filtered_cities_allowed (cfg : AlbionConfig.AlbionConfig) (calc : bool)
    (price_data : dict city_data) (c : string) :
  In c (filtered_cities (mkArbitrageAnalyzer (Some cfg) calc) price_data) ->
  In c (AlbionConfig.get_allowed_cities cfg) /\ In c (keys price_data).
Proof.
  unfold filtered_cities. cbn. intro H. apply filter_In in H.
  destruct H as [Hk Hm]. apply mem_In in Hm. auto.
Qed.

(** ** The refining arbitrage *)

Lemma insert_desc_In {A : Type} (key : A -> Q) (x y : A) (l : list A) :
  In y (insert_desc key x l) <-> y = x \/ In y l.
Proof.
  induction l as [| z l IH]; cbn.
  - split; [intros [H | []]; auto | intros [H | []]; auto].
  - destruct (Qle_bool (key x) (key z)); cbn; rewrite ?IH; intuition auto.
Qed.

Lemma sort_desc_In {A : Type} (key : A -> Q) (y : A) (l : list A) :
  In y (sort_desc key l) <-> In y l.
Proof.
  unfold sort_desc.
  assert (G : forall acc, In y (fold_left (fun acc x => insert_desc key x acc) l acc)
                          <-> In y acc \/ In y l).
  { induction l as [| x l IH]; intro acc; cbn.
    - intuition auto.
    - rewrite IH, insert_desc_In. intuition auto. }
  rewrite G. cbn. intuition auto.
Qed.

Lemma min_by_sell_price_In (first : string * price_entry) (rest : dict price_entry) :
  In (min_by_sell_price first rest) (first :: rest).
Proof.
  unfold min_by_sell_price. revert first.
  induction rest as [| x rest IH]; intro first; cbn [fold_left].
  - left. reflexivity.
  - specialize (IH (min_step first x)).
    destruct IH as [E | Hin].
    + rewrite <- E. unfold min_step.
      destruct (key_lt _ _); [right; left | left]; reflexivity.
    + right. right. exact Hin.
Qed.

Lemma collect_opportunities_ok (cfg : AlbionConfig.AlbionConfig)
    (tier resource_type optimal best_raw : string) (best_prev : option string)
    (raw_buy_price prev_price : Q) (specialization : Z)
    (refined_prices : dict price_entry) :
  exists opps,
    collect_opportunities cfg tier resource_type optimal best_raw best_prev
      raw_buy_price prev_price specialization refined_prices = Ok opps
    /\ forall o, In o opps ->
         opportunity_ok cfg tier resource_type optimal best_raw best_prev
           raw_buy_price prev_price specialization refined_prices o.
Proof.
  induction refined_prices as [| [sell_city data] rest IH].
  - exists []. split; [reflexivity | intros o []].
  - destruct IH as [others [Hothers Hall]].
    cbn [collect_opportunities]. rewrite Hothers.
    assert (Hweak : forall o,
              opportunity_ok cfg tier resource_type optimal best_raw best_prev
                raw_buy_price prev_price specialization rest o ->
              opportunity_ok cfg tier resource_type optimal best_raw best_prev
                raw_buy_price prev_price specialization ((sell_city, data) :: rest) o).
    { intros o [H1 [H2 H3]]. split; [exact H1|]. split; [right; exact H2 | exact H3]. }
    destruct (Qgtb raw_buy_price 0 && Qgtb (buy_price data) 0).
    + destruct (calculate_refining_profit_batch tier resource_type optimal
                  raw_buy_price (buy_price data) 100 specialization
                  (AlbionConfig.premium cfg) (AlbionConfig.use_focus cfg) prev_price
                  (hundred_is_a_batch tier)) as [r [Hr _]].
      rewrite Hr. cbn [bind].
      destruct (Qgtb (net_profit r) 0) eqn:G; cbn [bind].
      * eexists. split; [reflexivity|].
        intros o [<- | Hin]; [|apply Hweak, Hall, Hin].
        unfold opportunity_ok. cbn.
        repeat split; auto.
        exists r. apply Qgtb_gt in G. auto.
      * eexists. split; [reflexivity|]. cbn. intros o Hin. apply Hweak, Hall, Hin.
    + cbn [bind]. eexists. split; [reflexivity|]. cbn.
      intros o Hin. apply Hweak, Hall, Hin.
Qed.

Lemma firstn_subset {A : Type} (n : nat) (l : list A) (x : A) :
  In x (firstn n l) -> In x l.
Proof.
  revert l. induction n as [| n IH]; intros [| y l] H; cbn in H; try contradiction.
  destruct H as [H | H]; [left; exact H | right; apply IH, H].
Qed.

Lemma raw_leg_city (raw_prices : dict price_entry) (c : string) (p : Q) :
  raw_leg raw_prices = Some (c, p) -> In c (keys raw_prices).
Proof.
  destruct raw_prices as [| first rest]; cbn; [discriminate|].
  intro H. injection H as <- _.
  pose proof (min_by_sell_price_In first rest) as Hin.
  destruct (min_by_sell_price first rest) as [c e].
  apply (in_keys c e (first :: rest)), Hin.
Qed.

Lemma prev_leg_city (prev_refined_prices : dict price_entry) (c : string) :
  fst (prev_leg prev_refined_prices) = Some c -> In c (keys prev_refined_prices).
Proof.
  destruct prev_refined_prices as [| first rest]; cbn; [discriminate|].
  intro H. injection H as <-.
  pose proof (min_by_sell_price_In first rest) as Hin.
  destruct (min_by_sell_price first rest) as [c e].
  apply (in_keys c e (first :: rest)), Hin.
Qed.

(** [_analyze_refining_arbitrage] on a configured analyser: it returns
    the empty dictionary exactly when the calculator, the raw prices or
    the refined prices are missing, and otherwise a list of
    opportunities each computed by the refining calculator at the
    bonus-optimal city, for 100 units, from the two buy legs. *)
Lemma analyze_refining_arbitrage_spec (cfg : AlbionConfig.AlbionConfig) (calc : bool)
    (raw_prices prev_refined_prices refined_prices : dict price_entry)
    (tier resource_type : string) :
  exists res,
    _analyze_refining_arbitrage (mkArbitrageAnalyzer (Some cfg) calc)
      raw_prices prev_refined_prices refined_prices tier resource_type = Ok res
    /\ (res = None <-> calc = false \/ raw_prices = [] \/ refined_prices = [])
    /\ forall info, res = Some info ->
         exists best_raw raw_buy_price,
           raw_leg raw_prices = Some (best_raw, raw_buy_price)
           /\ (Z.of_nat (length (best_opportunities info)) <= total_opportunities info)%Z
           /\ forall o, In o (best_opportunities info) ->
                opportunity_ok cfg tier resource_type
                  (get_optimal_refining_city resource_type) best_raw
                  (fst (prev_leg prev_refined_prices)) raw_buy_price
                  (snd (prev_leg prev_refined_prices))
                  (AlbionConfig.get_specialization_level cfg
                     (refining_spec_key resource_type))
                  refined_prices o.
Proof.
  unfold _analyze_refining_arbitrage. cbn [calculator config].
  destruct calc.
  2:{ exists None. split; [reflexivity|]. split; [tauto | discriminate]. }
  destruct raw_prices as [| first_raw rest_raw].
  { exists None. split; [reflexivity|]. split; [tauto | discriminate]. }
  destruct refined_prices as [| first_ref rest_ref].
  { exists None. split; [reflexivity|]. split; [tauto | discriminate]. }
  set (refined := first_ref :: rest_ref).
  set (best_raw := min_by_sell_price first_raw rest_raw).
  assert (Eprev :
    match prev_refined_prices with
    | [] => (None, 0)
    | first_prev :: rest_prev =>
        (Some (fst (min_by_sell_price first_prev rest_prev)),
         sell_price (snd (min_by_sell_price first_prev rest_prev)))
    end = prev_leg prev_refined_prices) by reflexivity.
  rewrite Eprev. destruct (prev_leg prev_refined_prices) as [best_prev prev_price].
  fold (refining_spec_key resource_type).
  destruct (collect_opportunities_ok cfg tier resource_type
              (get_optimal_refining_city resource_type) (fst best_raw) best_prev
              (sell_price (snd best_raw)) prev_price
              (AlbionConfig.get_specialization_level cfg
                 (refining_spec_key resource_type)) refined)
    as [opps [Hopps Hall]].
  rewrite Hopps. cbn [bind].
  eexists. split; [reflexivity|]. split.
  { split; [discriminate|]. intros [H | [H | H]]; discriminate. }
  intros info Hinfo. injection Hinfo as <-.
  exists (fst best_raw), (sell_price (snd best_raw)).
  split; [reflexivity|]. cbn [best_opportunities total_opportunities fst snd].
  split.
  { rewrite <- Nat2Z.inj_le.
    change (length (firstn 5 (sort_desc estimated_profit opps))
            <= length (sort_desc estimated_profit opps))%nat.
    rewrite length_firstn. apply Nat.le_min_r. }
  intros o Hin.
  apply (firstn_subset 5 (sort_desc estimated_profit opps)) in Hin.
  apply sort_desc_In in Hin. apply Hall, Hin.
Qed.

Lemma get_In {V : Type} (d : dict V) (k : string) (v : V) :
  get d k = Some v -> In (k, v) d.
Proof.
  induction d as [| [k' v'] d IH]; cbn [get]; [discriminate|].
  destruct (String.eqb_spec k' k) as [-> | _].
  - intro H. injection H as <-. left. reflexivity.
  - intro H. right. apply IH, H.
Qed.

Lemma insert_desc_perm {A : Type} (key : A -> Q) (x : A) (l : list A) :
  Permutation (insert_desc key x l) (x :: l).
Proof.
  induction l as [| y l IH]; cbn [insert_desc]; [apply Permutation_refl|].
  destruct (Qle_bool (key x) (key y)); [|apply Permutation_refl].
  apply perm_trans with (y :: x :: l); [apply perm_skip, IH | apply perm_swap].
Qed.

Lemma sort_desc_perm {A : Type} (key : A -> Q) (l : list A) :
  Permutation (sort_desc key l) l.
Proof.
  unfold sort_desc.
  assert (G : forall acc,
             Permutation (fold_left (fun acc x => insert_desc key x acc) l acc)
                         (acc ++ l)).
  { induction l as [| x l IH]; intro acc; cbn [fold_left].
    - rewrite app_nil_r. apply Permutation_refl.
    - eapply perm_trans; [apply IH|].
      eapply perm_trans; [apply Permutation_app_tail, insert_desc_perm|].
      cbn. apply Permutation_middle. }
  apply (G []).
Qed.

Lemma insert_desc_descending {A : Type} (key : A -> Q) (x : A) (l : list A) :
  descending key l -> descending key (insert_desc key x l).
Proof.
  unfold descending. induction l as [| y l IH]; intro H; cbn [insert_desc].
  - constructor; constructor.
  - inversion H as [| ? ? Hl Hy]; subst.
    destruct (Qle_bool (key x) (key y)) eqn:E.
    + apply Qle_bool_iff in E. constructor; [apply IH, Hl|].
      apply Forall_forall. intros z Hz. apply insert_desc_In in Hz.
      destruct Hz as [-> | Hz]; [exact E|].
      rewrite Forall_forall in Hy. apply Hy, Hz.
    + assert (L : key y < key x).
      { apply Qnot_le_lt. intro C. apply Qle_bool_iff in C. congruence. }
      constructor; [exact H|].
      constructor; [apply Qlt_le_weak, L|].
      apply Forall_forall. intros z Hz. rewrite Forall_forall in Hy.
      specialize (Hy z Hz). cbn in Hy. lra.
Qed.

Lemma sort_desc_descending {A : Type} (key : A -> Q) (l : list A) :
  descending key (sort_desc key l).
Proof.
  unfold sort_desc.
  assert (G : forall acc, descending key acc ->
             descending key (fold_left (fun acc x => insert_desc key x acc) l acc)).
  { induction l as [| x l IH]; intros acc H; cbn [fold_left]; [exact H|].
    apply IH, insert_desc_descending, H. }
  apply G. constructor.
Qed.

Lemma firstn_descending {A : Type} (key : A -> Q) (n : nat) (l : list A) :
  descending key l -> descending key (firstn n l).
Proof.
  unfold descending. revert l. induction n as [| n IH]; intros l H; cbn [firstn].
  - constructor.
  - destruct l as [| x l]; [constructor|].
    inversion H as [| ? ? Hl Hx]; subst. constructor; [apply IH, Hl|].
    apply Forall_forall. intros z Hz. rewrite Forall_forall in Hx.
    apply Hx, (firstn_subset n l z Hz).
Qed.

Lemma collect_opportunities_detail (cfg : AlbionConfig.AlbionConfig)
    (tier resource_type optimal best_raw : string) (best_prev : option string)
    (raw_buy_price prev_price : Q) (specialization : Z)
    (refined_prices : dict price_entry) (opps : list opportunity) :
  collect_opportunities cfg tier resource_type optimal best_raw best_prev
    raw_buy_price prev_price specialization refined_prices = Ok opps ->
  (length opps <= length refined_prices)%nat
  /\ forall o, In o opps ->
       0 < raw_buy_price
       /\ 0 < estimated_profit o
       /\ exists data, In (refined_city o, data) refined_prices
                       /\ opp_refined_price o = buy_price data
                       /\ 0 < buy_price data.
Proof.
  revert opps. induction refined_prices as [| [sell_city data] rest IH]; intros opps.
  - cbn. intro H. injection H as <-. split; [apply Nat.le_refl | intros o []].
  - cbn [collect_opportunities].
    destruct (collect_opportunities_ok cfg tier resource_type optimal best_raw
                best_prev raw_buy_price prev_price specialization rest)
      as [others [Hothers _]].
    rewrite Hothers. specialize (IH others Hothers). destruct IH as [Hlen Hall].
    destruct (Qgtb raw_buy_price 0 && Qgtb (buy_price data) 0) eqn:G.
    + apply andb_true_iff in G. destruct G as [G1 G2].
      apply Qgtb_gt in G1. apply Qgtb_gt in G2.
      destruct (calculate_refining_profit _ _ _ _ _ _ _ _ _ _) as [r | e];
        cbn [bind]; [|discriminate].
      destruct (Qgtb (net_profit r) 0) eqn:Gp; cbn [bind]; intro H;
        injection H as <-.
      * apply Qgtb_gt in Gp. split; [cbn; lia|].
        intros o [<- | Hin].
        -- cbn. split; [exact G1|]. split; [exact Gp|].
           exists data. split; [left; reflexivity|]. split; [reflexivity | exact G2].
        -- destruct (Hall o Hin) as [H1 [H2 [d [H3 H4]]]].
           split; [exact H1|]. split; [exact H2|]. exists d. split; [right; exact H3|].
           exact H4.
      * split; [cbn; lia|]. intros o Hin. cbn in Hin.
        destruct (Hall o Hin) as [H1 [H2 [d [H3 H4]]]].
        split; [exact H1|]. split; [exact H2|]. exists d. split; [right; exact H3|].
        exact H4.
    + cbn [bind]. intro H. injection H as <-. split; [cbn; lia|].
      intros o Hin. cbn in Hin.
      destruct (Hall o Hin) as [H1 [H2 [d [H3 H4]]]].
      split; [exact H1|]. split; [exact H2|]. exists d. split; [right; exact H3|].
      exact H4.
Qed.

Lemma select_prices_entries (field : city_data -> option quote) (keep : quote -> bool)
    (price_data : dict city_data) (cities : list string)
    (c : string) (e : price_entry) :
  In (c, e) (select_prices field keep price_data cities) <->
  In c cities
  /\ exists cd q, get price_data c = Some cd /\ field cd = Some q
                  /\ keep q = true /\ e = entry_of q.
Proof.
  unfold select_prices. rewrite in_flat_map. split.
  - intros [city [Hcity H]].
    destruct (get price_data city) as [cd |] eqn:Eg; [|contradiction].
    destruct (field cd) as [q |] eqn:Ef; [|contradiction].
    destruct (keep q) eqn:Ek; [|contradiction].
    destruct H as [H | []]. injection H as <- <-.
    split; [exact Hcity|]. exists cd, q. auto.
  - intros [Hc [cd [q [Eg [Ef [Ek ->]]]]]]. exists c. split; [exact Hc|].
    rewrite Eg, Ef, Ek. left. reflexivity.
Qed.


(** A descending list splits into a front whose keys are all at least
    the keys of the back. *)
Lemma descending_app {A : Type} (key : A -> Q) (front back : list A) :
  descending key (front ++ back) ->
  forall x y, In x front -> In y back -> key y <= key x.
Proof.
  unfold descending. induction front as [| z front IH]; intros H x y Hx Hy.
  - contradiction.
  - cbn in H. inversion H as [| ? ? Hl Hz]; subst.
    destruct Hx as [<- | Hx].
    + rewrite Forall_forall in Hz. apply Hz, in_or_app. right. exact Hy.
    + apply (IH Hl x y Hx Hy).
Qed.





(** The test of the loop of [_analyze_refining_arbitrage], in words. *)
Lemma route_is_profitable_spec (cfg : AlbionConfig.AlbionConfig)
    (tier resource_type : string) (raw_buy_price prev_price : Q)
    (entry : string * price_entry) :
  route_is_profitable cfg tier resource_type raw_buy_price prev_price entry = true <->
  0 < raw_buy_price /\ 0 < buy_price (snd entry)
  /\ exists r,
       calculate_refining_profit tier resource_type
         (get_optimal_refining_city resource_type) raw_buy_price
         (buy_price (snd entry)) 100
         (AlbionConfig.get_specialization_level cfg (refining_spec_key resource_type))
         (AlbionConfig.premium cfg) (AlbionConfig.use_focus cfg) prev_price = Ok r
       /\ 0 < net_profit r.
Proof.
  unfold route_is_profitable. rewrite !andb_true_iff, !Qgtb_gt. split.
  - intros [[H1 H2] H3]. split; [exact H1|]. split; [exact H2|].
    destruct (calculate_refining_profit tier resource_type
                (get_optimal_refining_city resource_type) raw_buy_price
                (buy_price (snd entry)) 100
                (AlbionConfig.get_specialization_level cfg
                   (refining_spec_key resource_type))
                (AlbionConfig.premium cfg) (AlbionConfig.use_focus cfg) prev_price)
      as [r | e]; [|discriminate H3].
    exists r. split; [reflexivity|]. apply Qgtb_gt, H3.
  - intros [H1 [H2 [r [Hr Hp]]]]. rewrite Hr. split; [split; assumption|].
    apply Qgtb_gt, Hp.
Qed.

(** The loop of [_analyze_refining_arbitrage] collects one opportunity
    for each profitable sell city, in the order of the dictionary. *)
Lemma collect_opportunities_exact (cfg : AlbionConfig.AlbionConfig)
    (tier resource_type best_raw : string) (best_prev : option string)
    (raw_buy_price prev_price : Q) (refined_prices : dict price_entry) :
  exists opps,
    collect_opportunities cfg tier resource_type
      (get_optimal_refining_city resource_type) best_raw best_prev raw_buy_price
      prev_price
      (AlbionConfig.get_specialization_level cfg (refining_spec_key resource_type))
      refined_prices = Ok opps
    /\ map (fun o => (refined_city o, opp_refined_price o)) opps
       = map (fun entry => (fst entry, buy_price (snd entry)))
           (filter (route_is_profitable cfg tier resource_type raw_buy_price
                      prev_price) refined_prices).
Proof.
  induction refined_prices as [| [sell_city data] rest IH].
  - exists []. split; reflexivity.
  - destruct IH as [others [Hothers Hkeys]].
    cbn [collect_opportunities filter]. rewrite Hothers.
    assert (E : route_is_profitable cfg tier resource_type raw_buy_price prev_price
                  (sell_city, data)
                = Qgtb raw_buy_price 0 && Qgtb (buy_price data) 0
                  && match calculate_refining_profit tier resource_type
                             (get_optimal_refining_city resource_type) raw_buy_price
                             (buy_price data) 100
                             (AlbionConfig.get_specialization_level cfg
                                (refining_spec_key resource_type))
                             (AlbionConfig.premium cfg) (AlbionConfig.use_focus cfg)
                             prev_price with
                     | Ok r => Qgtb (net_profit r) 0
                     | Raise _ => false
                     end) by reflexivity.
    rewrite E. clear E.
    destruct (Qgtb raw_buy_price 0 && Qgtb (buy_price data) 0); cbn [andb bind].
    + destruct (calculate_refining_profit_batch tier resource_type
                  (get_optimal_refining_city resource_type) raw_buy_price
                  (buy_price data) 100
                  (AlbionConfig.get_specialization_level cfg
                     (refining_spec_key resource_type))
                  (AlbionConfig.premium cfg) (AlbionConfig.use_focus cfg) prev_price
                  (hundred_is_a_batch tier)) as [r [Hr _]].
      rewrite Hr. cbn [bind].
      destruct (Qgtb (net_profit r) 0); cbn [bind]; eexists;
        (split; [reflexivity|]); cbn; rewrite Hkeys; reflexivity.
    + eexists. split; [reflexivity|]. cbn. exact Hkeys.
Qed.

(** What a non-empty result of [_analyze_refining_arbitrage] holds: the
    opportunities collected for the profitable sell cities, sorted by
    profit and cut at five, and their number. *)
Lemma analyze_refining_arbitrage_exact (cfg : AlbionConfig.AlbionConfig) (calc : bool)
    (raw_prices prev_refined_prices refined_prices : dict price_entry)
    (tier resource_type : string) (info : refining_opportunities_info) :
  _analyze_refining_arbitrage (mkArbitrageAnalyzer (Some cfg) calc)
    raw_prices prev_refined_prices refined_prices tier resource_type
  = Ok (Some info) ->
  exists best_raw raw_buy_price collected,
    raw_leg raw_prices = Some (best_raw, raw_buy_price)
    /\ map (fun o => (refined_city o, opp_refined_price o)) collected
       = map (fun entry => (fst entry, buy_price (snd entry)))
           (filter (route_is_profitable cfg tier resource_type raw_buy_price
                      (snd (prev_leg prev_refined_prices))) refined_prices)
    /\ map refined_city collected
       = keys (filter (route_is_profitable cfg tier resource_type raw_buy_price
                         (snd (prev_leg prev_refined_prices))) refined_prices)
    /\ best_opportunities info = firstn 5 (sort_desc estimated_profit collected)
    /\ total_opportunities info = Z.of_nat (length collected)
    /\ forall o, In o collected ->
         opportunity_ok cfg tier resource_type
           (get_optimal_refining_city resource_type) best_raw
           (fst (prev_leg prev_refined_prices)) raw_buy_price
           (snd (prev_leg prev_refined_prices))
           (AlbionConfig.get_specialization_level cfg
              (refining_spec_key resource_type))
           refined_prices o
         /\ 0 < raw_buy_price
         /\ exists data, In (refined_city o, data) refined_prices
                         /\ opp_refined_price o = buy_price data
                         /\ 0 < buy_price data.
Proof.
  unfold _analyze_refining_arbitrage. cbn [calculator config].
  destruct calc; [|discriminate].
  destruct raw_prices as [| first_raw rest_raw]; [discriminate|].
  destruct refined_prices as [| first_ref rest_ref]; [discriminate|].
  set (refined := first_ref :: rest_ref).
  set (best_raw := min_by_sell_price first_raw rest_raw).
  assert (Eprev :
    match prev_refined_prices with
    | [] => (None, 0)
    | first_prev :: rest_prev =>
        (Some (fst (min_by_sell_price first_prev rest_prev)),
         sell_price (snd (min_by_sell_price first_prev rest_prev)))
    end = prev_leg prev_refined_prices) by reflexivity.
  rewrite Eprev. destruct (prev_leg prev_refined_prices) as [best_prev prev_price].
  fold (refining_spec_key resource_type). cbn [fst snd].
  destruct (collect_opportunities_exact cfg tier resource_type (fst best_raw)
              best_prev (sell_price (snd best_raw)) prev_price refined)
    as [opps [Hopps Hkeys]].
  destruct (collect_opportunities_ok cfg tier resource_type
              (get_optimal_refining_city resource_type) (fst best_raw) best_prev
              (sell_price (snd best_raw)) prev_price
              (AlbionConfig.get_specialization_level cfg
                 (refining_spec_key resource_type)) refined)
    as [opps' [Hopps' Hall]].
  rewrite Hopps in Hopps'. injection Hopps' as <-.
  destruct (collect_opportunities_detail _ _ _ _ _ _ _ _ _ _ _ Hopps) as [_ Hdetail].
  rewrite Hopps. cbn [bind]. intro H. injection H as <-.
  exists (fst best_raw), (sell_price (snd best_raw)), opps.
  split; [reflexivity|]. split; [exact Hkeys|].
  split.
  { apply (f_equal (map fst)) in Hkeys. rewrite !map_map in Hkeys. exact Hkeys. }
  cbn [best_opportunities total_opportunities].
  split; [reflexivity|].
  split.
  { f_equal. apply Permutation_length, sort_desc_perm. }
  intros o Hin. split; [apply Hall, Hin|].
  destruct (Hdetail o Hin) as [H1 [_ H3]]. split; [exact H1 | exact H3].
Qed.

Lemma analyze_opportunities_ok (self : ArbitrageAnalyzer)
    (price_data : dict city_data) (tier resource_type : string) :
  exists a,
    analyze_opportunities self price_data tier resource_type = Ok a
    /\ _find_best_buy_sell (raw_prices_of self price_data) "raw" tier resource_type
       = Ok (raw_recommendations a)
    /\ _find_best_buy_sell (prev_refined_prices_of self price_data) "prev_refined"
         tier resource_type = Ok (prev_refined_recommendations a)
    /\ _find_best_buy_sell (refined_prices_of self price_data) "refined"
         tier resource_type = Ok (refined_recommendations a)
    /\ _analyze_refining_arbitrage self (raw_prices_of self price_data)
         (prev_refined_prices_of self price_data) (refined_prices_of self price_data)
         tier resource_type = Ok (refining_opportunities a).
Proof.
  unfold analyze_opportunities.
  destruct (find_best_buy_sell_total (raw_prices_of self price_data)
              "raw" tier resource_type) as [r1 H1].
  destruct (find_best_buy_sell_total (prev_refined_prices_of self price_data)
              "prev_refined" tier resource_type) as [r2 H2].
  destruct (find_best_buy_sell_total (refined_prices_of self price_data)
              "refined" tier resource_type) as [r3 H3].
  assert (H4 : exists r4,
             _analyze_refining_arbitrage self (raw_prices_of self price_data)
               (prev_refined_prices_of self price_data)
               (refined_prices_of self price_data) tier resource_type = Ok r4).
  { destruct self as [[cfg |] calc].
    - destruct (analyze_refining_arbitrage_spec cfg calc
                  (raw_prices_of (mkArbitrageAnalyzer (Some cfg) calc) price_data)
                  (prev_refined_prices_of (mkArbitrageAnalyzer (Some cfg) calc) price_data)
                  (refined_prices_of (mkArbitrageAnalyzer (Some cfg) calc) price_data)
                  tier resource_type) as [r4 [H4 _]].
      exists r4. exact H4.
    - exists None. unfold _analyze_refining_arbitrage. cbn [calculator config].
      destruct calc; [|reflexivity].
      destruct (raw_prices_of _ _); [reflexivity|].
      destruct (refined_prices_of _ _); reflexivity. }
  destruct H4 as [r4 H4].
  rewrite H1, H2, H3, H4. cbn [bind].
  eexists. split; [reflexivity|]. cbn. auto.
Qed.

Lemma recommended_cities_allowed (cfg : AlbionConfig.AlbionConfig) (calc : bool)
    (price_data : dict city_data) (field : city_data -> option quote)
    (keep : quote -> bool) (item_type tier resource_type : string)
    (r : option recommendation) (c : string) :
  _find_best_buy_sell
    (select_prices field keep price_data
       (filtered_cities (mkArbitrageAnalyzer (Some cfg) calc) price_data))
    item_type tier resource_type = Ok r ->
  In c (recommended_cities r) ->
  In c (AlbionConfig.get_allowed_cities cfg).
Proof.
  intros Hr Hc. destruct r as [r |]; [|contradiction].
  assert (Hk : In c (keys (select_prices field keep price_data
                             (filtered_cities (mkArbitrageAnalyzer (Some cfg) calc)
                                price_data)))).
  { apply (find_best_buy_sell_cities _ _ _ _ r c Hr).
    unfold recommended_cities in Hc. apply in_app_or in Hc.
    destruct Hc as [Hc | Hc].
    - left. destruct (cp_city (buy_recommendation r)); [|contradiction].
      destruct Hc as [-> | []]. reflexivity.
    - right. destruct (cp_city (sell_recommendation r)); [|contradiction].
      destruct Hc as [-> | []]. reflexivity. }
  apply select_prices_keys in Hk.
  apply (filtered_cities_allowed cfg calc price_data c Hk).
Qed.

Lemma optimal_city_not_excluded (cfg : AlbionConfig.AlbionConfig)
    (resource_type : string) :
  In resource_type refining_resource_types ->
  ~ In (get_optimal_refining_city resource_type) (AlbionConfig.excluded_cities cfg).
Proof.
  intros Hrt Hex. unfold AlbionConfig.excluded_cities in Hex.
  assert (Hno : get_optimal_refining_city resource_type <> "Brecilien"
                /\ get_optimal_refining_city resource_type <> "Caerleon").
  { unfold refining_resource_types in Hrt. cbn in Hrt.
    repeat (destruct Hrt as [<- | Hrt]; [split; vm_compute; discriminate|]).
    contradiction. }
  destruct Hno as [Hb Hc]. apply in_app_or in Hex.
  destruct Hex as [Hex | Hex].
  - destruct (AlbionConfig.exclude_brecilien cfg); [|contradiction].
    destruct Hex as [E | []]. apply Hb. symmetry. exact E.
  - destruct (AlbionConfig.exclude_caerleon cfg); [|contradiction].
    destruct Hex as [E | []]. apply Hc. symmetry. exact E.
Qed.


Lemma plan_step_cities (int_of_str : string -> result Z) (a : analysis)
    (tier resource_type : string) (quantity : Z)
    (profit_data : option RefiningResult) (selected_city : string)
    (plan : action_plan) (s : plan_step) (c : string) :
  create_refining_action_plan int_of_str a tier resource_type quantity profit_data
    selected_city = Ok plan ->
  In s (steps plan) -> where_ s = Some c ->
  c = selected_city
  \/ In c (recommended_cities (raw_recommendations a))
  \/ In c (recommended_cities (prev_refined_recommendations a))
  \/ In c (recommended_cities (refined_recommendations a)).
Proof.
  unfold create_refining_action_plan.
  assert (Hbuy : forall r, rec_city r buy_recommendation = Some c ->
                           In c (recommended_cities r)).
  { intros [r |] H; cbn in H; [|discriminate]. unfold recommended_cities.
    rewrite H. left. reflexivity. }
  assert (Hsell : forall r, rec_city r sell_recommendation = Some c ->
                            In c (recommended_cities r)).
  { intros [r |] H; cbn in H; [|discriminate]. unfold recommended_cities.
    rewrite H. apply in_or_app. right. left. reflexivity. }
  destruct profit_data as [pd |].
  - destruct (Qgtb (net_profit pd) 0).
    + destruct (int_of_str (str_tail tier)) as [tier_num | e]; cbn [bind];
        [|discriminate].
      intro H. injection H as <-. cbn [steps].
      intros Hin Hw.
      repeat (destruct Hin as [<- | Hin]; cbn [where_] in Hw;
              [ first [ injection Hw as <-; left; reflexivity
                      | right; left; apply Hbuy, Hw
                      | right; right; left; apply Hbuy, Hw
                      | right; right; right; apply Hsell, Hw ] | ]).
      contradiction.
    + destruct (if (_ >? 0)%Z then pydiv _ _ else Ok 0) as [l | e]; cbn [bind];
        [|discriminate].
      intro H. injection H as <-. intros [].
  - intro H. injection H as <-. intros [].
Qed.

(** C5, counterexample: with Caerleon excluded by the configuration,
    the profit-ordered ranking of [find_best_refining_city], which takes
    no configuration, still lists Caerleon (third of its seven cities
    for T5 ore at 100 and 350). *)
Lemma excluded_city_in_ranking :
  In "Caerleon" (AlbionConfig.excluded_cities (config_with true true false true))
  /\ exists ranking,
       find_best_refining_city "T5" "ORE" 100 350 50 true true 0 = Ok ranking
       /\ keys ranking
          = ["Thetford"; "Brecilien"; "Caerleon"; "Fort Sterling"; "Lymhurst";
             "Bridgewatch"; "Martlock"]
       /\ In "Caerleon" (keys ranking).
Proof.
  split; [left; reflexivity|].
  eexists. split; [vm_compute; reflexivity|].
  split; [reflexivity|]. right. right. left. reflexivity.
Qed.

(** C5, amended: with a configuration, every city named by a buy or
    sell recommendation, and the buy and sell cities of every composite
    route, are allowed cities of the configuration, hence not excluded:
    the quotes are filtered before any search.  The production city of
    a route is the bonus-optimal city whatever the exclusions; for the six
    refining resource types it is never an excluded city.  Every located
    step of an action plan is at the caller's selected city or at a
    recommended city. *)
Theorem exclusions_filter_recommendations (cfg : AlbionConfig.AlbionConfig)
    (calc : bool) (price_data : dict city_data) (tier resource_type : string) :
  let allowed c :=
    In c (AlbionConfig.get_allowed_cities cfg)
    /\ ~ In c (AlbionConfig.excluded_cities cfg) in
  exists a,
    analyze_opportunities (mkArbitrageAnalyzer (Some cfg) calc) price_data
      tier resource_type = Ok a
    /\ (forall c, In c (recommended_cities (raw_recommendations a)) -> allowed c)
    /\ (forall c, In c (recommended_cities (prev_refined_recommendations a)) -> allowed c)
    /\ (forall c, In c (recommended_cities (refined_recommendations a)) -> allowed c)
    /\ (forall info o,
          refining_opportunities a = Some info -> In o (best_opportunities info) ->
          allowed (raw_city o) /\ allowed (refined_city o)
          /\ (forall c, prev_city o = Some c -> allowed c)
          /\ refine_city o = get_optimal_refining_city resource_type)
    /\ (In resource_type refining_resource_types ->
        ~ In (get_optimal_refining_city resource_type)
             (AlbionConfig.excluded_cities cfg))
    /\ (forall int_of_str quantity profit_data selected_city plan s c,
          create_refining_action_plan int_of_str a tier resource_type quantity
            profit_data selected_city = Ok plan ->
          In s (steps plan) -> where_ s = Some c ->
          c = selected_city \/ allowed c).
Proof.
  intro allowed.
  set (self := mkArbitrageAnalyzer (Some cfg) calc).
  destruct (analyze_opportunities_ok self price_data tier resource_type)
    as [a [Ha [H1 [H2 [H3 H4]]]]].
  assert (Hal : forall c, In c (AlbionConfig.get_allowed_cities cfg) -> allowed c).
  { intros c H. split; [exact H | apply allowed_not_excluded, H]. }
  assert (A1 : forall c, In c (recommended_cities (raw_recommendations a)) -> allowed c).
  { intros c Hc. apply Hal.
    apply (recommended_cities_allowed cfg calc price_data _ _ _ _ _ _ c H1 Hc). }
  assert (A2 : forall c, In c (recommended_cities (prev_refined_recommendations a)) ->
                         allowed c).
  { intros c Hc. apply Hal.
    apply (recommended_cities_allowed cfg calc price_data _ _ _ _ _ _ c H2 Hc). }
  assert (A3 : forall c, In c (recommended_cities (refined_recommendations a)) ->
                         allowed c).
  { intros c Hc. apply Hal.
    apply (recommended_cities_allowed cfg calc price_data _ _ _ _ _ _ c H3 Hc). }
  assert (Hsel : forall field keep c,
             In c (keys (select_prices field keep price_data
                           (filtered_cities self price_data))) -> allowed c).
  { intros field keep c Hc. apply Hal. apply select_prices_keys in Hc.
    apply (filtered_cities_allowed cfg calc price_data c Hc). }
  exists a. split; [exact Ha|].
  split; [exact A1|]. split; [exact A2|]. split; [exact A3|].
  split; [|split].
  - intros info o Hinfo Hin.
    destruct (analyze_refining_arbitrage_spec cfg calc (raw_prices_of self price_data)
                (prev_refined_prices_of self price_data)
                (refined_prices_of self price_data) tier resource_type)
      as [res [Hres [_ Hsome]]].
    fold self in Hres. rewrite H4 in Hres. injection Hres as <-.
    destruct (Hsome info Hinfo) as [best_raw [raw_buy_price [Hleg [_ Hall]]]].
    destruct (Hall o Hin) as [Hr [Hs [Hc [Hp _]]]].
    split; [|split; [|split]].
    + rewrite Hr. apply raw_leg_city in Hleg. apply (Hsel _ _ _ Hleg).
    + apply (Hsel _ _ _ Hs).
    + intros c Hc'. rewrite Hp in Hc'. apply prev_leg_city in Hc'.
      apply (Hsel _ _ _ Hc').
    + exact Hc.
  - apply optimal_city_not_excluded.
  - intros int_of_str quantity profit_data selected_city plan s c Hplan Hin Hw.
    destruct (plan_step_cities int_of_str a tier resource_type quantity profit_data
                selected_city plan s c Hplan Hin Hw) as [H | [H | [H | H]]];
      [left; exact H | right; auto | right; auto | right; auto].
Qed.

Lemma exclusions_filter_recommendations_witness :
  exists a,
    analyze_opportunities
      (mkArbitrageAnalyzer (Some (config_with true true false true)) true)
      [("Caerleon",
        mkCityData (Some (mkQuote 5 40 "T5_ORE")) None
          (Some (mkQuote 400 410 "T5_METALBAR")));
       ("Martlock",
        mkCityData (Some (mkQuote 10 80 "T5_ORE")) None
          (Some (mkQuote 300 310 "T5_METALBAR")))]
      "T5" "ORE" = Ok a
    /\ recommended_cities (raw_recommendations a) = ["Martlock"; "Martlock"]
    /\ ~ In "Martlock" (AlbionConfig.excluded_cities (config_with true true false true)).
Proof.
  destruct (exclusions_filter_recommendations (config_with true true false true) true
              [("Caerleon",
                mkCityData (Some (mkQuote 5 40 "T5_ORE")) None
                  (Some (mkQuote 400 410 "T5_METALBAR")));
               ("Martlock",
                mkCityData (Some (mkQuote 10 80 "T5_ORE")) None
                  (Some (mkQuote 300 310 "T5_METALBAR")))]
              "T5" "ORE") as [a [Ha [A1 _]]].
  exists a. split; [exact Ha|].
  assert (E : recommended_cities (raw_recommendations a) = ["Martlock"; "Martlock"]).
  { vm_compute in Ha. injection Ha as <-. reflexivity. }
  split; [exact E|].
  apply (A1 "Martlock"). rewrite E. left. reflexivity.
Defined.

(** ** Missing prices in the arbitrage analysis *)




(** ** Missing reference data *)





(** ** Profit margin *)

(** C10, counterexample: in the crafting scenario of the specification
    (T4 sword in Fort Sterling) the cost plus tax is positive and the
    reported margin, 601.5/3300*100, is the net profit over the revenue,
    not 601.5/2698.5*100, the net profit over cost plus tax. *)
Lemma crafting_margin_is_over_revenue :
  exists r,
    CraftingCalculator.calculate_crafting_profit "T4_SWORD" "Fort Sterling"
      [("T4_METAL", 150); ("T3_METAL", 75)] 2000 1 50 true true = Ok r
    /\ CraftingCalculator.net_profit r == 601.5
    /\ CraftingCalculator.total_cost r == 2698.5
    /\ CraftingCalculator.total_revenue r == 3300
    /\ ~ CraftingCalculator.profit_margin r
         == CraftingCalculator.net_profit r / CraftingCalculator.total_cost r * 100
    /\ CraftingCalculator.profit_margin r
       == CraftingCalculator.net_profit r / CraftingCalculator.total_revenue r * 100.
Proof.
  eexists. split; [vm_compute; reflexivity|].
  cbn [CraftingCalculator.net_profit CraftingCalculator.total_cost
       CraftingCalculator.total_revenue CraftingCalculator.profit_margin].
  repeat split; try (vm_compute; reflexivity).
  vm_compute. discriminate.
Qed.

(** *** Division by zero in the binary64 calculators *)

Lemma float_of_int_no_zero_division (n : Z) :
  Binary64.float_of_int n <> Raise ZeroDivisionError.
Proof.
  unfold Binary64.float_of_int.
  destruct (binary_normalize prec emax n 0 false); discriminate.
Qed.

Lemma to_float_no_zero_division (a : Binary64.num) :
  Binary64.to_float a <> Raise ZeroDivisionError.
Proof.
  destruct a; [apply float_of_int_no_zero_division | discriminate].
Qed.

Lemma bind_no_zero_division {A B : Type} (r : result A) (k : A -> result B) :
  r <> Raise ZeroDivisionError ->
  (forall a, r = Ok a -> k a <> Raise ZeroDivisionError) ->
  bind r k <> Raise ZeroDivisionError.
Proof.
  intros Hr Hk. destruct r as [a | e]; cbn [bind]; [apply Hk; reflexivity|].
  intro H. apply Hr. injection H as ->. reflexivity.
Qed.

Lemma binary_no_zero_division (f : float -> float -> float) (a b : Binary64.num) :
  (x <- Binary64.to_float a ;; y <- Binary64.to_float b ;;
   Ok (Binary64.Float (f x y))) <> Raise ZeroDivisionError.
Proof.
  apply bind_no_zero_division; [apply to_float_no_zero_division|]. intros x _.
  apply bind_no_zero_division; [apply to_float_no_zero_division|]. discriminate.
Qed.

Lemma add_no_zero_division (a b : Binary64.num) :
  Binary64.add a b <> Raise ZeroDivisionError.
Proof.
  destruct a, b; cbn [Binary64.add]; try discriminate;
    apply (binary_no_zero_division PrimFloat.add).
Qed.

Lemma sub_no_zero_division (a b : Binary64.num) :
  Binary64.sub a b <> Raise ZeroDivisionError.
Proof.
  destruct a, b; cbn [Binary64.sub]; try discriminate;
    apply (binary_no_zero_division PrimFloat.sub).
Qed.

Lemma mul_no_zero_division (a b : Binary64.num) :
  Binary64.mul a b <> Raise ZeroDivisionError.
Proof.
  destruct a, b; cbn [Binary64.mul]; try discriminate;
    apply (binary_no_zero_division PrimFloat.mul).
Qed.

Lemma int_no_zero_division (a : Binary64.num) :
  Binary64.int_ a <> Raise ZeroDivisionError.
Proof.
  destruct a as [n | x]; cbn [Binary64.int_]; [discriminate|].
  destruct (Prim2SF x); discriminate.
Qed.

(** A float that compares above 0 is not a zero divisor. *)
Lemma truediv_positive (a : Binary64.num) (y : float) :
  Binary64.gt (Binary64.Float y) (Binary64.Int 0) = true ->
  Binary64.truediv a (Binary64.Float y) <> Raise ZeroDivisionError.
Proof.
  unfold Binary64.gt, Binary64.cmp, Binary64.float_cmp_int. intro Hgt.
  assert (Hz : Binary64.float_is_zero y = false).
  { unfold Binary64.float_is_zero.
    destruct (Prim2SF y); [discriminate Hgt | reflexivity.. ]. }
  destruct a as [m | x]; cbn [Binary64.truediv Binary64.to_float bind].
  - apply bind_no_zero_division; [apply float_of_int_no_zero_division|].
    intros x _. rewrite Hz. discriminate.
  - rewrite Hz. discriminate.
Qed.

Lemma int_truediv_no_zero_division (m n : Z) :
  (n <> 0)%Z ->
  Binary64.truediv (Binary64.Int m) (Binary64.Int n) <> Raise ZeroDivisionError.
Proof.
  intro Hn. cbn [Binary64.truediv].
  destruct (Z.eqb_spec n 0) as [E | _]; [contradiction|].
  apply bind_no_zero_division; [|discriminate].
  unfold Binary64.int_truediv. destruct (SFdiv _ _ _ _); discriminate.
Qed.

Lemma add_float_r (a : Binary64.num) (y : float) (p : Binary64.num) :
  Binary64.add a (Binary64.Float y) = Ok p -> exists x, p = Binary64.Float x.
Proof.
  unfold Binary64.add. destruct a as [n | x].
  - destruct (Binary64.to_float (Binary64.Int n)) as [x | e]; cbn [bind];
      [|discriminate].
    intro H. injection H as <-. eexists. reflexivity.
  - cbn [Binary64.to_float bind]. intro H. injection H as <-. eexists. reflexivity.
Qed.

Lemma mul_float_l (x : float) (b p : Binary64.num) :
  Binary64.mul (Binary64.Float x) b = Ok p -> exists z, p = Binary64.Float z.
Proof.
  unfold Binary64.mul. cbn [Binary64.to_float bind].
  destruct b as [n | y].
  - destruct (Binary64.to_float (Binary64.Int n)) as [y | e]; cbn [bind];
      [|discriminate].
    intro H. injection H as <-. eexists. reflexivity.
  - cbn [Binary64.to_float bind]. intro H. injection H as <-. eexists. reflexivity.
Qed.

(** The binary64 return rate of refining: one of eight constants,
    never an error. *)
Lemma binary64_local_production_bonus_values (city resource_type : string) :
  Binary64.Refining.get_local_production_bonus city resource_type = 0.40%float
  \/ Binary64.Refining.get_local_production_bonus city resource_type = 0.0%float.
Proof.
  unfold Binary64.Refining.get_local_production_bonus, get_default,
    Binary64.Refining.city_bonuses. cbn [get].
  repeat match goal with
         | |- context [String.eqb ?a ?b] => destruct (String.eqb a b); cbn [get]; auto
         end.
Qed.

Lemma binary64_return_rate_ok (city resource_type : string)
    (use_focus personal_island : bool) :
  exists x,
    Binary64.Refining.calculate_return_rate city resource_type use_focus
      personal_island = Ok (Binary64.Float x)
    /\ Binary64.gt (Binary64.Float x) (Binary64.Int 0) = true
    /\ Binary64.lt (Binary64.Float x) (Binary64.Int 1) = true.
Proof.
  unfold Binary64.Refining.calculate_return_rate.
  destruct (binary64_local_production_bonus_values city resource_type) as [E | E];
    rewrite E; destruct use_focus, personal_island;
    (eexists; split; [vm_compute; reflexivity|]; split; vm_compute; reflexivity).
Qed.

Ltac no_zero_division_side :=
  first [ apply mul_no_zero_division | apply add_no_zero_division
        | apply sub_no_zero_division | apply int_no_zero_division
        | apply to_float_no_zero_division
        | apply int_truediv_no_zero_division; discriminate
        | discriminate ].

Ltac no_zero_division :=
  repeat (apply bind_no_zero_division;
          [ try no_zero_division_side | intros ? ? ]);
  try no_zero_division_side.

Lemma refining_focus_cost_no_zero_division (tier : string)
    (quantity specialization : Z) (premium : bool) :
  Binary64.Refining.calculate_focus_cost tier quantity specialization premium
  <> Raise ZeroDivisionError.
Proof.
  unfold Binary64.Refining.calculate_focus_cost. no_zero_division.
  destruct premium; no_zero_division_side.
Qed.

Lemma crafting_focus_cost_no_zero_division (tier : string)
    (specialization : Z) (premium use_focus : bool) :
  Binary64.Crafting.calculate_focus_cost tier specialization premium use_focus
  <> Raise ZeroDivisionError.
Proof.
  unfold Binary64.Crafting.calculate_focus_cost.
  destruct use_focus; cbn [negb]; [|discriminate]. no_zero_division.
Qed.

Lemma crafting_return_rate_no_zero_division (tier : string)
    (specialization : Z) (premium use_focus : bool) :
  Binary64.Crafting.calculate_return_rate tier specialization premium use_focus
  <> Raise ZeroDivisionError.
Proof.
  unfold Binary64.Crafting.calculate_return_rate. no_zero_division.
  destruct use_focus; no_zero_division.
Qed.

Lemma material_costs_no_zero_division (city_bonus : Binary64.num) (quantity : Z)
    (material_prices : dict Binary64.num) (materials : dict Z)
    (st : result (dict Binary64.num * Binary64.num)) :
  st <> Raise ZeroDivisionError ->
  fold_left (Binary64.Crafting.material_step city_bonus quantity material_prices)
    materials st <> Raise ZeroDivisionError.
Proof.
  revert st. induction materials as [| [material base_amount] rest IH];
    intros st Hst; cbn [fold_left]; [exact Hst|].
  apply IH. unfold Binary64.Crafting.material_step.
  apply bind_no_zero_division; [exact Hst|]. intros [costs total] _.
  no_zero_division.
Qed.

Lemma crafting_return_rate_float (tier : string) (specialization : Z)
    (premium use_focus : bool) (rate : Binary64.num) :
  Binary64.Crafting.calculate_return_rate tier specialization premium use_focus
  = Ok rate ->
  exists x, rate = Binary64.Float x.
Proof.
  unfold Binary64.Crafting.calculate_return_rate. intro H.
  destruct (Binary64.truediv _ _) as [r | e]; cbn [bind] in H; [|discriminate H].
  destruct (Binary64.mul r _) as [bonus | e] eqn:Eb; cbn [bind] in H;
    [|discriminate H].
  destruct (mul_float_r _ _ _ Eb) as [b ->].
  assert (Hrate : forall s, (exists x, s = Binary64.Float x) ->
                            exists x, Binary64.min s (Binary64.Float 0.70) = Binary64.Float x).
  { intros s [x ->]. unfold Binary64.min.
    destruct (Binary64.lt _ _); eexists; reflexivity. }
  destruct use_focus.
  - destruct (Binary64.add _ (Binary64.Float b)) as [s | e] eqn:Es; cbn [bind] in H;
      [|discriminate H].
    destruct (Binary64.add s _) as [s' | e] eqn:Es'; cbn [bind] in H;
      [|discriminate H].
    injection H as <-. apply Hrate. apply (add_float_r _ _ _ Es').
  - destruct (Binary64.add _ (Binary64.Float b)) as [s | e] eqn:Es; cbn [bind] in H;
      [|discriminate H].
    injection H as <-. apply Hrate. apply (add_float_r _ _ _ Es).
Qed.

(** C10, amended: the refining margin is
    [netProfit / totalCost * 100] with [totalCost = inputCost + taxCost]
    when the total cost is positive and the int 0 otherwise; the
    crafting margin is [netProfit / totalRevenue * 100] when the revenue
    is positive and 0 otherwise.  In both calculators the divisor has
    been tested positive, so no division by zero is ever raised,
    whatever the prices.  The margin is not always finite: when the
    binary64 products overflow it is NaN or infinite. *)
Theorem profit_margin_guarded
    (tier resource_type city item_id : string)
    (raw_price refined_price prev_refined_price item_sell_price : Binary64.num)
    (material_prices : dict Binary64.num) (quantity specialization : Z)
    (premium use_focus : bool) :
  let refining :=
    Binary64.Refining.calculate_refining_profit tier resource_type city raw_price
      refined_price quantity specialization premium use_focus prev_refined_price in
  let crafting :=
    Binary64.Crafting.calculate_crafting_profit item_id city material_prices
      item_sell_price quantity specialization premium use_focus in
  let zero := Binary64.Int 0 in
  let hundred := Binary64.Int 100 in
  refining <> Raise ZeroDivisionError
  /\ (forall r, refining = Ok r ->
        Binary64.add (Binary64.Refining.input_cost r) (Binary64.Refining.tax_cost r)
        = Ok (Binary64.Refining.total_cost r)
        /\ (Binary64.gt (Binary64.Refining.total_cost r) zero = true ->
            exists m,
              Binary64.truediv (Binary64.Refining.net_profit r)
                (Binary64.Refining.total_cost r) = Ok m
              /\ Binary64.mul m hundred = Ok (Binary64.Refining.profit_margin r))
        /\ (Binary64.gt (Binary64.Refining.total_cost r) zero = false ->
            Binary64.Refining.profit_margin r = zero))
  /\ crafting <> Raise ZeroDivisionError
  /\ (forall r, crafting = Ok r ->
        (Binary64.gt (Binary64.Crafting.total_revenue r) zero = true ->
         exists m,
           Binary64.truediv (Binary64.Crafting.net_profit r)
             (Binary64.Crafting.total_revenue r) = Ok m
           /\ Binary64.mul m hundred = Ok (Binary64.Crafting.profit_margin r))
        /\ (Binary64.gt (Binary64.Crafting.total_revenue r) zero = false ->
            Binary64.Crafting.profit_margin r = zero))
  /\ (exists r,
        Binary64.Refining.calculate_refining_profit "T5" "ORE" "Thetford"
          (Binary64.Float 1e308) (Binary64.Float 350) 100 0 false true
          (Binary64.Float 0) = Ok r
        /\ Binary64.is_nan (Binary64.Refining.profit_margin r) = true)
  /\ (exists r,
        Binary64.Refining.calculate_refining_profit "T5" "ORE" "Thetford"
          (Binary64.Float 0) (Binary64.Float 1.7e308) 100 0 false true
          (Binary64.Float 0) = Ok r
        /\ Binary64.Refining.input_cost r = Binary64.Float 0
        /\ Binary64.is_infinite (Binary64.Refining.profit_margin r) = true)
  /\ (exists r,
        Binary64.Crafting.calculate_crafting_profit "T4_SWORD" "Fort Sterling"
          [("T4_METAL", Binary64.Int 150); ("T3_METAL", Binary64.Int 75)]
          (Binary64.Float 1.7e308) 1 50 true true = Ok r
        /\ Binary64.is_nan (Binary64.Crafting.profit_margin r) = true).
Proof.
  intros refining crafting zero hundred. subst refining crafting zero hundred.
  split; [|split; [|split; [|split; [|split; [|split]]]]].
  - unfold Binary64.Refining.calculate_refining_profit.
    destruct (_ =? 0)%Z; [discriminate|].
    apply bind_no_zero_division; [apply mul_no_zero_division | intros raw_cost _].
    apply bind_no_zero_division; [apply mul_no_zero_division | intros prev_cost _].
    apply bind_no_zero_division; [apply add_no_zero_division | intros input _].
    apply bind_no_zero_division.
    { destruct (binary64_return_rate_ok city resource_type use_focus false)
        as [x [E _]]. rewrite E. discriminate. }
    intros rate _.
    apply bind_no_zero_division.
    { destruct use_focus; [apply refining_focus_cost_no_zero_division | discriminate]. }
    intros focus _.
    apply bind_no_zero_division; [apply mul_no_zero_division | intros t1 _].
    apply bind_no_zero_division; [apply mul_no_zero_division | intros t2 _].
    apply bind_no_zero_division; [apply mul_no_zero_division | intros tax Htax].
    apply bind_no_zero_division; [apply add_no_zero_division | intros total Htotal].
    apply bind_no_zero_division; [apply mul_no_zero_division | intros rev _].
    apply bind_no_zero_division; [apply mul_no_zero_division | intros a1 _].
    apply bind_no_zero_division; [apply mul_no_zero_division | intros a2 _].
    apply bind_no_zero_division; [apply mul_no_zero_division | intros b1 _].
    apply bind_no_zero_division; [apply mul_no_zero_division | intros b2 _].
    apply bind_no_zero_division; [apply add_no_zero_division | intros ret _].
    apply bind_no_zero_division; [apply add_no_zero_division | intros rev' _].
    apply bind_no_zero_division; [apply sub_no_zero_division | intros net _].
    apply bind_no_zero_division.
    { destruct (Binary64.gt total (Binary64.Int 0)) eqn:G; [|discriminate].
      destruct (mul_float_r _ _ _ Htax) as [y ->].
      destruct (add_float_r _ _ _ Htotal) as [z ->].
      apply bind_no_zero_division; [apply truediv_positive, G|].
      intros m _. apply mul_no_zero_division. }
    intros margin _.
    apply bind_no_zero_division; [apply mul_no_zero_division | intros rr _].
    apply bind_no_zero_division; [apply int_no_zero_division | discriminate].
  - intros r Hr. unfold Binary64.Refining.calculate_refining_profit in Hr.
    destruct (_ =? 0)%Z; [discriminate Hr|].
    repeat match type of Hr with
           | bind ?P _ = _ =>
               let E := fresh "E" in
               destruct P eqn:E; cbn [bind] in Hr; [|discriminate Hr]
           end.
    injection Hr as <-.
    cbn [Binary64.Refining.input_cost Binary64.Refining.tax_cost
         Binary64.Refining.total_cost Binary64.Refining.net_profit
         Binary64.Refining.profit_margin].
    split; [assumption|]. split.
    + intro G.
      match goal with
      | H : (if Binary64.gt _ _ then _ else _) = Ok _ |- _ => rewrite G in H;
          match type of H with
          | bind ?P _ = _ => destruct P as [m |] eqn:Em; cbn [bind] in H;
                               [|discriminate H]
          end;
          exists m; split; [reflexivity | exact H]
      end.
    + intro G.
      match goal with
      | H : (if Binary64.gt _ _ then _ else _) = Ok _ |- _ => rewrite G in H;
          injection H as <-; reflexivity
      end.
  - unfold Binary64.Crafting.calculate_crafting_profit.
    destruct (get CraftingCalculator.recipes item_id) as [rcp |]; [|discriminate].
    apply bind_no_zero_division;
      [apply crafting_return_rate_no_zero_division | intros rate Hrate].
    destruct (crafting_return_rate_float _ _ _ _ _ Hrate) as [x ->].
    apply bind_no_zero_division;
      [apply crafting_focus_cost_no_zero_division | intros focus _].
    apply bind_no_zero_division;
      [apply material_costs_no_zero_division; discriminate | intros [costs total] _].
    apply bind_no_zero_division; [apply add_no_zero_division | intros f Hf].
    destruct (add_float_r _ _ _ Hf) as [y ->].
    apply bind_no_zero_division; [apply mul_no_zero_division | intros items Hi].
    destruct (mul_float_r _ _ _ Hi) as [z ->].
    apply bind_no_zero_division; [apply mul_no_zero_division | intros rev Hrev].
    destruct (mul_float_l _ _ _ Hrev) as [w ->].
    apply bind_no_zero_division; [apply mul_no_zero_division | intros tax _].
    apply bind_no_zero_division; [apply sub_no_zero_division | intros gross _].
    apply bind_no_zero_division; [apply sub_no_zero_division | intros net _].
    apply bind_no_zero_division; [apply add_no_zero_division | intros cost _].
    apply bind_no_zero_division.
    { destruct (Binary64.gt _ (Binary64.Int 0)) eqn:G; [|discriminate].
      apply bind_no_zero_division; [apply truediv_positive, G|].
      intros m _. apply mul_no_zero_division. }
    intros margin _.
    apply bind_no_zero_division; [|discriminate].
    destruct (Binary64.gt _ (Binary64.Int 0)) eqn:G; [|discriminate].
    apply truediv_positive, G.
  - intros r Hr. unfold Binary64.Crafting.calculate_crafting_profit in Hr.
    destruct (get CraftingCalculator.recipes item_id) as [rcp |]; [|discriminate Hr].
    destruct (Binary64.Crafting.calculate_return_rate _ _ _ _) as [rate | e];
      cbn [bind] in Hr; [|discriminate Hr].
    destruct (Binary64.Crafting.calculate_focus_cost _ _ _ _) as [focus | e];
      cbn [bind] in Hr; [|discriminate Hr].
    destruct (fold_left _ _ _) as [[costs total] | e]; cbn [bind] in Hr;
      [|discriminate Hr].
    repeat match type of Hr with
           | bind ?P _ = _ =>
               let E := fresh "E" in
               destruct P eqn:E; cbn [bind] in Hr; [|discriminate Hr]
           end.
    injection Hr as <-.
    cbn [Binary64.Crafting.total_revenue Binary64.Crafting.net_profit
         Binary64.Crafting.profit_margin].
    split.
    + intro G.
      match goal with
      | H : (if Binary64.gt ?rev _ then bind (Binary64.truediv _ ?rev) _ else _)
            = Ok _ |- _ =>
          rewrite G in H;
          match type of H with
          | bind ?P _ = _ => destruct P as [m |] eqn:Em; cbn [bind] in H;
                               [|discriminate H]
          end;
          exists m; split; [reflexivity | exact H]
      end.
    + intro G.
      match goal with
      | H : (if Binary64.gt ?rev _ then bind (Binary64.truediv _ ?rev) _ else _)
            = Ok _ |- _ =>
          rewrite G in H; injection H as <-; reflexivity
      end.
  - eexists. split; [vm_compute; reflexivity | vm_compute; reflexivity].
  - eexists. split; [vm_compute; reflexivity|].
    split; vm_compute; reflexivity.
  - eexists. split; [vm_compute; reflexivity | vm_compute; reflexivity].
Qed.

Lemma profit_margin_guarded_witness :
  (exists r,
     Binary64.Refining.calculate_refining_profit "T9" "ORE" "Thetford"
       (Binary64.Int 0) (Binary64.Int 0) 100 0 false false (Binary64.Int 0) = Ok r
     /\ Binary64.Refining.profit_margin r = Binary64.Int 0)
  /\ exists r,
       Binary64.Crafting.calculate_crafting_profit "T4_SWORD" "Fort Sterling"
         [("T4_METAL", Binary64.Int 150); ("T3_METAL", Binary64.Int 75)]
         (Binary64.Int 0) 1 50 true true = Ok r
       /\ Binary64.Crafting.profit_margin r = Binary64.Int 0.
Proof.
  pose proof (profit_margin_guarded "T9" "ORE" "Thetford" "T4_SWORD"
                (Binary64.Int 0) (Binary64.Int 0) (Binary64.Int 0) (Binary64.Int 0)
                [("T4_METAL", Binary64.Int 150); ("T3_METAL", Binary64.Int 75)]
                100 0 false false) as [_ [Hr _]].
  pose proof (profit_margin_guarded "T4" "ORE" "Fort Sterling" "T4_SWORD"
                (Binary64.Int 0) (Binary64.Int 0) (Binary64.Int 0) (Binary64.Int 0)
                [("T4_METAL", Binary64.Int 150); ("T3_METAL", Binary64.Int 75)]
                1 50 true true) as [_ [_ [_ [Hc _]]]].
  split.
  - eexists. split; [vm_compute; reflexivity|].
    refine (proj2 (proj2 (Hr _ _)) _); vm_compute; reflexivity.
  - eexists. split; [vm_compute; reflexivity|].
    refine (proj2 (Hc _ _) _); vm_compute; reflexivity.
Defined.
(** ** The break-even search *)

Section BreakEvenSearch.

Variables (tier resource_type city : string) (refined_price : Binary64.num)
  (specialization : Z) (premium use_focus : bool)
  (prev_refined_price : Binary64.num).

Local Abbreviation step :=
  (Binary64.Refining.break_even_step tier resource_type city refined_price
     specialization premium use_focus prev_refined_price).

Local Abbreviation loop :=
  (Binary64.Refining.break_even_loop tier resource_type city refined_price
     specialization premium use_focus prev_refined_price).

Local Abbreviation profit_at :=
  (fun p => Binary64.Refining.calculate_refining_profit tier resource_type city p
              refined_price 100 specialization premium use_focus
              prev_refined_price).

Local Abbreviation positive_at :=
  (fun p => exists r, profit_at p = Ok r
                      /\ Binary64.gt (Binary64.Refining.net_profit r)
                           (Binary64.Int 0) = true).

Local Abbreviation not_positive_at :=
  (fun p => exists r, profit_at p = Ok r
                      /\ Binary64.gt (Binary64.Refining.net_profit r)
                           (Binary64.Int 0) = false).

(** What one pass of the loop does. *)
Lemma break_even_step_return (low high p : Binary64.num) :
  step low high = Binary64.Refining.Return p ->
  p = low
  /\ exists width, Binary64.sub high low = Ok width
                   /\ Binary64.gt width
                        (Binary64.Float Binary64.Refining.tolerance) = false.
Proof.
  unfold Binary64.Refining.break_even_step.
  destruct (Binary64.sub high low) as [width | e]; [|intro H; discriminate H].
  destruct (Binary64.gt width _) eqn:G.
  - destruct (bind _ _) as [mid | e]; [|intro H; discriminate H].
    destruct (Binary64.Refining.calculate_refining_profit _ _ _ _ _ _ _ _ _ _)
      as [r | e]; [|intro H; discriminate H].
    destruct (Binary64.gt (Binary64.Refining.net_profit r) _); intro H;
      discriminate H.
  - intro H. injection H as <-. split; [reflexivity|].
    exists width. split; [reflexivity | exact G].
Qed.

Lemma break_even_step_continue (low high low' high' : Binary64.num) :
  step low high = Binary64.Refining.Continue low' high' ->
  exists width mid,
    Binary64.sub high low = Ok width
    /\ Binary64.gt width (Binary64.Float Binary64.Refining.tolerance) = true
    /\ (s <- Binary64.add low high ;; Binary64.truediv s (Binary64.Int 2)) = Ok mid
    /\ ((low' = mid /\ high' = high /\ positive_at mid)
        \/ (low' = low /\ high' = mid /\ not_positive_at mid)).
Proof.
  unfold Binary64.Refining.break_even_step.
  destruct (Binary64.sub high low) as [width | e]; [|intro H; discriminate H].
  destruct (Binary64.gt width _) eqn:G; [|intro H; discriminate H].
  destruct (bind _ _) as [mid | e]; [|intro H; discriminate H].
  destruct (Binary64.Refining.calculate_refining_profit _ _ _ mid _ _ _ _ _ _)
    as [r | e] eqn:Er; [|intro H; discriminate H].
  destruct (Binary64.gt (Binary64.Refining.net_profit r) _) eqn:Gp;
    intro H; injection H as <- <-; exists width, mid;
    (split; [reflexivity|]; split; [exact G|]; split; [reflexivity|]).
  - left. split; [reflexivity|]. split; [reflexivity|]. exists r. split; assumption.
  - right. split; [reflexivity|]. split; [reflexivity|]. exists r. split; assumption.
Qed.

(** The invariant of the loop: the lower end is the initial one or a
    price with a positive profit, the upper end the initial one or a
    price without. *)
Lemma break_even_loop_invariant (high0 : Binary64.num) (fuel : nat) :
  forall low high p,
    (low = Binary64.Float 1.0 \/ positive_at low) ->
    (high = high0 \/ not_positive_at high) ->
    loop fuel low high = Some (Ok p) ->
    (p = Binary64.Float 1.0 \/ positive_at p)
    /\ exists high' width,
         (high' = high0 \/ not_positive_at high')
         /\ Binary64.sub high' p = Ok width
         /\ Binary64.gt width (Binary64.Float Binary64.Refining.tolerance) = false.
Proof.
  induction fuel as [| fuel IH]; intros low high p Hlow Hhigh;
    cbn [Binary64.Refining.break_even_loop];
    destruct (step low high) as [q | l h | e] eqn:Es; try discriminate.
  - intro H. injection H as <-.
    destruct (break_even_step_return _ _ _ Es) as [-> [width [Hw Hg]]].
    split; [exact Hlow|]. exists high, width. auto.
  - intro H. injection H as <-.
    destruct (break_even_step_return _ _ _ Es) as [-> [width [Hw Hg]]].
    split; [exact Hlow|]. exists high, width. auto.
  - intro H.
    destruct (break_even_step_continue _ _ _ _ Es)
      as [width [mid [_ [_ [_ [[-> [-> Hp]] | [-> [-> Hn]]]]]]]].
    + apply (IH mid high p); [right; exact Hp | exact Hhigh | exact H].
    + apply (IH low mid p); [exact Hlow | right; exact Hn | exact H].
Qed.

Lemma break_even_loop_more_fuel (fuel fuel' : nat) :
  (fuel <= fuel')%nat ->
  forall low high res,
    loop fuel low high = Some res -> loop fuel' low high = Some res.
Proof.
  revert fuel'. induction fuel as [| fuel IH]; intros fuel' Hle low high res;
    cbn [Binary64.Refining.break_even_loop].
  - destruct fuel'; cbn [Binary64.Refining.break_even_loop];
      destruct (step low high); try discriminate; auto.
  - destruct fuel' as [| fuel']; [lia|].
    cbn [Binary64.Refining.break_even_loop].
    destruct (step low high); auto. apply IH. lia.
Qed.

(** A stuck interval is never left: the loop runs for ever. *)
Lemma break_even_stuck_forever (low high : Binary64.num) :
  break_even_stuck tier resource_type city refined_price specialization premium
    use_focus prev_refined_price low high ->
  forall fuel, loop fuel low high = None.
Proof.
  unfold break_even_stuck. intros Hs fuel.
  induction fuel as [| fuel IH]; cbn [Binary64.Refining.break_even_loop];
    rewrite Hs; [reflexivity | exact IH].
Qed.

Lemma break_even_never_returns_after (n : nat) :
  forall low high,
    match break_even_state_after tier resource_type city refined_price
            specialization premium use_focus prev_refined_price n low high with
    | Some (l, h) =>
        break_even_stuck tier resource_type city refined_price specialization
          premium use_focus prev_refined_price l h
    | None => False
    end ->
    forall fuel, loop fuel low high = None.
Proof.
  induction n as [| n IH]; intros low high; cbn [break_even_state_after].
  - apply break_even_stuck_forever.
  - destruct (step low high) as [q | l h | e] eqn:Es; try contradiction.
    intros H fuel. destruct fuel as [| fuel];
      cbn [Binary64.Refining.break_even_loop]; rewrite Es; [reflexivity|].
    apply IH, H.
Qed.

End BreakEvenSearch.
(** C8, counterexample: for T5 ore in Thetford at a refined price of
    350 the search returns 233.80928802490234; the net profit there is
    about 0.225, more than the tolerance 0.01 away from 0, and it is
    still positive 0.001 above the returned price. *)
Lemma break_even_profit_exceeds_tolerance :
  exists r r',
    Binary64.Refining.calculate_break_even_price "T5" "ORE" "Thetford"
      (Binary64.Int 350) 50 true true (Binary64.Int 0) 30
    = Some (Ok (Binary64.Float 233.80928802490234))
    /\ Binary64.Refining.calculate_refining_profit "T5" "ORE" "Thetford"
         (Binary64.Float 233.80928802490234) (Binary64.Int 350) 100 50 true true
         (Binary64.Int 0) = Ok r
    /\ Binary64.Refining.net_profit r = Binary64.Float 0.2250825171249744
    /\ Binary64.gt (Binary64.Refining.net_profit r)
         (Binary64.Float Binary64.Refining.tolerance) = true
    /\ Binary64.Refining.calculate_refining_profit "T5" "ORE" "Thetford"
         (Binary64.Float (233.80928802490234 + 0.001)) (Binary64.Int 350) 100 50
         true true (Binary64.Int 0) = Ok r'
    /\ Binary64.gt (Binary64.Refining.net_profit r') (Binary64.Int 0) = true.
Proof.
  eexists _, _.
  split; [vm_compute; reflexivity|].
  split; [vm_compute; reflexivity|].
  split; [vm_compute; reflexivity|].
  split; [vm_compute; reflexivity|].
  split; [vm_compute; reflexivity|].
  vm_compute. reflexivity.
Qed.

(** C8, amended: the break-even search is a bisection on the raw price
    over [1.0, 10*outputPrice], everything else fixed (100 units), run
    in binary64; it stops when the width [high - low] is no longer above
    0.01 and returns the lower end.  Whenever it returns a price p, p is
    1.0 or a probed price at which the computed net profit is strictly
    positive, and there is an upper end, 10*outputPrice or a probed
    price at which the net profit is not positive, whose distance to p
    is not above 0.01; more iterations never change a returned result.
    The profit at p is not within 0.01 of zero (reference run: p =
    233.80928802490234 with profit about 0.225), and the search does not
    terminate for every input: at a refined price of 2e14 the interval
    gets stuck on two neighbouring binary64 numbers and the loop never
    ends. *)
Theorem break_even_bisection
    (tier resource_type city : string) (refined_price : Binary64.num)
    (specialization : Z) (premium use_focus : bool)
    (prev_refined_price : Binary64.num) :
  let search :=
    Binary64.Refining.calculate_break_even_price tier resource_type city
      refined_price specialization premium use_focus prev_refined_price in
  let net_positive_at p positive :=
    exists r,
      Binary64.Refining.calculate_refining_profit tier resource_type city p
        refined_price 100 specialization premium use_focus prev_refined_price = Ok r
      /\ Binary64.gt (Binary64.Refining.net_profit r) (Binary64.Int 0) = positive in
  (forall fuel p, search fuel = Some (Ok p) ->
     (p = Binary64.Float 1.0 \/ net_positive_at p true)
     /\ exists high width,
          (Binary64.mul refined_price (Binary64.Int 10) = Ok high
           \/ net_positive_at high false)
          /\ Binary64.sub high p = Ok width
          /\ Binary64.gt width (Binary64.Float Binary64.Refining.tolerance) = false)
  /\ (forall fuel fuel' res, (fuel <= fuel')%nat ->
        search fuel = Some res -> search fuel' = Some res)
  /\ (forall fuel, (19 <= fuel)%nat ->
        Binary64.Refining.calculate_break_even_price "T5" "ORE" "Thetford"
          (Binary64.Int 350) 0 false true (Binary64.Int 0) fuel
        = Some (Ok (Binary64.Float 233.80928802490234)))
  /\ (forall fuel,
        Binary64.Refining.calculate_break_even_price "T5" "ORE" "Thetford"
          (Binary64.Float 2e14) 0 false true (Binary64.Float 0) fuel = None).
Proof.
  intros search net_positive_at. subst search net_positive_at.
  unfold Binary64.Refining.calculate_break_even_price.
  split; [|split; [|split]].
  - intros fuel p Hp.
    destruct (Binary64.mul refined_price (Binary64.Int 10)) as [high0 | e] eqn:Eh;
      [|discriminate Hp].
    destruct (break_even_loop_invariant tier resource_type city refined_price
                specialization premium use_focus prev_refined_price high0 fuel
                (Binary64.Float 1.0) high0 p (or_introl eq_refl) (or_introl eq_refl)
                Hp) as [Hlow [high [width [Hh [Hw Hg]]]]].
    split; [exact Hlow|]. exists high, width.
    split; [|split; assumption].
    destruct Hh as [-> | Hh]; [left; reflexivity | right; exact Hh].
  - intros fuel fuel' res Hle.
    destruct (Binary64.mul refined_price (Binary64.Int 10)) as [high0 | e];
      [|auto].
    apply break_even_loop_more_fuel, Hle.
  - intros fuel Hle.
    apply (break_even_loop_more_fuel "T5" "ORE" "Thetford" (Binary64.Int 350) 0
             false true (Binary64.Int 0) 19 fuel Hle).
    vm_compute. reflexivity.
  - intro fuel.
    change (Binary64.mul (Binary64.Float 2e14) (Binary64.Int 10))
      with (@Ok Binary64.num (Binary64.Float 2e15)).
    apply (break_even_never_returns_after "T5" "ORE" "Thetford"
             (Binary64.Float 2e14) 0 false true (Binary64.Float 0) 64).
    vm_compute. reflexivity.
Qed.

Lemma break_even_bisection_witness :
  exists r,
    Binary64.Refining.calculate_refining_profit "T5" "ORE" "Thetford"
      (Binary64.Float 233.80928802490234) (Binary64.Int 350) 100 0 false true
      (Binary64.Int 0) = Ok r
    /\ Binary64.gt (Binary64.Refining.net_profit r) (Binary64.Int 0) = true.
Proof.
  destruct (break_even_bisection "T5" "ORE" "Thetford" (Binary64.Int 350) 0 false
              true (Binary64.Int 0)) as [Hinv [_ [Hrun _]]].
  destruct (Hinv 19%nat (Binary64.Float 233.80928802490234)
              (Hrun 19%nat (Nat.le_refl 19))) as [[Hone | Hpos] _].
  - apply (f_equal (fun a => match a with
                             | Binary64.Float x => PrimFloat.eqb x 1
                             | Binary64.Int _ => false
                             end)) in Hone.
    vm_compute in Hone. discriminate Hone.
  - exact Hpos.
Defined.

(** * Further properties of the engine *)

(** ** The refining profit calculation, continued *)

(** X1: [calculate_refining_profit] raises [TypeError] exactly when the
    quantity is non-negative and smaller than the raw requirement of one
    refined unit, and returns a result for every other quantity. *)
Theorem refining_profit_raises_below_one_batch
    (tier resource_type city : string) (raw_price refined_price : Q)
    (quantity specialization : Z) (premium use_focus : bool)
    (prev_refined_price : Q) :
  ((exists msg,
      calculate_refining_profit tier resource_type city raw_price refined_price
        quantity specialization premium use_focus prev_refined_price
      = Raise (TypeError msg))
   <-> (0 <= quantity < raw (requirements_of tier))%Z)
  /\ ((exists r,
         calculate_refining_profit tier resource_type city raw_price refined_price
           quantity specialization premium use_focus prev_refined_price = Ok r)
      <-> (quantity < 0 \/ raw (requirements_of tier) <= quantity)%Z).
Proof.
  destruct (requirements_range tier) as [[H2 H6] _].
  assert (Hdiv : (quantity / raw (requirements_of tier) = 0)%Z
                 <-> (0 <= quantity < raw (requirements_of tier))%Z).
  { rewrite Z.div_small_iff by lia. lia. }
  destruct (Z.eq_dec (quantity / raw (requirements_of tier)) 0) as [E | N].
  - destruct (calculate_refining_profit_degenerate tier resource_type city raw_price
                refined_price quantity specialization premium use_focus
                prev_refined_price E) as [msg Hmsg].
    split; split.
    + intros _. apply Hdiv, E.
    + intros _. exists msg. exact Hmsg.
    + intros [r Hr]. congruence.
    + intro H. apply Hdiv in E. lia.
  - destruct (calculate_refining_profit_batch tier resource_type city raw_price
                refined_price quantity specialization premium use_focus
                prev_refined_price N) as [r [Hr _]].
    split; split.
    + intros [msg Hmsg]. congruence.
    + intro H. apply Hdiv in H. contradiction.
    + intros _. destruct (Z_lt_le_dec quantity 0) as [L | L]; [left; exact L|].
      right. destruct (Z_lt_le_dec quantity (raw (requirements_of tier))) as [L' | L'];
        [|exact L'].
      exfalso. apply N, Hdiv. lia.
    + intros _. exists r. exact Hr.
Qed.

Lemma refining_return_rate_range (city resource_type : string) (use_focus : bool) :
  0 < 1 - 1 / (1 + total_bonus city resource_type use_focus false)
  /\ 1 - 1 / (1 + total_bonus city resource_type use_focus false) < 1
  /\ 0 < 1 - (1 - 1 / (1 + total_bonus city resource_type use_focus false)).
Proof.
  pose proof (total_bonus_pos city resource_type use_focus false) as Hb.
  set (B := total_bonus city resource_type use_focus false) in *.
  assert (Hinv : 0 < 1 / (1 + B) /\ 1 / (1 + B) < 1).
  { split.
    - apply Qlt_shift_div_l; lra.
    - apply Qlt_shift_div_r; lra. }
  split; [|split]; lra.
Qed.

(** X2: with everything but the raw price fixed, the refining net profit
    is affine in the raw price with slope [-quantity * (1 - returnRate)]:
    raising the raw price from a to b lowers the net profit by
    [quantity * (1 - returnRate) * (b - a)], so for a positive quantity
    the net profit strictly decreases as the raw price grows. *)
Theorem refining_net_profit_affine_in_raw_price
    (tier resource_type city : string) (a b refined_price : Q)
    (quantity specialization : Z) (premium use_focus : bool)
    (prev_refined_price : Q) (ra rb : RefiningResult) :
  calculate_refining_profit tier resource_type city a refined_price
    quantity specialization premium use_focus prev_refined_price = Ok ra ->
  calculate_refining_profit tier resource_type city b refined_price
    quantity specialization premium use_focus prev_refined_price = Ok rb ->
  return_rate ra = return_rate rb
  /\ net_profit ra - net_profit rb
     == inject_Z quantity * (1 - return_rate ra) * (b - a)
  /\ ((0 < quantity)%Z -> a < b -> net_profit rb < net_profit ra).
Proof.
  intros Ha Hb.
  assert (N : (quantity / raw (requirements_of tier) <> 0)%Z).
  { intro E.
    destruct (calculate_refining_profit_degenerate tier resource_type city a
                refined_price quantity specialization premium use_focus
                prev_refined_price E) as [msg Hmsg]. congruence. }
  destruct (calculate_refining_profit_batch tier resource_type city a
              refined_price quantity specialization premium use_focus
              prev_refined_price N)
    as [ra' [Hra [Ea1 [Ea2 [Ea3 [Ea4 [Ea5 [Ea6 [Ea7 [Ea8 [Ea9 [Ea10 _]]]]]]]]]]]].
  destruct (calculate_refining_profit_batch tier resource_type city b
              refined_price quantity specialization premium use_focus
              prev_refined_price N)
    as [rb' [Hrb [Eb1 [Eb2 [Eb3 [Eb4 [Eb5 [Eb6 [Eb7 [Eb8 [Eb9 [Eb10 _]]]]]]]]]]]].
  rewrite Ha in Hra. injection Hra as <-.
  rewrite Hb in Hrb. injection Hrb as <-.
  assert (Er : return_rate ra = return_rate rb) by (rewrite Ea6, Eb6; reflexivity).
  split; [exact Er|].
  assert (Eaff : net_profit ra - net_profit rb
                 == inject_Z quantity * (1 - return_rate ra) * (b - a)).
  { rewrite Ea10, Eb10, Ea9, Eb9, Ea8, Eb8, Ea7, Eb7, <- Er, Ea5, Eb5,
      Ea4, Eb4, Ea3, Eb3, Ea2, Eb2, Ea1, Eb1. ring. }
  split; [exact Eaff|].
  intros Hq Hab.
  assert (Hq' : 0 < inject_Z quantity).
  { change 0 with (inject_Z 0). rewrite <- Zlt_Qlt. exact Hq. }
  destruct (refining_return_rate_range city resource_type use_focus) as [_ [_ H1]].
  rewrite <- Ea6 in H1.
  assert (0 < inject_Z quantity * (1 - return_rate ra) * (b - a)).
  { apply Qmult_lt_0_compat; [apply Qmult_lt_0_compat; assumption | lra]. }
  lra.
Qed.

Lemma refining_net_profit_affine_in_raw_price_witness :
  exists ra rb,
    calculate_refining_profit "T5" "ORE" "Thetford" 100 350 300 50 true true 0 = Ok ra
    /\ calculate_refining_profit "T5" "ORE" "Thetford" 120 350 300 50 true true 0 = Ok rb
    /\ net_profit rb < net_profit ra.
Proof.
  eexists _, _.
  split; [vm_compute; reflexivity|]. split; [vm_compute; reflexivity|].
  apply (refining_net_profit_affine_in_raw_price "T5" "ORE" "Thetford" 100 120 350
           300 50 true true 0 _ _ eq_refl eq_refl); [lia | reflexivity].
Defined.

(** X3: focus points carry no price in the refining calculation: for
    non-negative prices and quantity, the net profit with focus is at
    least the net profit without, the difference being the input cost
    times the gain in return rate; without focus the focus cost is 0. *)
Theorem refining_focus_never_lowers_net_profit
    (tier resource_type city : string) (raw_price refined_price : Q)
    (quantity specialization : Z) (premium : bool) (prev_refined_price : Q)
    (r_focus r_plain : RefiningResult) :
  calculate_refining_profit tier resource_type city raw_price refined_price
    quantity specialization premium true prev_refined_price = Ok r_focus ->
  calculate_refining_profit tier resource_type city raw_price refined_price
    quantity specialization premium false prev_refined_price = Ok r_plain ->
  (0 <= quantity)%Z -> 0 <= raw_price -> 0 <= prev_refined_price ->
  return_rate r_plain < return_rate r_focus
  /\ net_profit r_focus - net_profit r_plain
     == input_cost r_plain * (return_rate r_focus - return_rate r_plain)
  /\ net_profit r_plain <= net_profit r_focus
  /\ focus_cost r_plain = 0%Z
  /\ (1 <= focus_cost r_focus)%Z.
Proof.
  intros Hf Hp Hq Hraw Hprev.
  assert (N : (quantity / raw (requirements_of tier) <> 0)%Z).
  { intro E.
    destruct (calculate_refining_profit_degenerate tier resource_type city raw_price
                refined_price quantity specialization premium true
                prev_refined_price E) as [msg Hmsg]. congruence. }
  destruct (calculate_refining_profit_batch tier resource_type city raw_price
              refined_price quantity specialization premium true
              prev_refined_price N)
    as [rf [Hrf [Ef1 [Ef2 [Ef3 [Ef4 [Ef5 [Ef6 [Ef7 [Ef8 [Ef9 [Ef10 [_ Ef12]]]]]]]]]]]]].
  destruct (calculate_refining_profit_batch tier resource_type city raw_price
              refined_price quantity specialization premium false
              prev_refined_price N)
    as [rp [Hrp [Ep1 [Ep2 [Ep3 [Ep4 [Ep5 [Ep6 [Ep7 [Ep8 [Ep9 [Ep10 [_ Ep12]]]]]]]]]]]]].
  rewrite Hf in Hrf. injection Hrf as <-.
  rewrite Hp in Hrp. injection Hrp as <-.
  assert (Hrate : return_rate r_plain < return_rate r_focus).
  { rewrite Ef6, Ep6.
    pose proof (total_bonus_pos city resource_type false false) as Hb.
    apply saturate_mono; [lra|].
    rewrite !total_bonus_sum. lra. }
  split; [exact Hrate|].
  assert (Ediff : net_profit r_focus - net_profit r_plain
                  == input_cost r_plain * (return_rate r_focus - return_rate r_plain)).
  { rewrite Ef10, Ep10, Ef9, Ep9, Ef8, Ep8, Ef7, Ep7, Ef5, Ep5,
      Ef4, Ep4, Ef3, Ep3, Ef2, Ep2, Ef1, Ep1. ring. }
  split; [exact Ediff|].
  assert (Hin : 0 <= input_cost r_plain).
  { rewrite Ep5, Ep3, Ep4, Ep2, Ep1.
    destruct (requirements_range tier) as [[H2 H6] Hone]. rewrite Hone.
    assert (0 <= inject_Z quantity).
    { change 0 with (inject_Z 0). rewrite <- Zle_Qle. exact Hq. }
    assert (0 <= inject_Z (quantity / raw (requirements_of tier) * 1)).
    { change 0 with (inject_Z 0). rewrite <- Zle_Qle.
      rewrite Z.mul_1_r. apply Z.div_pos; lia. }
    nra. }
  split.
  { assert (0 <= input_cost r_plain * (return_rate r_focus - return_rate r_plain))
      by nra. lra. }
  split; [exact Ep12|].
  rewrite Ef12. unfold RefiningCalculator.calculate_focus_cost. lia.
Qed.

Lemma refining_focus_never_lowers_net_profit_witness :
  exists r_focus r_plain,
    calculate_refining_profit "T5" "ORE" "Thetford" 100 350 300 50 true true 0
    = Ok r_focus
    /\ calculate_refining_profit "T5" "ORE" "Thetford" 100 350 300 50 true false 0
       = Ok r_plain
    /\ net_profit r_plain <= net_profit r_focus.
Proof.
  eexists _, _.
  split; [vm_compute; reflexivity|]. split; [vm_compute; reflexivity|].
  apply (refining_focus_never_lowers_net_profit "T5" "ORE" "Thetford" 100 350
           300 50 true 0 _ _ eq_refl eq_refl); [lia | discriminate | discriminate].
Defined.

(** X4: specialization and premium only enter the focus cost: two
    refining calculations that differ in them alone agree on the return
    rate, every cost, the revenue, the net profit, the margin and the
    quantities. *)
Theorem refining_profit_ignores_specialization_and_premium
    (tier resource_type city : string) (raw_price refined_price : Q)
    (quantity spec spec' : Z) (premium premium' use_focus : bool)
    (prev_refined_price : Q) (r r' : RefiningResult) :
  calculate_refining_profit tier resource_type city raw_price refined_price
    quantity spec premium use_focus prev_refined_price = Ok r ->
  calculate_refining_profit tier resource_type city raw_price refined_price
    quantity spec' premium' use_focus prev_refined_price = Ok r' ->
  return_rate r = return_rate r'
  /\ input_cost r = input_cost r'
  /\ tax_cost r = tax_cost r'
  /\ total_cost r = total_cost r'
  /\ total_revenue r = total_revenue r'
  /\ net_profit r = net_profit r'
  /\ profit_margin r = profit_margin r'
  /\ refined_quantity r = refined_quantity r'
  /\ prev_refined_needed r = prev_refined_needed r'
  /\ resources_returned r = resources_returned r'.
Proof.
  unfold calculate_refining_profit.
  destruct (_ =? 0)%Z; [discriminate|].
  rewrite calculate_return_rate_ok. cbn [bind].
  match goal with
  | |- context [if Qgtb ?c 0 then (m <- pydiv ?n ?c ;; Ok (m * 100)) else Ok 0] =>
      destruct (if Qgtb c 0 then (m <- pydiv n c ;; Ok (m * 100)) else Ok 0)
        as [m | e]; cbn [bind]; [|discriminate]
  end.
  intros H H'. injection H as <-. injection H' as <-. cbn.
  repeat split; reflexivity.
Qed.

Lemma refining_profit_ignores_specialization_and_premium_witness :
  exists r r',
    calculate_refining_profit "T5" "ORE" "Thetford" 100 350 300 0 false true 0 = Ok r
    /\ calculate_refining_profit "T5" "ORE" "Thetford" 100 350 300 100 true true 0
       = Ok r'
    /\ net_profit r = net_profit r'
    /\ focus_cost r = 2000%Z /\ focus_cost r' = 500%Z.
Proof.
  eexists _, _.
  split; [vm_compute; reflexivity|]. split; [vm_compute; reflexivity|].
  split; [|split; reflexivity].
  apply (refining_profit_ignores_specialization_and_premium "T5" "ORE" "Thetford"
           100 350 300 0 100 false true true 0 _ _ eq_refl eq_refl).
Defined.

(** ** The production city *)

Lemma eqb_false_of_neq (a b : string) : a <> b -> String.eqb a b = false.
Proof. intro H. apply String.eqb_neq, H. Qed.

Lemma resource_type_cases (resource_type : string) :
  In resource_type refining_resource_types
  \/ ("ORE" <> resource_type /\ "WOOD" <> resource_type /\ "HIDE" <> resource_type
      /\ "FIBER" <> resource_type /\ "STONE" <> resource_type
      /\ "ROCK" <> resource_type).
Proof.
  unfold refining_resource_types.
  destruct (string_dec "ORE" resource_type) as [<- | H1]; [left; cbn; tauto|].
  destruct (string_dec "WOOD" resource_type) as [<- | H2]; [left; cbn; tauto|].
  destruct (string_dec "HIDE" resource_type) as [<- | H3]; [left; cbn; tauto|].
  destruct (string_dec "FIBER" resource_type) as [<- | H4]; [left; cbn; tauto|].
  destruct (string_dec "STONE" resource_type) as [<- | H5]; [left; cbn; tauto|].
  destruct (string_dec "ROCK" resource_type) as [<- | H6]; [left; cbn; tauto|].
  right. tauto.
Qed.

Lemma unknown_resource_optimal_city (resource_type : string) :
  ~ In resource_type refining_resource_types ->
  get_optimal_refining_city resource_type = "Caerleon".
Proof.
  intro Hn. destruct (resource_type_cases resource_type) as [H | H]; [contradiction|].
  destruct H as [H1 [H2 [H3 [H4 [H5 H6]]]]].
  unfold get_optimal_refining_city, local_production_bonus, bonus_row, optimal_step,
    get_default.
  cbn [fold_left get].
  rewrite !(eqb_false_of_neq _ _ H1), !(eqb_false_of_neq _ _ H2),
    !(eqb_false_of_neq _ _ H3), !(eqb_false_of_neq _ _ H4),
    !(eqb_false_of_neq _ _ H5), !(eqb_false_of_neq _ _ H6).
  reflexivity.
Qed.

Lemma unknown_resource_no_bonus (city resource_type : string) :
  "ORE" <> resource_type -> "WOOD" <> resource_type -> "HIDE" <> resource_type ->
  "FIBER" <> resource_type -> "ROCK" <> resource_type ->
  get_local_production_bonus city resource_type = 0.0.
Proof.
  intros H1 H2 H3 H4 H6.
  unfold get_local_production_bonus, get_default, RefiningCalculator.city_bonuses.
  cbn [get].
  repeat match goal with
         | |- context [String.eqb ?a city] => destruct (String.eqb a city); cbn [get]
         end;
    rewrite ?(eqb_false_of_neq _ _ H1), ?(eqb_false_of_neq _ _ H2),
      ?(eqb_false_of_neq _ _ H3), ?(eqb_false_of_neq _ _ H4),
      ?(eqb_false_of_neq _ _ H6); reflexivity.
Qed.

(** X5: the city [get_optimal_refining_city] chooses is one of the
    table's seven cities, it is Caerleon for a resource type outside the
    table, and no city has a higher local production bonus, hence a
    higher return rate, for that resource type. *)
Theorem optimal_city_has_the_highest_bonus (resource_type city : string)
    (use_focus : bool) :
  In (get_optimal_refining_city resource_type) (keys local_production_bonus)
  /\ (~ In resource_type refining_resource_types ->
      get_optimal_refining_city resource_type = "Caerleon")
  /\ get_local_production_bonus city resource_type
     <= get_local_production_bonus (get_optimal_refining_city resource_type)
          resource_type
  /\ exists rate rate_optimal,
       calculate_return_rate city resource_type use_focus false = Ok rate
       /\ calculate_return_rate (get_optimal_refining_city resource_type)
            resource_type use_focus false = Ok rate_optimal
       /\ rate <= rate_optimal.
Proof.
  assert (Hbonus : get_local_production_bonus city resource_type
                   <= get_local_production_bonus
                        (get_optimal_refining_city resource_type) resource_type).
  { destruct (resource_type_cases resource_type) as [H | H].
    - unfold refining_resource_types in H. cbn in H.
      destruct (get_local_production_bonus_values city resource_type) as [E | E].
      + repeat (destruct H as [<- | H];
                [ first [ rewrite E; vm_compute; discriminate
                        | exfalso; revert E;
                          unfold get_local_production_bonus, get_default,
                            RefiningCalculator.city_bonuses; cbn [get];
                          repeat match goal with
                                 | |- context [String.eqb ?a city] =>
                                     destruct (String.eqb a city); cbn [get]
                                 end; cbn; discriminate ] | ]).
        contradiction.
      + rewrite E.
        destruct (get_local_production_bonus_values
                    (get_optimal_refining_city resource_type) resource_type)
          as [E' | E']; rewrite E'; discriminate.
    - destruct H as [H1 [H2 [H3 [H4 [H5 H6]]]]].
      rewrite !unknown_resource_no_bonus by assumption. discriminate. }
  split.
  { destruct (resource_type_cases resource_type) as [H | H].
    - unfold refining_resource_types in H. cbn in H.
      repeat (destruct H as [<- | H]; [vm_compute; tauto|]). contradiction.
    - rewrite unknown_resource_optimal_city.
      + vm_compute. tauto.
      + intro Hin. unfold refining_resource_types in Hin. cbn in Hin.
        destruct H as [H1 [H2 [H3 [H4 [H5 H6]]]]]. intuition congruence. }
  split; [apply unknown_resource_optimal_city|].
  split; [exact Hbonus|].
  eexists _, _. rewrite !calculate_return_rate_ok.
  split; [reflexivity|]. split; [reflexivity|].
  pose proof (total_bonus_pos city resource_type use_focus false) as Hb.
  assert (Hle : total_bonus city resource_type use_focus false
                <= total_bonus (get_optimal_refining_city resource_type)
                     resource_type use_focus false).
  { rewrite !total_bonus_sum. lra. }
  destruct (Qle_lt_or_eq _ _ Hle) as [Hlt | Heq].
  - apply Qlt_le_weak, saturate_mono; [lra | exact Hlt].
  - rewrite Heq. apply Qle_refl.
Qed.

(** ** Sorting by profit *)

Lemma rank_cities_ok (tier resource_type : string) (raw_price refined_price : Q)
    (specialization : Z) (premium use_focus : bool) (prev_refined_price : Q)
    (cities : list string) :
  exists results,
    rank_cities tier resource_type raw_price refined_price specialization premium
      use_focus prev_refined_price cities = Ok results
    /\ keys results = cities
    /\ forall city e, In (city, e) results ->
         exists r,
           calculate_refining_profit tier resource_type city raw_price refined_price
             100 specialization premium use_focus prev_refined_price = Ok r
           /\ full_result e = r
           /\ profit e = net_profit r
           /\ margin e = profit_margin r
           /\ ranking_return_rate e = return_rate r
           /\ tax_rate e = get_default RefiningCalculator.tax_rates city 0.05
           /\ lpb e = get_local_production_bonus city resource_type.
Proof.
  induction cities as [| city cities IH]; cbn [rank_cities].
  - exists []. split; [reflexivity|]. split; [reflexivity | intros c e []].
  - destruct IH as [rest [Hrest [Hkeys Hall]]].
    destruct (calculate_refining_profit_batch tier resource_type city raw_price
                refined_price 100 specialization premium use_focus
                prev_refined_price (hundred_is_a_batch tier)) as [r [Hr _]].
    rewrite Hr, Hrest. cbn [bind].
    eexists. split; [reflexivity|]. split.
    + cbn. rewrite <- Hkeys. reflexivity.
    + intros c e [H | H].
      * injection H as <- <-. exists r. cbn. repeat split; auto.
      * apply Hall, H.
Qed.

(** X6: [find_best_refining_city] always returns a ranking; its keys are
    a rearrangement of the seven cities of the bonus table, the profits
    are in non-increasing order, and every entry holds the refining
    calculation of its own city for 100 units. *)
Theorem refining_city_ranking_sorted
    (tier resource_type : string) (raw_price refined_price : Q)
    (specialization : Z) (premium use_focus : bool) (prev_refined_price : Q) :
  exists ranking,
    find_best_refining_city tier resource_type raw_price refined_price
      specialization premium use_focus prev_refined_price = Ok ranking
    /\ Permutation (keys ranking) (keys local_production_bonus)
    /\ length ranking = 7%nat
    /\ descending (fun entry => profit (snd entry)) ranking
    /\ forall city e, In (city, e) ranking ->
         exists r,
           calculate_refining_profit tier resource_type city raw_price refined_price
             100 specialization premium use_focus prev_refined_price = Ok r
           /\ full_result e = r
           /\ profit e = net_profit r
           /\ margin e = profit_margin r
           /\ lpb e = get_local_production_bonus city resource_type.
Proof.
  unfold find_best_refining_city.
  destruct (rank_cities_ok tier resource_type raw_price refined_price specialization
              premium use_focus prev_refined_price (keys local_production_bonus))
    as [results [Hres [Hkeys Hall]]].
  rewrite Hres. cbn [bind]. eexists. split; [reflexivity|].
  pose proof (sort_desc_perm (fun x : string * city_ranking => profit (snd x)) results)
    as Hperm.
  split; [|split; [|split]].
  - rewrite <- Hkeys. unfold keys. apply Permutation_map, Hperm.
  - rewrite (Permutation_length Hperm).
    rewrite <- (length_map fst results). fold (keys results). rewrite Hkeys.
    reflexivity.
  - apply sort_desc_descending.
  - intros city e Hin. apply sort_desc_In in Hin.
    destruct (Hall city e Hin) as [r [H1 [H2 [H3 [H4 [_ [_ H7]]]]]]].
    exists r. auto.
Qed.

Lemma optimal_city_has_the_highest_bonus_witness :
  get_optimal_refining_city "GOLD" = "Caerleon".
Proof.
  destruct (optimal_city_has_the_highest_bonus "GOLD" "Thetford" true)
    as [_ [H _]].
  apply H. vm_compute. intuition discriminate.
Defined.
(** ** The break-even search can stall *)

(** X7: the break-even search never returns from an interval whose
    midpoint rounds to the end it replaces while the width is still
    above 0.01: when the profit at the midpoint is positive and the
    midpoint is the lower end, or the profit is not positive and the
    midpoint is the upper end, a pass of the loop leaves the interval
    as it is, so no number of iterations ends the loop there, nor the
    whole search once its loop has reached such an interval. *)
Theorem break_even_search_stalls
    (tier resource_type city : string) (refined_price : Binary64.num)
    (specialization : Z) (premium use_focus : bool)
    (prev_refined_price : Binary64.num)
    (low high width mid : Binary64.num) (r : Binary64.Refining.RefiningResult) :
  Binary64.sub high low = Ok width ->
  Binary64.gt width (Binary64.Float Binary64.Refining.tolerance) = true ->
  (s <- Binary64.add low high ;; Binary64.truediv s (Binary64.Int 2)) = Ok mid ->
  Binary64.Refining.calculate_refining_profit tier resource_type city mid
    refined_price 100 specialization premium use_focus prev_refined_price = Ok r ->
  (if Binary64.gt (Binary64.Refining.net_profit r) (Binary64.Int 0)
   then mid = low else mid = high) ->
  (forall fuel,
     Binary64.Refining.break_even_loop tier resource_type city refined_price
       specialization premium use_focus prev_refined_price fuel low high = None)
  /\ forall n high0,
       Binary64.mul refined_price (Binary64.Int 10) = Ok high0 ->
       break_even_state_after tier resource_type city refined_price specialization
         premium use_focus prev_refined_price n (Binary64.Float 1.0) high0
       = Some (low, high) ->
       forall fuel,
         Binary64.Refining.calculate_break_even_price tier resource_type city
           refined_price specialization premium use_focus prev_refined_price fuel
         = None.
Proof.
  intros Hw Hg Hmid Hr Hend.
  assert (Hstuck : break_even_stuck tier resource_type city refined_price
                     specialization premium use_focus prev_refined_price low high).
  { unfold break_even_stuck, Binary64.Refining.break_even_step.
    rewrite Hw, Hg, Hmid, Hr.
    destruct (Binary64.gt (Binary64.Refining.net_profit r) (Binary64.Int 0));
      rewrite Hend; reflexivity. }
  split.
  - apply break_even_stuck_forever, Hstuck.
  - intros n high0 Hhigh Hafter fuel.
    unfold Binary64.Refining.calculate_break_even_price. rewrite Hhigh.
    apply (break_even_never_returns_after tier resource_type city refined_price
             specialization premium use_focus prev_refined_price n).
    rewrite Hafter. exact Hstuck.
Qed.

Lemma break_even_search_stalls_witness :
  Binary64.Refining.calculate_break_even_price "T5" "ORE" "Thetford"
    (Binary64.Float 1e15) 0 false true (Binary64.Float 0) 1000 = None.
Proof.
  assert (Hr : exists r,
             Binary64.Refining.calculate_refining_profit "T5" "ORE" "Thetford"
               (Binary64.Float 669899999999999.25) (Binary64.Float 1e15) 100 0
               false true (Binary64.Float 0) = Ok r
             /\ Binary64.gt (Binary64.Refining.net_profit r) (Binary64.Int 0) = true).
  { eexists. split; vm_compute; reflexivity. }
  destruct Hr as [r [Hr Hpos]].
  refine (proj2 (break_even_search_stalls "T5" "ORE" "Thetford"
                   (Binary64.Float 1e15) 0 false true (Binary64.Float 0)
                   (Binary64.Float 669899999999999.25)
                   (Binary64.Float 669899999999999.38)
                   (Binary64.Float 0.125)
                   (Binary64.Float 669899999999999.25) r _ _ _ Hr _)
            64%nat (Binary64.Float 1e16) _ _ 1000%nat).
  - vm_compute. reflexivity.
  - vm_compute. reflexivity.
  - vm_compute. reflexivity.
  - rewrite Hpos. reflexivity.
  - vm_compute. reflexivity.
  - vm_compute. reflexivity.
Defined.

(** ** The arbitrage analysis, continued *)

(** X8: on a non-empty price dictionary [_find_best_buy_sell] returns a
    recommendation whose buy city has the least strictly positive sell
    price (no buy city exactly when no sell price is positive), whose
    sell city has the greatest strictly positive buy price, whose profit
    per unit is the difference of the two and whose margin is that
    profit over the buy price, in percent; it is marked profitable
    exactly when the profit is positive and the margin above 5. *)
Theorem buy_sell_search_on_its_input (prices : dict price_entry)
    (item_type tier resource_type : string) :
  prices <> [] ->
  exists r,
    _find_best_buy_sell prices item_type tier resource_type = Ok (Some r)
    /\ (forall c, cp_city (buy_recommendation r) = Some c ->
          exists e, In (c, e) prices /\ 0 < sell_price e
                    /\ cp_price (buy_recommendation r) = sell_price e
                    /\ forall c' e', In (c', e') prices -> 0 < sell_price e' ->
                                     sell_price e <= sell_price e')
    /\ (cp_city (buy_recommendation r) = None <->
          forall c e, In (c, e) prices -> sell_price e <= 0)
    /\ (forall c, cp_city (sell_recommendation r) = Some c ->
          exists e, In (c, e) prices /\ 0 < buy_price e
                    /\ cp_price (sell_recommendation r) = buy_price e
                    /\ forall c' e', In (c', e') prices -> buy_price e' <= buy_price e)
    /\ (cp_city (sell_recommendation r) = None <->
          forall c e, In (c, e) prices -> buy_price e <= 0)
    /\ (forall cb cs, cp_city (buy_recommendation r) = Some cb ->
          cp_city (sell_recommendation r) = Some cs ->
          profit_per_unit (arbitrage_profit r)
          = cp_price (sell_recommendation r) - cp_price (buy_recommendation r)
          /\ profit_margin_percent (arbitrage_profit r)
             = profit_per_unit (arbitrage_profit r)
               / cp_price (buy_recommendation r) * 100)
    /\ (cp_city (buy_recommendation r) = None
        \/ cp_city (sell_recommendation r) = None ->
        profit_per_unit (arbitrage_profit r) = 0
        /\ is_profitable (arbitrage_profit r) = false)
    /\ (is_profitable (arbitrage_profit r) = true <->
          0 < profit_per_unit (arbitrage_profit r)
          /\ 5 < profit_margin_percent (arbitrage_profit r)).
Proof.
  intro Hne.
  destruct (find_best_buy_sell_spec prices item_type tier resource_type Hne)
    as [r [Hr [Hb [Hbn [Hs [Hsn [Hp Hprof]]]]]]].
  exists r. split; [exact Hr|]. split; [exact Hb|].
  pose proof (find_best_buy_sell_result prices item_type tier resource_type Hne) as Hres.
  cbv zeta in Hres. rewrite Hr in Hres. injection Hres as Er.
  pose proof (best_fold_inv prices) as [Hmax [Hsell Hbuy]].
  set (st := fold_left best_step prices best_init) in *.
  split; [|split; [exact Hs|split; [|split; [exact Hp|split; [|exact Hprof]]]]].
  - split; [exact Hbn|]. intro Hall.
    destruct (cp_city (buy_recommendation r)) as [c |] eqn:Ec; [|reflexivity].
    destruct (Hb c eq_refl) as [e [Hin [Hpos _]]].
    specialize (Hall c e Hin). lra.
  - split; [exact Hsn|]. intro Hall.
    destruct (cp_city (sell_recommendation r)) as [c |] eqn:Ec; [|reflexivity].
    destruct (Hs c eq_refl) as [e [Hin [Hpos _]]].
    specialize (Hall c e Hin). lra.
  - intros Hnone. rewrite Er. cbn.
    destruct Hnone as [Hnone | Hnone]; rewrite Er in Hnone; cbn in Hnone.
    + destruct (best_buy_price st) as [p |].
      * destruct Hbuy as [_ [[c [e [_ [Hc _]]]] _]]. congruence.
      * split; reflexivity.
    + rewrite Hnone in Hsell. rewrite Hsell.
      destruct (best_buy_price st) as [p |]; split; reflexivity.
Qed.

Lemma buy_sell_search_on_its_input_witness :
  exists r,
    _find_best_buy_sell
      [("Thetford", mkPriceEntry 40 50 "T5_ORE");
       ("Martlock", mkPriceEntry 90 80 "T5_ORE")] "raw" "T5" "ORE" = Ok (Some r)
    /\ cp_city (buy_recommendation r) = Some "Thetford"
    /\ cp_city (sell_recommendation r) = Some "Martlock"
    /\ profit_per_unit (arbitrage_profit r) = 90 - 50.
Proof.
  destruct (buy_sell_search_on_its_input
              [("Thetford", mkPriceEntry 40 50 "T5_ORE");
               ("Martlock", mkPriceEntry 90 80 "T5_ORE")] "raw" "T5" "ORE"
              ltac:(discriminate)) as [r [Hr [_ [_ [_ [_ [Hp _]]]]]]].
  exists r. split; [exact Hr|].
  assert (E : cp_city (buy_recommendation r) = Some "Thetford"
              /\ cp_city (sell_recommendation r) = Some "Martlock"
              /\ cp_price (sell_recommendation r) = 90
              /\ cp_price (buy_recommendation r) = 50).
  { vm_compute in Hr. injection Hr as <-. repeat split; reflexivity. }
  destruct E as [E1 [E2 [E3 E4]]].
  split; [exact E1|]. split; [exact E2|].
  destruct (Hp _ _ E1 E2) as [H _]. rewrite H, E3, E4. reflexivity.
Defined.

(** X9: [analyze_opportunities] returns for every analyser and every
    price data.  Because of its entry filter, a raw or previous-tier
    recommendation always names a sell city with a positive price, and a
    refined recommendation always names a buy city with a positive
    price. *)
Theorem analysis_always_returns (self : ArbitrageAnalyzer)
    (price_data : dict city_data) (tier resource_type : string) :
  exists a,
    analyze_opportunities self price_data tier resource_type = Ok a
    /\ (forall r, raw_recommendations a = Some r ->
          exists c, cp_city (sell_recommendation r) = Some c
                    /\ 0 < cp_price (sell_recommendation r))
    /\ (forall r, prev_refined_recommendations a = Some r ->
          exists c, cp_city (sell_recommendation r) = Some c
                    /\ 0 < cp_price (sell_recommendation r))
    /\ (forall r, refined_recommendations a = Some r ->
          exists c, cp_city (buy_recommendation r) = Some c
                    /\ 0 < cp_price (buy_recommendation r)).
Proof.
  destruct (analyze_opportunities_ok self price_data tier resource_type)
    as [a [Ha [H1 [H2 [H3 _]]]]].
  exists a. split; [exact Ha|].
  assert (Gsell : forall field prices item_type r,
            prices = select_prices field (fun q => Qgtb (buy_max q) 0) price_data
                       (filtered_cities self price_data) ->
            _find_best_buy_sell prices item_type tier resource_type = Ok (Some r) ->
            exists c, cp_city (sell_recommendation r) = Some c
                      /\ 0 < cp_price (sell_recommendation r)).
  { intros field prices item_type r Ep Hr.
    destruct prices as [| [c0 e0] rest] eqn:Eprices; [discriminate|].
    rewrite <- Eprices in *.
    destruct (find_best_buy_sell_spec prices item_type tier resource_type)
      as [r' [Hr' [_ [_ [Hs [Hsn _]]]]]]; [rewrite Eprices; discriminate|].
    rewrite Hr in Hr'. injection Hr' as <-.
    assert (Hin : In (c0, e0) prices) by (rewrite Eprices; left; reflexivity).
    assert (Hpos : 0 < buy_price e0).
    { rewrite Ep in Hin. apply select_prices_entries in Hin.
      destruct Hin as [_ [cd [q [_ [_ [Hk ->]]]]]]. apply Qgtb_gt in Hk. exact Hk. }
    destruct (cp_city (sell_recommendation r)) as [c |] eqn:Ec.
    - exists c. split; [reflexivity|].
      destruct (Hs c eq_refl) as [e [_ [He [-> _]]]]. exact He.
    - exfalso. specialize (Hsn eq_refl c0 e0 Hin). lra. }
  split; [|split].
  - intros r Hr. rewrite Hr in H1. apply (Gsell cd_raw _ "raw" r eq_refl H1).
  - intros r Hr. rewrite Hr in H2.
    apply (Gsell cd_prev_refined _ "prev_refined" r eq_refl H2).
  - intros r Hr. rewrite Hr in H3.
    set (prices := refined_prices_of self price_data) in *.
    destruct prices as [| [c0 e0] rest] eqn:Eprices; [discriminate|].
    rewrite <- Eprices in *.
    destruct (find_best_buy_sell_spec prices "refined" tier resource_type)
      as [r' [Hr' [Hb [Hbn _]]]]; [rewrite Eprices; discriminate|].
    rewrite H3 in Hr'. injection Hr' as <-.
    assert (Hin : In (c0, e0) prices) by (rewrite Eprices; left; reflexivity).
    assert (Hpos : 0 < sell_price e0).
    { unfold prices, refined_prices_of in Hin. apply select_prices_entries in Hin.
      destruct Hin as [_ [cd [q [_ [_ [Hk ->]]]]]]. apply Qgtb_gt in Hk. exact Hk. }
    destruct (cp_city (buy_recommendation r)) as [c |] eqn:Ec.
    + exists c. split; [reflexivity|].
      destruct (Hb c eq_refl) as [e [_ [He [-> _]]]]. exact He.
    + exfalso. specialize (Hbn eq_refl c0 e0 Hin). lra.
Qed.

Lemma analysis_always_returns_witness :
  exists a r c,
    analyze_opportunities (analyzer_with (config_with true true false false))
      one_sided_quotes "T5" "ORE" = Ok a
    /\ raw_recommendations a = Some r
    /\ cp_city (sell_recommendation r) = Some c.
Proof.
  destruct (analysis_always_returns (analyzer_with (config_with true true false false))
              one_sided_quotes "T5" "ORE") as [a [Ha [H _]]].
  assert (E : exists r, raw_recommendations a = Some r).
  { vm_compute in Ha. injection Ha as <-. eexists. reflexivity. }
  destruct E as [r Er]. destruct (H r Er) as [c [Hc _]].
  exists a, r, c. auto.
Defined.

(** X10: the refining opportunities of [_analyze_refining_arbitrage] are
    the five best.  The loop collects one route for each sell city whose
    route is profitable (positive raw buy price, positive sell price,
    positive net profit of the refining calculator), in the order of the
    dictionary; [total_opportunities] is the number of these cities; the
    routes are sorted by estimated profit, highest first, and
    [best_opportunities] is the first five of them, so it has five
    entries or all of them, it is in non-increasing order of profit, and
    no route left out has a higher estimated profit than a listed one.
    Each route has a strictly positive estimated profit, a positive raw
    buy price and a positive sell price taken from the buy price of its
    sell city. *)
Theorem refining_opportunities_are_the_top_five
    (cfg : AlbionConfig.AlbionConfig) (calc : bool)
    (raw_prices prev_refined_prices refined_prices : dict price_entry)
    (tier resource_type : string) (info : refining_opportunities_info) :
  _analyze_refining_arbitrage (mkArbitrageAnalyzer (Some cfg) calc)
    raw_prices prev_refined_prices refined_prices tier resource_type
  = Ok (Some info) ->
  (length (best_opportunities info) <= 5)%nat
  /\ descending estimated_profit (best_opportunities info)
  /\ (Z.of_nat (length (best_opportunities info)) <= total_opportunities info)%Z
  /\ (total_opportunities info <= Z.of_nat (length refined_prices))%Z
  /\ ((total_opportunities info <= 5)%Z ->
      Z.of_nat (length (best_opportunities info)) = total_opportunities info)
  /\ (forall o, In o (best_opportunities info) ->
       0 < estimated_profit o
       /\ 0 < opp_raw_price o
       /\ exists data, In (refined_city o, data) refined_prices
                       /\ opp_refined_price o = buy_price data
                       /\ 0 < buy_price data)
  /\ exists best_raw raw_buy_price collected,
       let profitable :=
         route_is_profitable cfg tier resource_type raw_buy_price
           (snd (prev_leg prev_refined_prices)) in
       let ranked := sort_desc estimated_profit collected in
       raw_leg raw_prices = Some (best_raw, raw_buy_price)
       /\ map refined_city collected = keys (filter profitable refined_prices)
       /\ (forall sell_city data r,
             In (sell_city, data) refined_prices ->
             0 < raw_buy_price -> 0 < buy_price data ->
             calculate_refining_profit tier resource_type
               (get_optimal_refining_city resource_type) raw_buy_price
               (buy_price data) 100
               (AlbionConfig.get_specialization_level cfg
                  (refining_spec_key resource_type))
               (AlbionConfig.premium cfg) (AlbionConfig.use_focus cfg)
               (snd (prev_leg prev_refined_prices)) = Ok r ->
             0 < net_profit r ->
             exists o, In o collected /\ refined_city o = sell_city
                       /\ opp_refined_price o = buy_price data
                       /\ estimated_profit o = net_profit r)
       /\ (forall o, In o collected ->
             opportunity_ok cfg tier resource_type
               (get_optimal_refining_city resource_type) best_raw
               (fst (prev_leg prev_refined_prices)) raw_buy_price
               (snd (prev_leg prev_refined_prices))
               (AlbionConfig.get_specialization_level cfg
                  (refining_spec_key resource_type))
               refined_prices o)
       /\ Permutation ranked collected
       /\ descending estimated_profit ranked
       /\ best_opportunities info = firstn 5 ranked
       /\ total_opportunities info
          = Z.of_nat (length (filter profitable refined_prices))
       /\ length (best_opportunities info)
          = Nat.min 5 (length (filter profitable refined_prices))
       /\ forall listed unlisted,
            In listed (best_opportunities info) -> In unlisted (skipn 5 ranked) ->
            estimated_profit unlisted <= estimated_profit listed.
Proof.
  intro Hrun.
  destruct (analyze_refining_arbitrage_exact cfg calc raw_prices prev_refined_prices
              refined_prices tier resource_type info Hrun)
    as [best_raw [raw_buy_price [collected [Hleg [Hpairs [Hkeys [Hbest [Htotal Hall]]]]]]]].
  set (profitable := route_is_profitable cfg tier resource_type raw_buy_price
                       (snd (prev_leg prev_refined_prices))) in *.
  set (ranked := sort_desc estimated_profit collected) in *.
  assert (Hperm : Permutation ranked collected) by apply sort_desc_perm.
  assert (Hdesc : descending estimated_profit ranked) by apply sort_desc_descending.
  assert (Hlen : length collected = length (filter profitable refined_prices)).
  { rewrite <- (length_map refined_city collected), Hkeys. unfold keys.
    apply length_map. }
  assert (Hrl : length ranked = length collected) by apply Permutation_length, Hperm.
  assert (Hfl : (length (filter profitable refined_prices) <= length refined_prices)%nat)
    by apply filter_length_le.
  assert (Hbl : length (best_opportunities info) = Nat.min 5 (length collected)).
  { rewrite Hbest, length_firstn, Hrl. reflexivity. }
  split; [rewrite Hbl; apply Nat.le_min_l|].
  split; [rewrite Hbest; apply firstn_descending, Hdesc|].
  split; [rewrite Hbl, Htotal; lia|].
  split; [rewrite Htotal; lia|].
  split; [rewrite Hbl, Htotal; lia|].
  split.
  { intros o Hin. rewrite Hbest in Hin. apply firstn_subset in Hin.
    apply (Permutation_in _ Hperm) in Hin.
    destruct (Hall o Hin) as [[_ [_ [_ [_ [Hrp [r [_ [He [_ Hpos]]]]]]]]] [Hraw Hdata]].
    split; [rewrite He; exact Hpos|]. split; [rewrite Hrp; exact Hraw | exact Hdata]. }
  exists best_raw, raw_buy_price, collected. cbv zeta.
  fold profitable. fold ranked.
  split; [exact Hleg|]. split; [exact Hkeys|].
  split.
  { intros sell_city data r Hin Hraw Hsell Hr Hpos.
    assert (Hp : profitable (sell_city, data) = true).
    { apply route_is_profitable_spec. cbn [snd]. split; [exact Hraw|].
      split; [exact Hsell|]. exists r. split; [exact Hr | exact Hpos]. }
    assert (Hk : In (sell_city, buy_price data)
                   (map (fun o => (refined_city o, opp_refined_price o)) collected)).
    { rewrite Hpairs.
      apply (in_map (fun entry : string * price_entry =>
                       (fst entry, buy_price (snd entry))) _ (sell_city, data)).
      apply filter_In. split; [exact Hin | exact Hp]. }
    apply in_map_iff in Hk. destruct Hk as [o [Ho Hino]].
    injection Ho as Hcity Hprice.
    exists o. split; [exact Hino|]. split; [exact Hcity|]. split; [exact Hprice|].
    destruct (Hall o Hino) as [[_ [_ [_ [_ [_ [r' [Hr' [He _]]]]]]]] _].
    rewrite Hprice, Hr in Hr'. injection Hr' as <-. exact He. }
  split; [intros o Hin; apply (Hall o Hin)|].
  split; [exact Hperm|]. split; [exact Hdesc|]. split; [exact Hbest|].
  split; [rewrite Htotal, Hlen; reflexivity|].
  split; [rewrite Hbl, Hlen; reflexivity|].
  intros listed unlisted Hl Hu. rewrite Hbest in Hl.
  apply (descending_app estimated_profit (firstn 5 ranked) (skipn 5 ranked));
    [rewrite firstn_skipn; exact Hdesc | exact Hl | exact Hu].
Qed.

Lemma refining_opportunities_are_the_top_five_witness :
  exists info collected,
    _analyze_refining_arbitrage (analyzer_with (config_with true true false false))
      [("Martlock", mkPriceEntry 10 80 "T5_ORE")] [] seven_refined_prices "T5" "ORE"
    = Ok (Some info)
    /\ map refined_city collected
       = ["Thetford"; "Fort Sterling"; "Lymhurst"; "Martlock"; "Caerleon"; "Brecilien"]
    /\ total_opportunities info = 6%Z
    /\ best_opportunities info = firstn 5 (sort_desc estimated_profit collected)
    /\ map refined_city (best_opportunities info)
       = ["Martlock"; "Brecilien"; "Fort Sterling"; "Lymhurst"; "Caerleon"]
    /\ forall listed unlisted,
         In listed (best_opportunities info) ->
         In unlisted (skipn 5 (sort_desc estimated_profit collected)) ->
         estimated_profit unlisted <= estimated_profit listed.
Proof.
  destruct (_analyze_refining_arbitrage
              (analyzer_with (config_with true true false false))
              [("Martlock", mkPriceEntry 10 80 "T5_ORE")] [] seven_refined_prices
              "T5" "ORE") as [[info |] | e] eqn:Hrun;
    [| exfalso; vm_compute in Hrun; discriminate Hrun
     | exfalso; vm_compute in Hrun; discriminate Hrun].
  destruct (refining_opportunities_are_the_top_five
              (config_with true true false false) true
              [("Martlock", mkPriceEntry 10 80 "T5_ORE")] [] seven_refined_prices
              "T5" "ORE" info Hrun)
    as [_ [_ [_ [_ [_ [_ [best_raw [raw_buy_price [collected H]]]]]]]]].
  cbv zeta in H.
  destruct H as [Hleg [Hkeys [_ [_ [_ [_ [Hbest [Htotal [_ Hcut]]]]]]]]].
  injection Hleg as _ <-.
  assert (E : keys (filter (route_is_profitable (config_with true true false false)
                              "T5" "ORE" 80 0) seven_refined_prices)
              = ["Thetford"; "Fort Sterling"; "Lymhurst"; "Martlock"; "Caerleon";
                 "Brecilien"]) by (vm_compute; reflexivity).
  exists info, collected. split; [reflexivity|].
  split; [rewrite Hkeys; exact E|].
  vm_compute in Hrun. injection Hrun as Hinfo.
  split; [rewrite <- Hinfo; reflexivity|].
  split; [exact Hbest|].
  split; [rewrite <- Hinfo; reflexivity|].
  exact Hcut.
Defined.

(** X11: the refining arbitrage of an analysis is empty exactly when the
    analyser has no configuration or no calculator, or no allowed city
    passes the entry filter for the raw item, or none passes it for the
    refined item; in particular an analyser built without configuration
    never proposes a refining route. *)
Theorem refining_arbitrage_needs_config_and_prices (self : ArbitrageAnalyzer)
    (price_data : dict city_data) (tier resource_type : string) (a : analysis) :
  analyze_opportunities self price_data tier resource_type = Ok a ->
  (refining_opportunities a = None <->
     config self = None \/ calculator self = false
     \/ raw_prices_of self price_data = []
     \/ refined_prices_of self price_data = []).
Proof.
  intro Ha.
  destruct (analyze_opportunities_ok self price_data tier resource_type)
    as [a' [Ha' [_ [_ [_ H4]]]]].
  rewrite Ha in Ha'. injection Ha' as <-.
  destruct self as [[cfg |] calc]; cbn [config calculator].
  - destruct (analyze_refining_arbitrage_spec cfg calc
                (raw_prices_of (mkArbitrageAnalyzer (Some cfg) calc) price_data)
                (prev_refined_prices_of (mkArbitrageAnalyzer (Some cfg) calc) price_data)
                (refined_prices_of (mkArbitrageAnalyzer (Some cfg) calc) price_data)
                tier resource_type) as [res [Hres [Hnone _]]].
    rewrite H4 in Hres. injection Hres as <-.
    rewrite Hnone. split; [tauto|]. intros [H | H]; [discriminate | tauto].
  - split; [intros _; left; reflexivity|]. intros _.
    unfold _analyze_refining_arbitrage in H4. cbn [calculator config] in H4.
    destruct calc; [|congruence].
    destruct (raw_prices_of _ _); [congruence|].
    destruct (refined_prices_of _ _); congruence.
Qed.

Lemma refining_arbitrage_needs_config_and_prices_witness :
  exists a,
    analyze_opportunities (mkArbitrageAnalyzer None true) one_sided_quotes "T5" "ORE"
    = Ok a
    /\ refining_opportunities a = None.
Proof.
  eexists. split; [vm_compute; reflexivity|].
  apply (refining_arbitrage_needs_config_and_prices (mkArbitrageAnalyzer None true)
           one_sided_quotes "T5" "ORE" _ eq_refl).
  left. reflexivity.
Defined.

(** ** The action plan *)

(** X12: [create_refining_action_plan] returns a plan unless the plan is
    profitable and [int(tier[1:])] fails: it raises exactly when profit
    data with a strictly positive net profit is given and the tier's
    text after its first character is not a number, and then the error
    is [int]'s.  A returned plan is profitable exactly when profit data
    is given and its net profit is strictly positive; a profitable plan
    has the six steps numbered 1 to 6 (buy, buy, transport, refine,
    transport, sell), names the previous tier T(n-1) in its second step
    (the tier itself when n-1 < 1), has a financial summary, and carries
    the low-margin warning exactly when the margin is below 10; any
    other plan has no step and no financial summary. *)
Theorem action_plan_verdict_and_shape (int_of_str : string -> result Z)
    (a : analysis) (tier resource_type : string)
    (quantity : Z) (profit_data : option RefiningResult) (selected_city : string) :
  let made :=
    create_refining_action_plan int_of_str a tier resource_type quantity
      profit_data selected_city in
  (forall e, made = Raise e <->
     (exists r, profit_data = Some r /\ 0 < net_profit r)
     /\ int_of_str (str_tail tier) = Raise e)
  /\ (profit_data = None
      \/ (exists r, profit_data = Some r /\ net_profit r <= 0)
      \/ (exists n, int_of_str (str_tail tier) = Ok n) ->
      exists plan, made = Ok plan)
  /\ forall plan, made = Ok plan ->
       (plan_is_profitable plan = true <->
          exists r, profit_data = Some r /\ 0 < net_profit r)
       /\ (plan_is_profitable plan = true ->
             map step (steps plan) = [1; 2; 3; 4; 5; 6]%Z
             /\ map action (steps plan)
                = [ACHETER; ACHETER; TRANSPORTER; RAFFINER; TRANSPORTER; VENDRE]
             /\ (exists n, int_of_str (str_tail tier) = Ok n
                   /\ map what_tiers (steps plan)
                      = let prev_tier :=
                          if (n - 1 >=? 1)%Z then "T" ++ py_str (n - 1) else tier in
                        [[tier]; [prev_tier]; []; [tier; prev_tier; tier]; []; [tier]])
             /\ (exists r, profit_data = Some r
                   /\ summary plan = PlanRentable (net_profit r) (profit_margin r)
                   /\ (In LowMarginWarning (warnings plan) <-> profit_margin r < 10))
             /\ financial_summary plan <> None
             /\ ~ In LossWarning (warnings plan))
       /\ (plan_is_profitable plan = false ->
             steps plan = [] /\ financial_summary plan = None
             /\ (profit_data = None <-> summary plan = DonneesInsuffisantes)
             /\ (profit_data <> None <-> warnings plan = [LossWarning])).
Proof.
  intro made. subst made. unfold create_refining_action_plan.
  destruct profit_data as [pd |].
  - destruct (Qgtb (net_profit pd) 0) eqn:G.
    + apply Qgtb_gt in G.
      destruct (int_of_str (str_tail tier)) as [n | e0] eqn:En; cbn [bind].
      * split; [|split].
        { intro e. split; [discriminate | intros [_ H]; discriminate]. }
        { intros _. eexists. reflexivity. }
        intros plan Hplan. injection Hplan as <-. cbn.
        split; [split; [intros _; exists pd; auto | reflexivity]|].
        split; [|discriminate].
        intros _. split; [reflexivity|]. split; [reflexivity|].
        split; [exists n; split; reflexivity|].
        split; [|split; [discriminate|]].
        -- exists pd. split; [reflexivity|]. split; [reflexivity|].
           rewrite !in_app_iff.
           destruct (Qltb (profit_margin pd) 10) eqn:L.
           ++ apply Qltb_lt in L. split; [intros _; exact L|]. intros _.
              right. left. left. reflexivity.
           ++ apply Qltb_ge in L. split; [|intro H; lra].
              intros [H | [H | H]].
              ** destruct (option_string_eqb _ _); cbn in H; intuition discriminate.
              ** destruct H.
              ** destruct (negb _ && negb _); cbn in H; intuition discriminate.
        -- rewrite !in_app_iff. intros [H | [H | H]].
           ++ destruct (option_string_eqb _ _); cbn in H; intuition discriminate.
           ++ destruct (Qltb _ _); cbn in H; intuition discriminate.
           ++ destruct (negb _ && negb _); cbn in H; intuition discriminate.
      * split; [|split].
        { intro e. split.
          - intro H. injection H as <-. split; [exists pd; auto | reflexivity].
          - intros [_ H]. injection H as <-. reflexivity. }
        { intros [H | [[r [Hr Hle]] | [n H]]];
            [discriminate | injection Hr as <-; lra | discriminate]. }
        intros plan Hplan. discriminate.
    + apply Qgtb_le in G.
      set (rq := if (raw (get_default resource_requirements tier (mkRequirement 2 1)) >? 0)%Z
                 then (quantity / raw (get_default resource_requirements tier
                                         (mkRequirement 2 1)))%Z
                 else 0%Z).
      assert (Hl : exists l,
                 (if (rq >? 0)%Z then pydiv (net_profit pd) (inject_Z rq) else Ok 0)
                 = Ok l).
      { destruct (rq >? 0)%Z eqn:Hq; [|eexists; reflexivity].
        apply Z.gtb_lt in Hq. rewrite pydiv_pos; [eexists; reflexivity|].
        change 0 with (inject_Z 0). rewrite <- Zlt_Qlt. exact Hq. }
      destruct Hl as [l Hl]. rewrite Hl. cbn [bind].
      split; [|split].
      { intro e. split; [discriminate|]. intros [[r [Hr Hp]] _].
        injection Hr as <-. lra. }
      { intros _. eexists. reflexivity. }
      intros plan Hplan. injection Hplan as <-. cbn.
      split; [split; [discriminate | intros [r [Hr Hp]]; injection Hr as <-; lra]|].
      split; [discriminate|]. intros _.
      split; [reflexivity|]. split; [reflexivity|].
      split; [split; discriminate|].
      split; [reflexivity | discriminate].
  - split; [|split].
    { intro e. split; [discriminate | intros [[r [Hr _]] _]; discriminate]. }
    { intros _. eexists. reflexivity. }
    intros plan Hplan. injection Hplan as <-. cbn.
    split; [split; [discriminate | intros [r [Hr _]]; discriminate]|].
    split; [discriminate|]. intros _.
    split; [reflexivity|]. split; [reflexivity|].
    split; [split; reflexivity|].
    split; [intro H; contradiction | discriminate].
Qed.

Lemma action_plan_verdict_and_shape_witness :
  let int_of_str := fun s : string =>
    if String.eqb s "5" then Ok 5%Z
    else Raise (ValueError "invalid literal for int() with base 10") in
  exists r,
    calculate_refining_profit "T5" "ORE" "Thetford" 100 350 300 50 true true 0 = Ok r
    /\ (exists plan,
          create_refining_action_plan int_of_str (mkAnalysis None None None None)
            "T5" "ORE" 300 (Some r) "Thetford" = Ok plan
          /\ map what_tiers (steps plan)
             = [["T5"]; ["T4"]; []; ["T5"; "T4"; "T5"]; []; ["T5"]])
    /\ create_refining_action_plan int_of_str (mkAnalysis None None None None)
         "TX" "ORE" 300 (Some r) "Thetford"
       = Raise (ValueError "invalid literal for int() with base 10").
Proof.
  intro int_of_str.
  assert (Hr : exists r,
             calculate_refining_profit "T5" "ORE" "Thetford" 100 350 300 50 true true 0
             = Ok r /\ 0 < net_profit r).
  { eexists. split; [vm_compute; reflexivity|]. vm_compute. reflexivity. }
  destruct Hr as [r [Hr Hpos]]. exists r. split; [exact Hr|]. split.
  - destruct (action_plan_verdict_and_shape int_of_str (mkAnalysis None None None None)
                "T5" "ORE" 300 (Some r) "Thetford") as [_ [Hret Hshape]].
    destruct Hret as [plan Hplan].
    { right. right. exists 5%Z. reflexivity. }
    exists plan. split; [exact Hplan|].
    destruct (Hshape plan Hplan) as [Hiff [Hprof _]].
    destruct Hprof as [_ [_ [[n [Hn Ht]] _]]].
    { apply Hiff. exists r. split; [reflexivity | exact Hpos]. }
    rewrite Ht. injection Hn as <-. reflexivity.
  - destruct (action_plan_verdict_and_shape int_of_str (mkAnalysis None None None None)
                "TX" "ORE" 300 (Some r) "Thetford") as [Hraise _].
    apply Hraise. split; [exists r; split; [reflexivity | exact Hpos] | reflexivity].
Defined.

Import QuickSummary.

(** X13: the quick summary of a plan made by
    [create_refining_action_plan] is the route raw buy city, selected
    production city, refined sell city when the net profit is strictly
    positive, and the not-profitable text otherwise; it is never the
    fallback text. *)
Theorem quick_summary_of_a_plan (int_of_str : string -> result Z)
    (a : analysis) (tier resource_type : string)
    (quantity : Z) (profit_data : option RefiningResult) (selected_city : string)
    (plan : action_plan) :
  create_refining_action_plan int_of_str a tier resource_type quantity profit_data
    selected_city = Ok plan ->
  create_quick_summary plan
  = (if plan_is_profitable plan
     then Route (rec_city (raw_recommendations a) buy_recommendation)
                (Some selected_city)
                (rec_city (refined_recommendations a) sell_recommendation)
     else NonRentableActuellement)
  /\ create_quick_summary plan <> PlanDisponible.
Proof.
  unfold create_refining_action_plan.
  destruct profit_data as [pd |].
  - destruct (Qgtb (net_profit pd) 0).
    + destruct (int_of_str (str_tail tier)) as [n | e]; cbn [bind]; [|discriminate].
      intro H. injection H as <-. split; [reflexivity | discriminate].
    + destruct (if (_ >? 0)%Z then pydiv _ _ else Ok 0) as [l | e]; cbn [bind];
        [|discriminate].
      intro H. injection H as <-. split; [reflexivity | discriminate].
  - intro H. injection H as <-. split; [reflexivity | discriminate].
Qed.

Lemma quick_summary_of_a_plan_witness :
  exists r plan,
    calculate_refining_profit "T5" "ORE" "Thetford" 100 350 300 50 true true 0 = Ok r
    /\ create_refining_action_plan (fun _ => Ok 5%Z) (mkAnalysis None None None None)
         "T5" "ORE" 300 (Some r) "Thetford" = Ok plan
    /\ create_quick_summary plan = Route None (Some "Thetford") None.
Proof.
  eexists. eexists. split; [vm_compute; reflexivity|].
  match goal with
  | |- ?c = Ok ?p /\ _ => assert (Hp : c = Ok p) by (vm_compute; reflexivity)
  end.
  split; [exact Hp|].
  destruct (quick_summary_of_a_plan _ _ _ _ _ _ _ _ Hp) as [H _].
  rewrite H. vm_compute. reflexivity.
Defined.

(** ** The crafting calculation, continued *)

Lemma material_fold (city_bonus : Q) (quantity : Z) (material_prices : dict Q)
    (materials : dict Z) :
  forall costs total,
    keys (fst (fold_left (CraftingCalculator.material_step city_bonus quantity
                            material_prices) materials (costs, total)))
    = (keys costs ++ keys materials)%list
    /\ snd (fold_left (CraftingCalculator.material_step city_bonus quantity
                         material_prices) materials (costs, total))
       == total + (1 - city_bonus)
                  * base_material_cost materials quantity material_prices.
Proof.
  induction materials as [| [material base_amount] rest IH]; intros costs total.
  - cbn. rewrite app_nil_r. split; [reflexivity | ring].
  - cbn [fold_left base_material_cost].
    change (CraftingCalculator.material_step city_bonus quantity material_prices
              (costs, total) (material, base_amount))
      with ((costs ++ [(material,
                        inject_Z base_amount * (1 - city_bonus) * inject_Z quantity
                        * get_default material_prices material 0)])%list,
            total + inject_Z base_amount * (1 - city_bonus) * inject_Z quantity
                    * get_default material_prices material 0).
    specialize (IH (costs ++ [(material,
                               inject_Z base_amount * (1 - city_bonus) * inject_Z quantity
                               * get_default material_prices material 0)])%list
                   (total + inject_Z base_amount * (1 - city_bonus) * inject_Z quantity
                            * get_default material_prices material 0)).
    destruct IH as [Hk Hs]. split.
    + eapply eq_trans; [exact Hk|].
      unfold keys. rewrite map_app, <- app_assoc. reflexivity.
    + eapply Qeq_trans; [exact Hs|]. ring.
Qed.

(** The result of [calculate_crafting_profit] for a known recipe. *)
Lemma calculate_crafting_profit_detail
    (item_id city : string) (material_prices : dict Q) (item_sell_price : Q)
    (quantity specialization : Z) (premium use_focus : bool)
    (rcp : CraftingCalculator.recipe) (r : CraftingCalculator.CraftingResult) :
  get CraftingCalculator.recipes item_id = Some rcp ->
  CraftingCalculator.calculate_crafting_profit item_id city material_prices
    item_sell_price quantity specialization premium use_focus = Ok r ->
  CraftingCalculator.items_produced r
  = inject_Z quantity
    * (1 + CraftingCalculator.calculate_return_rate
             (CraftingCalculator.split_head item_id) specialization premium use_focus)
  /\ CraftingCalculator.total_revenue r
     = CraftingCalculator.items_produced r * item_sell_price
  /\ CraftingCalculator.net_profit r
     = CraftingCalculator.gross_profit r - CraftingCalculator.tax_amount r
  /\ CraftingCalculator.total_cost r
     == CraftingCalculator.total_revenue r - CraftingCalculator.gross_profit r
        + CraftingCalculator.tax_amount r
  /\ CraftingCalculator.total_revenue r - CraftingCalculator.gross_profit r
     == (1 - crafting_city_bonus_of city rcp)
        * base_material_cost (CraftingCalculator.materials rcp) quantity material_prices
  /\ keys (CraftingCalculator.material_costs r) = keys (CraftingCalculator.materials rcp)
  /\ CraftingCalculator.break_even_price r
     = (if Qgtb (CraftingCalculator.items_produced r) 0
        then CraftingCalculator.total_cost r / CraftingCalculator.items_produced r
        else 0).
Proof.
  intros Hr. unfold CraftingCalculator.calculate_crafting_profit. rewrite Hr.
  fold (crafting_city_bonus_of city rcp).
  match goal with
  | |- context [fold_left ?f ?l ?i] =>
      assert (Hfold :
        keys (fst (fold_left f l i)) = keys (CraftingCalculator.materials rcp)
        /\ snd (fold_left f l i)
           == 0 + (1 - crafting_city_bonus_of city rcp)
                  * base_material_cost (CraftingCalculator.materials rcp) quantity
                      material_prices)
        by (destruct (material_fold (crafting_city_bonus_of city rcp) quantity
                        material_prices (CraftingCalculator.materials rcp) [] 0)
              as [Hk Hs]; split; [exact Hk | exact Hs]);
      destruct (fold_left f l i) as [costs total]
  end.
  cbn [fst snd] in Hfold. destruct Hfold as [Hk Hs].
  set (rate := CraftingCalculator.calculate_return_rate _ _ _ _).
  set (items := inject_Z quantity * (1 + rate)).
  set (rev := items * item_sell_price).
  set (tax := rev * get_default CraftingCalculator.tax_rates city 0.05).
  destruct (if Qgtb rev 0 then (m <- pydiv (rev - total - tax) rev ;; Ok (m * 100))
            else Ok 0) as [m | e]; cbn [bind]; [|discriminate].
  destruct (Qgtb items 0) eqn:G.
  - apply Qgtb_gt in G. rewrite pydiv_pos by exact G. cbn [bind].
    intro H. injection H as <-. cbn. fold items. 
    assert (G' : Qgtb items 0 = true) by (apply Qgtb_gt, G). rewrite G'.
    split; [reflexivity|]. split; [reflexivity|]. split; [reflexivity|].
    split; [ring|]. split; [rewrite Hs; ring|]. split; [exact Hk | reflexivity].
  - cbn [bind]. intro H. injection H as <-. cbn. fold items. rewrite G.
    split; [reflexivity|]. split; [reflexivity|]. split; [reflexivity|].
    split; [ring|]. split; [rewrite Hs; ring|]. split; [exact Hk | reflexivity].
Qed.

Lemma crafting_city_bonus_values (city : string) (rcp : CraftingCalculator.recipe) :
  crafting_city_bonus_of city rcp = 0.15 \/ crafting_city_bonus_of city rcp = 0.
Proof.
  unfold crafting_city_bonus_of, CraftingCalculator.city_bonuses. cbn [get].
  repeat match goal with
         | |- context [String.eqb ?a ?b] => destruct (String.eqb a b); cbn [get]; auto
         end.
Qed.

(** X14: for a known recipe the material cost of a crafting calculation
    is the recipe's base cost (amount times quantity times price, summed
    over its materials) reduced by the city bonus, which is 0.15 when the
    city grants the recipe's bonus category and 0 otherwise; so between a
    city with the bonus and a city without it, at the same prices, the
    material cost differs by the factor 0.85 exactly. *)
Theorem crafting_city_bonus_scales_material_cost
    (item_id city city' : string) (material_prices : dict Q)
    (item_sell_price item_sell_price' : Q) (quantity specialization : Z)
    (premium use_focus : bool) (rcp : CraftingCalculator.recipe)
    (r r' : CraftingCalculator.CraftingResult) :
  get CraftingCalculator.recipes item_id = Some rcp ->
  CraftingCalculator.calculate_crafting_profit item_id city material_prices
    item_sell_price quantity specialization premium use_focus = Ok r ->
  CraftingCalculator.calculate_crafting_profit item_id city' material_prices
    item_sell_price' quantity specialization premium use_focus = Ok r' ->
  let material_cost x :=
    CraftingCalculator.total_cost x - CraftingCalculator.tax_amount x in
  material_cost r
  == (1 - crafting_city_bonus_of city rcp)
     * base_material_cost (CraftingCalculator.materials rcp) quantity material_prices
  /\ (crafting_city_bonus_of city rcp = 0.15 \/ crafting_city_bonus_of city rcp = 0)
  /\ (crafting_city_bonus_of city rcp = 0.15 ->
      crafting_city_bonus_of city' rcp = 0 ->
      material_cost r == 0.85 * material_cost r').
Proof.
  intros Hr Hc Hc' material_cost. subst material_cost. cbv beta.
  destruct (calculate_crafting_profit_detail item_id city material_prices
              item_sell_price quantity specialization premium use_focus rcp r Hr Hc)
    as [_ [_ [_ [Ht [Hm _]]]]].
  destruct (calculate_crafting_profit_detail item_id city' material_prices
              item_sell_price' quantity specialization premium use_focus rcp r' Hr Hc')
    as [_ [_ [_ [Ht' [Hm' _]]]]].
  assert (E : CraftingCalculator.total_cost r - CraftingCalculator.tax_amount r
              == (1 - crafting_city_bonus_of city rcp)
                 * base_material_cost (CraftingCalculator.materials rcp) quantity
                     material_prices).
  { rewrite Ht, <- Hm. ring. }
  assert (E' : CraftingCalculator.total_cost r' - CraftingCalculator.tax_amount r'
               == (1 - crafting_city_bonus_of city' rcp)
                  * base_material_cost (CraftingCalculator.materials rcp) quantity
                      material_prices).
  { rewrite Ht', <- Hm'. ring. }
  split; [exact E|]. split; [apply crafting_city_bonus_values|].
  intros Hb Hb'. rewrite E, E', Hb, Hb'. ring.
Qed.

Lemma crafting_city_bonus_scales_material_cost_witness :
  exists r r',
    CraftingCalculator.calculate_crafting_profit "T4_SWORD" "Fort Sterling"
      [("T4_METAL", 150); ("T3_METAL", 75)] 2000 1 50 true true = Ok r
    /\ CraftingCalculator.calculate_crafting_profit "T4_SWORD" "Caerleon"
         [("T4_METAL", 150); ("T3_METAL", 75)] 2000 1 50 true true = Ok r'
    /\ CraftingCalculator.total_cost r - CraftingCalculator.tax_amount r
       == 0.85 * (CraftingCalculator.total_cost r' - CraftingCalculator.tax_amount r').
Proof.
  eexists _, _.
  split; [vm_compute; reflexivity|]. split; [vm_compute; reflexivity|].
  apply (crafting_city_bonus_scales_material_cost "T4_SWORD" "Fort Sterling" "Caerleon"
           [("T4_METAL", 150); ("T3_METAL", 75)] 2000 2000 1 50 true true _ _ _
           eq_refl eq_refl eq_refl); reflexivity.
Defined.

(** X15: in a crafting result the net profit is the revenue minus the
    total cost, and when something is produced it equals the number of
    items produced times the gap between the sell price and the reported
    break-even price; so the craft is profitable exactly when the sell
    price is above that break-even price. *)
Theorem crafting_break_even_price_splits_profit
    (item_id city : string) (material_prices : dict Q) (item_sell_price : Q)
    (quantity specialization : Z) (premium use_focus : bool)
    (r : CraftingCalculator.CraftingResult) :
  CraftingCalculator.calculate_crafting_profit item_id city material_prices
    item_sell_price quantity specialization premium use_focus = Ok r ->
  CraftingCalculator.net_profit r
  == CraftingCalculator.total_revenue r - CraftingCalculator.total_cost r
  /\ (0 < CraftingCalculator.items_produced r ->
      CraftingCalculator.net_profit r
      == CraftingCalculator.items_produced r
         * (item_sell_price - CraftingCalculator.break_even_price r)
      /\ (0 < CraftingCalculator.net_profit r <->
          CraftingCalculator.break_even_price r < item_sell_price))
  /\ (CraftingCalculator.items_produced r <= 0 ->
      CraftingCalculator.break_even_price r = 0).
Proof.
  intro Hc.
  destruct (get CraftingCalculator.recipes item_id) as [rcp |] eqn:Hr.
  2:{ unfold CraftingCalculator.calculate_crafting_profit in Hc. rewrite Hr in Hc.
      discriminate. }
  destruct (calculate_crafting_profit_detail item_id city material_prices
              item_sell_price quantity specialization premium use_focus rcp r Hr Hc)
    as [_ [Hrev [Hnet [Ht [_ [_ Hbe]]]]]].
  assert (E : CraftingCalculator.net_profit r
              == CraftingCalculator.total_revenue r - CraftingCalculator.total_cost r).
  { rewrite Hnet, Ht. ring. }
  split; [exact E|]. split.
  - intro Hpos.
    assert (G : Qgtb (CraftingCalculator.items_produced r) 0 = true)
      by (apply Qgtb_gt, Hpos).
    rewrite G in Hbe.
    assert (E2 : CraftingCalculator.net_profit r
                 == CraftingCalculator.items_produced r
                    * (item_sell_price - CraftingCalculator.break_even_price r)).
    { rewrite E, Hbe, Hrev. field. lra. }
    split; [exact E2|].
    rewrite E2. split; intro H.
    + destruct (Qlt_le_dec (CraftingCalculator.break_even_price r) item_sell_price)
        as [L | L]; [exact L|].
      exfalso.
      assert (CraftingCalculator.items_produced r
              * (item_sell_price - CraftingCalculator.break_even_price r) <= 0) by nra.
      lra.
    + apply Qmult_lt_0_compat; lra.
  - intro Hle. apply Qgtb_le in Hle. rewrite Hle in Hbe. exact Hbe.
Qed.

Lemma crafting_break_even_price_splits_profit_witness :
  exists r,
    CraftingCalculator.calculate_crafting_profit "T4_SWORD" "Fort Sterling"
      [("T4_METAL", 150); ("T3_METAL", 75)] 2000 1 50 true true = Ok r
    /\ CraftingCalculator.break_even_price r < 2000.
Proof.
  eexists. split; [vm_compute; reflexivity|].
  destruct (crafting_break_even_price_splits_profit "T4_SWORD" "Fort Sterling"
              [("T4_METAL", 150); ("T3_METAL", 75)] 2000 1 50 true true _ eq_refl)
    as [_ [H _]].
  destruct H as [_ H]; [vm_compute; reflexivity|].
  apply H. vm_compute. reflexivity.
Defined.

Import CraftingCities.

Lemma get_some_in_keys {V : Type} (d : dict V) (k : string) :
  (exists v, get d k = Some v) <-> In k (keys d).
Proof.
  induction d as [| [k' v'] d IH]; cbn [get keys map fst].
  - split; [intros [v H]; discriminate | intros []].
  - destruct (String.eqb_spec k' k) as [-> | N].
    + split; [intros _; left; reflexivity | intros _; eexists; reflexivity].
    + rewrite IH. unfold keys. split; [intro H; right; exact H|].
      intros [H | H]; [contradiction | exact H].
Qed.

(** X16: [find_best_crafting_city] lists exactly the taxed cities that
    have a non-empty material price table and a non-zero sell price,
    each with its own crafting calculation, in non-increasing order of
    net profit; for an item without recipe every city's error is
    swallowed and the result is empty. *)
Theorem crafting_city_search_skips_and_sorts (item_id : string)
    (material_prices_by_city : dict (dict Q)) (item_sell_prices_by_city : dict Q)
    (quantity specialization : Z) (premium use_focus : bool) :
  let found :=
    find_best_crafting_city item_id material_prices_by_city
      item_sell_prices_by_city quantity specialization premium use_focus in
  (forall city r,
     In (city, r) found <->
     In city (keys CraftingCalculator.tax_rates)
     /\ get_default material_prices_by_city city [] <> []
     /\ ~ get_default item_sell_prices_by_city city 0 == 0
     /\ CraftingCalculator.calculate_crafting_profit item_id city
          (get_default material_prices_by_city city [])
          (get_default item_sell_prices_by_city city 0)
          quantity specialization premium use_focus = Ok r)
  /\ descending (fun entry => CraftingCalculator.net_profit (snd entry)) found
  /\ (length found <= 7)%nat
  /\ (get CraftingCalculator.recipes item_id = None -> found = []).
Proof.
  intro found. subst found. unfold find_best_crafting_city.
  set (results := flat_map (city_result item_id material_prices_by_city
                              item_sell_prices_by_city quantity specialization
                              premium use_focus)
                           (keys CraftingCalculator.tax_rates)).
  assert (Hone : forall city c r,
             In (c, r) (city_result item_id material_prices_by_city
                          item_sell_prices_by_city quantity specialization premium
                          use_focus city) <->
             c = city
             /\ get_default material_prices_by_city city [] <> []
             /\ ~ get_default item_sell_prices_by_city city 0 == 0
             /\ CraftingCalculator.calculate_crafting_profit item_id city
                  (get_default material_prices_by_city city [])
                  (get_default item_sell_prices_by_city city 0)
                  quantity specialization premium use_focus = Ok r).
  { intros city c r. unfold city_result.
    destruct (get_default material_prices_by_city city []) as [| p ps] eqn:Em.
    - split; [intros [] | intros [_ [H _]]; congruence].
    - destruct (Qeq_bool (get_default item_sell_prices_by_city city 0) 0) eqn:Es.
      + apply Qeq_bool_iff in Es. split; [intros [] | intros [_ [_ [H _]]]; contradiction].
      + apply Qeq_bool_neq in Es.
        destruct (CraftingCalculator.calculate_crafting_profit _ _ _ _ _ _ _ _)
          as [r0 | e].
        * split.
          -- intros [H | []]. injection H as <- <-.
             repeat split; try assumption; discriminate.
          -- intros [-> [_ [_ H]]]. injection H as <-. left. reflexivity.
        * split; [intros [] | intros [_ [_ [_ H]]]; discriminate]. }
  assert (Hlen : forall cities, (length (flat_map (city_result item_id
                   material_prices_by_city item_sell_prices_by_city quantity
                   specialization premium use_focus) cities) <= length cities)%nat).
  { induction cities as [| c cs IH]; cbn [flat_map]; [apply Nat.le_refl|].
    rewrite length_app. cbn [length].
    assert ((length (city_result item_id material_prices_by_city
                       item_sell_prices_by_city quantity specialization premium
                       use_focus c) <= 1)%nat).
    { unfold city_result.
      destruct (get_default material_prices_by_city c []); [cbn; lia|].
      destruct (Qeq_bool _ 0); [cbn; lia|].
      destruct (CraftingCalculator.calculate_crafting_profit _ _ _ _ _ _ _ _);
        cbn; lia. }
    lia. }
  split; [|split; [|split]].
  - intros city r. rewrite sort_desc_In. unfold results. rewrite in_flat_map.
    split.
    + intros [c [Hc H]]. apply Hone in H. destruct H as [-> H]. split; assumption.
    + intros [Hc H]. exists city. split; [exact Hc|]. apply Hone. split; [reflexivity|].
      exact H.
  - apply sort_desc_descending.
  - rewrite (Permutation_length (sort_desc_perm _ results)).
    apply (Hlen (keys CraftingCalculator.tax_rates)).
  - intro Hnone.
    assert (E : results = []).
    { unfold results. 
      assert (G : forall cities, flat_map (city_result item_id material_prices_by_city
                    item_sell_prices_by_city quantity specialization premium
                    use_focus) cities = []).
      { induction cities as [| c cs IH]; cbn [flat_map]; [reflexivity|].
        rewrite IH, app_nil_r. unfold city_result.
        destruct (get_default material_prices_by_city c []); [reflexivity|].
        destruct (Qeq_bool _ 0); [reflexivity|].
        unfold CraftingCalculator.calculate_crafting_profit. rewrite Hnone.
        reflexivity. }
      apply G. }
    rewrite E. reflexivity.
Qed.

Lemma crafting_city_search_skips_and_sorts_witness :
  find_best_crafting_city "T9_SWORD"
    [("Caerleon", [("T9_METAL", 100)])] [("Caerleon", 5000)] 1 0 false false = []
  /\ keys (find_best_crafting_city "T4_SWORD"
             [("Caerleon", [("T4_METAL", 150); ("T3_METAL", 75)]);
              ("Thetford", [("T4_METAL", 150); ("T3_METAL", 75)]);
              ("Martlock", [])]
             [("Caerleon", 2000); ("Thetford", 0); ("Martlock", 2000)]
             1 50 true true) = ["Caerleon"].
Proof.
  split.
  - apply (crafting_city_search_skips_and_sorts "T9_SWORD"
             [("Caerleon", [("T9_METAL", 100)])] [("Caerleon", 5000)] 1 0 false false).
    reflexivity.
  - vm_compute. reflexivity.
Defined.

Lemma recipes_table_facts :
  Forall (fun entry : string * CraftingCalculator.recipe =>
            CraftingCalculator.materials (snd entry) <> []
            /\ CraftingCalculator.category (snd entry) <> "UNKNOWN"
            /\ In (CraftingCalculator.split_head (fst entry))
                  (keys CraftingCalculator.base_return_rate)
            /\ In (CraftingCalculator.split_head (fst entry))
                  (keys CraftingCalculator.focus_per_craft))
         CraftingCalculator.recipes.
Proof.
  unfold CraftingCalculator.recipes.
  repeat (apply Forall_cons;
          [ split; [intro H; vm_compute in H; discriminate H|];
            split; [intro H; vm_compute in H; discriminate H|];
            split; vm_compute; repeat (first [left; reflexivity | right])
          |]).
  apply Forall_nil.
Qed.

(** X17: the recipe accessors agree: an item is in
    [get_available_recipes] exactly when [calculate_crafting_profit]
    returns a result for it, exactly when [get_recipe_materials] is not
    empty, and exactly when [get_recipe_category] is not 'UNKNOWN'; and
    the tier prefix of every available recipe has its own base return
    rate and focus cost, so the defaults are never used for it. *)
Theorem recipe_accessors_agree (item_id city : string) (material_prices : dict Q)
    (item_sell_price : Q) (quantity specialization : Z) (premium use_focus : bool) :
  (In item_id get_available_recipes <->
     exists r, CraftingCalculator.calculate_crafting_profit item_id city
                 material_prices item_sell_price quantity specialization premium
                 use_focus = Ok r)
  /\ (In item_id get_available_recipes <-> get_recipe_materials item_id <> [])
  /\ (In item_id get_available_recipes <-> get_recipe_category item_id <> "UNKNOWN")
  /\ (In item_id get_available_recipes ->
      In (CraftingCalculator.split_head item_id)
         (keys CraftingCalculator.base_return_rate)
      /\ In (CraftingCalculator.split_head item_id)
            (keys CraftingCalculator.focus_per_craft)).
Proof.
  unfold get_available_recipes, get_recipe_materials, get_recipe_category.
  rewrite <- get_some_in_keys.
  pose proof recipes_table_facts as Hall. rewrite Forall_forall in Hall.
  destruct (get CraftingCalculator.recipes item_id) as [rcp |] eqn:Hr.
  - destruct (Hall (item_id, rcp) (get_In _ _ _ Hr)) as [Hm [Hc [Hb Hf]]].
    cbn [fst snd] in *.
    destruct (calculate_crafting_profit_known item_id city material_prices
                item_sell_price quantity specialization premium use_focus rcp Hr)
      as [r [total [Hok _]]].
    split; [split; [intros _; exists r; exact Hok | intros _; eexists; reflexivity]|].
    split; [split; [intros _; exact Hm | intros _; eexists; reflexivity]|].
    split; [split; [intros _; exact Hc | intros _; eexists; reflexivity]|].
    intros _. split; assumption.
  - split.
    { split; [intros [v H]; discriminate|]. intros [r H].
      unfold CraftingCalculator.calculate_crafting_profit in H. rewrite Hr in H.
      discriminate. }
    split; [split; [intros [v H]; discriminate | intro H; contradiction]|].
    split; [split; [intros [v H]; discriminate | intro H; contradiction]|].
    intros [v H]. discriminate.
Qed.

Lemma recipe_accessors_agree_witness :
  In (CraftingCalculator.split_head "T4_ARMOR_CLOTH_ROBE")
     (keys CraftingCalculator.base_return_rate).
Proof.
  destruct (recipe_accessors_agree "T4_ARMOR_CLOTH_ROBE" "Caerleon" [] 0 1 0 false false)
    as [_ [_ [_ H]]].
  apply H. vm_compute. tauto.
Defined.

(** ** Item identifiers and resource names *)

Lemma string_length_append (a b : string) :
  String.length (a ++ b) = (String.length a + String.length b)%nat.
Proof. induction a as [| c a IH]; cbn; [reflexivity | rewrite IH; reflexivity]. Qed.

Lemma string_append_cancel_l (s a b : string) : s ++ a = s ++ b -> a = b.
Proof.
  induction s as [| c s IH]; cbn; intro H; [exact H|].
  injection H as H. apply IH, H.
Qed.

Lemma string_append_cancel_r (s : string) :
  forall a b, a ++ s = b ++ s -> a = b.
Proof.
  intros a. induction a as [| c a IH]; intros b H.
  - destruct b as [| d b]; [reflexivity|].
    apply (f_equal String.length) in H. cbn in H.
    rewrite string_length_append in H. lia.
  - destruct b as [| d b].
    + apply (f_equal String.length) in H. cbn in H.
      rewrite string_length_append in H. lia.
    + cbn in H. injection H as -> H. f_equal. apply IH, H.
Qed.

Lemma identity_table_lookup (d : dict string) (k : string) :
  Forall (fun entry => fst entry = snd entry) d -> get_default d k k = k.
Proof.
  unfold get_default. induction d as [| [k' v] d IH]; intro H; cbn [get];
    [reflexivity|].
  inversion H as [| ? ? Hh Ht]; subst. cbn in Hh. subst v.
  destruct (String.eqb_spec k' k) as [-> | _]; [reflexivity | apply IH, Ht].
Qed.

(** X18: [get_resource_type_from_old_format] and the calculator's
    [normalize_resource_type] are the same function: both change 'STONE'
    into 'ROCK' and leave every other string as it is, so normalising
    twice changes nothing more. *)
Theorem resource_name_normalisation (resource_type : string) :
  ItemMapping.get_resource_type_from_old_format resource_type
  = normalize_resource_type resource_type
  /\ (normalize_resource_type resource_type
      = if String.eqb resource_type "STONE" then "ROCK" else resource_type)
  /\ normalize_resource_type (normalize_resource_type resource_type)
     = normalize_resource_type resource_type.
Proof.
  assert (E : normalize_resource_type resource_type
              = if String.eqb resource_type "STONE" then "ROCK" else resource_type).
  { unfold normalize_resource_type, get_default, resource_type_mapping. cbn [get].
    destruct (String.eqb_spec resource_type "STONE") as [-> | N]; [reflexivity|].
    repeat match goal with
           | |- context [String.eqb ?a resource_type] =>
               destruct (String.eqb_spec a resource_type) as [<- | ?]; cbn [get];
               try reflexivity
           end; congruence. }
  split; [|split; [exact E|]].
  - rewrite E. clear E.
    unfold ItemMapping.get_resource_type_from_old_format, get_default,
      ItemMapping.old_format_mapping. cbn [get].
    destruct (String.eqb_spec resource_type "STONE") as [-> | N]; [reflexivity|].
    repeat match goal with
           | |- context [String.eqb ?a resource_type] =>
               destruct (String.eqb_spec a resource_type) as [<- | ?]; cbn [get];
               try reflexivity
           end; congruence.
  - rewrite E. destruct (String.eqb resource_type "STONE") eqn:B.
    + vm_compute. reflexivity.
    + first [exact E | rewrite E, B; reflexivity].
Qed.

Lemma refined_table_changes_ids :
  Forall (fun entry : string * string => fst entry <> snd entry)
         ItemMapping.REFINED_RESOURCES.
Proof.
  unfold ItemMapping.REFINED_RESOURCES.
  repeat constructor; cbn; discriminate.
Qed.

Lemma raw_table_is_identity :
  Forall (fun entry : string * string => fst entry = snd entry)
         ItemMapping.RAW_RESOURCES.
Proof.
  unfold ItemMapping.RAW_RESOURCES.
  repeat constructor.
Qed.

(** X19: for every tier, resource type and enchantment the raw item id
    is [tier_resource] (the raw table never changes an id), followed by
    [_LEVELn@n] for an enchantment n above 0; and whenever both ids are
    produced, the refined item id differs from the raw item id, so the
    two legs of a price request are never confused. *)
Theorem raw_and_refined_item_ids (int_of_str : string -> result Z)
    (tier resource_type : string) (enchantment : ItemMapping.enchantment_arg)
    (n : Z) :
  ItemMapping.enchantment_level int_of_str enchantment = Ok n ->
  ItemMapping.get_raw_item_id int_of_str tier resource_type enchantment
  = Ok (ItemMapping.with_level (tier ++ "_" ++ resource_type) n)
  /\ (exists refined_id,
        ItemMapping.get_refined_item_id int_of_str tier resource_type enchantment
        = Ok refined_id
        /\ refined_id <> ItemMapping.with_level (tier ++ "_" ++ resource_type) n)
  /\ ((n <= 0)%Z ->
      ItemMapping.with_level (tier ++ "_" ++ resource_type) n
      = tier ++ "_" ++ resource_type).
Proof.
  intro Hn.
  unfold ItemMapping.get_raw_item_id, ItemMapping.get_refined_item_id.
  rewrite Hn. cbn [bind].
  rewrite (identity_table_lookup _ _ raw_table_is_identity).
  split; [reflexivity|]. split.
  - eexists. split; [reflexivity|].
    assert (Hbase : get_default ItemMapping.REFINED_RESOURCES
                      (tier ++ "_" ++ resource_type)
                      (tier ++ "_REFINED_" ++ resource_type)
                    <> tier ++ "_" ++ resource_type).
    { unfold get_default.
      destruct (get ItemMapping.REFINED_RESOURCES (tier ++ "_" ++ resource_type))
        as [v |] eqn:Eg.
      - pose proof refined_table_changes_ids as Hall. rewrite Forall_forall in Hall.
        specialize (Hall _ (get_In _ _ _ Eg)). cbn [fst snd] in Hall.
        intro H. apply Hall. symmetry. exact H.
      - intro H. apply string_append_cancel_l in H. cbn in H. injection H as H.
        apply (f_equal String.length) in H. cbn in H.
        try rewrite string_length_append in H. cbn in H. lia. }
    unfold ItemMapping.with_level. destruct (n >? 0)%Z; [|exact Hbase].
    intro H. apply string_append_cancel_r in H. contradiction.
  - intro Hle. unfold ItemMapping.with_level.
    destruct (Z.gtb_spec n 0) as [L | _]; [lia | reflexivity].
Qed.

Lemma raw_and_refined_item_ids_witness :
  ItemMapping.get_raw_item_id (fun _ => Ok 1%Z) "T4" "WOOD" (ItemMapping.EnchList ["1"])
  = Ok "T4_WOOD_LEVEL1@1"
  /\ ItemMapping.get_refined_item_id (fun _ => Ok 1%Z) "T3" "WOOD" (ItemMapping.EnchInt 0)
     = Ok "T3_PLANKS".
Proof.
  split.
  - destruct (raw_and_refined_item_ids (fun _ => Ok 1%Z) "T4" "WOOD"
                (ItemMapping.EnchList ["1"]) 1 eq_refl) as [H _].
    rewrite H. reflexivity.
  - reflexivity.
Defined.

(** ** The price manager's searches *)

Lemma best_prices_fold_none (all_prices : dict city_data) :
  fold_left PriceManager.best_prices_step all_prices None = None.
Proof. induction all_prices as [| x l IH]; cbn; [reflexivity | exact IH]. Qed.

(** X20: on formatted price data [get_best_prices_for_refining] never
    names a best city: it reads the keys 'buy_price_min' and
    'sell_price_min', which a formatted quote does not have, so it
    returns the empty dictionary as soon as some city has a raw or a
    refined quote (and for no prices at all), and otherwise the initial
    record without any city. *)
Theorem best_prices_for_refining_never_names_a_city (all_prices : dict city_data) :
  (PriceManager.get_best_prices_for_refining all_prices = None <->
     all_prices = []
     \/ exists city cd, In (city, cd) all_prices
                        /\ (cd_raw cd <> None \/ cd_refined cd <> None))
  /\ (forall bp, PriceManager.get_best_prices_for_refining all_prices = Some bp ->
        bp = {| PriceManager.bp_raw := PriceManager.side_init;
                PriceManager.bp_refined := PriceManager.side_init |}).
Proof.
  assert (G : forall l bp0,
             (fold_left PriceManager.best_prices_step l (Some bp0) = None <->
                exists city cd, In (city, cd) l
                                /\ (cd_raw cd <> None \/ cd_refined cd <> None))
             /\ (forall bp, fold_left PriceManager.best_prices_step l (Some bp0)
                            = Some bp -> bp = bp0)).
  { induction l as [| [city cd] l IH]; intro bp0; cbn [fold_left].
    - split; [split; [discriminate | intros [c [d [[] _]]]]|].
      intros bp H. injection H as <-. reflexivity.
    - destruct (cd_raw cd) as [q |] eqn:Er.
      + assert (E : PriceManager.best_prices_step (Some bp0) (city, cd) = None).
        { cbn. rewrite Er. reflexivity. }
        rewrite E, best_prices_fold_none.
        split; [|discriminate]. split; [|reflexivity].
        intros _. exists city, cd. split; [left; reflexivity|].
        left. rewrite Er. discriminate.
      + destruct (cd_refined cd) as [q |] eqn:Ef.
        * assert (E : PriceManager.best_prices_step (Some bp0) (city, cd) = None).
          { cbn. rewrite Er, Ef. reflexivity. }
          rewrite E, best_prices_fold_none.
          split; [|discriminate]. split; [|reflexivity].
          intros _. exists city, cd. split; [left; reflexivity|].
          right. rewrite Ef. discriminate.
        * assert (E : PriceManager.best_prices_step (Some bp0) (city, cd) = Some bp0).
          { cbn. rewrite Er, Ef. reflexivity. }
          rewrite E. destruct (IH bp0) as [IH1 IH2]. split; [|exact IH2].
          rewrite IH1. split.
          -- intros [c [d [Hin H]]]. exists c, d. split; [right; exact Hin | exact H].
          -- intros [c [d [[Hin | Hin] H]]].
             ++ injection Hin as <- <-. rewrite Er, Ef in H.
                destruct H as [H | H]; contradiction.
             ++ exists c, d. split; assumption. }
  unfold PriceManager.get_best_prices_for_refining.
  destruct all_prices as [| p l].
  - split; [|discriminate]. split; [intros _; left; reflexivity | reflexivity].
  - destruct (G (p :: l) {| PriceManager.bp_raw := PriceManager.side_init;
                            PriceManager.bp_refined := PriceManager.side_init |})
      as [G1 G2].
    split; [|exact G2]. rewrite G1. split; [intro H; right; exact H|].
    intros [H | H]; [discriminate | exact H].
Qed.

Lemma best_prices_for_refining_never_names_a_city_witness :
  PriceManager.get_best_prices_for_refining one_sided_quotes = None.
Proof.
  apply (best_prices_for_refining_never_names_a_city one_sided_quotes).
  right. exists "Thetford". eexists. split; [left; reflexivity|].
  left. discriminate.
Defined.

Lemma raw_asks_entries (market_prices : dict city_data) (city : string) (p : Q) :
  In (city, p) (PriceManager.raw_asks market_prices) <->
  exists cd q, In (city, cd) market_prices /\ cd_raw cd = Some q
               /\ 0 < sell_min q /\ p = sell_min q.
Proof.
  unfold PriceManager.raw_asks. rewrite in_flat_map. split.
  - intros [[c cd] [Hin H]]. cbn [fst snd] in H.
    destruct (cd_raw cd) as [q |] eqn:Er; [|contradiction].
    destruct (Qgtb (sell_min q) 0) eqn:G; [|contradiction].
    destruct H as [H | []]. injection H as <- <-.
    exists cd, q. apply Qgtb_gt in G. auto.
  - intros [cd [q [Hin [Er [Hpos ->]]]]]. exists (city, cd). split; [exact Hin|].
    cbn [fst snd]. rewrite Er. apply Qgtb_gt in Hpos. rewrite Hpos. left. reflexivity.
Qed.

Lemma min_item_spec (first : string * Q) (rest : dict Q) :
  In (PriceManager.min_item first rest) (first :: rest)
  /\ forall x, In x (first :: rest) -> snd (PriceManager.min_item first rest) <= snd x.
Proof.
  unfold PriceManager.min_item. revert first.
  induction rest as [| y rest IH]; intro first; cbn [fold_left].
  - split; [left; reflexivity|]. intros x [<- | []]. apply Qle_refl.
  - destruct (IH (if Qltb (snd y) (snd first) then y else first)) as [Hin Hle].
    split.
    + destruct Hin as [E | Hin]; [|right; right; exact Hin].
      rewrite <- E. destruct (Qltb (snd y) (snd first)); [right; left | left];
        reflexivity.
    + intros x Hx.
      assert (Hb : snd (if Qltb (snd y) (snd first) then y else first) <= snd first
                   /\ snd (if Qltb (snd y) (snd first) then y else first) <= snd y).
      { destruct (Qltb (snd y) (snd first)) eqn:L.
        - apply Qltb_lt in L. split; lra.
        - apply Qltb_ge in L. split; lra. }
      destruct Hb as [Hb1 Hb2].
      pose proof (Hle _ (or_introl eq_refl)) as H0.
      destruct Hx as [<- | [<- | Hx]].
      * lra.
      * lra.
      * apply Hle. right. exact Hx.
Qed.

Lemma max_item_spec (first : string * Q) (rest : dict Q) :
  In (PriceManager.max_item first rest) (first :: rest)
  /\ forall x, In x (first :: rest) -> snd x <= snd (PriceManager.max_item first rest).
Proof.
  unfold PriceManager.max_item. revert first.
  induction rest as [| y rest IH]; intro first; cbn [fold_left].
  - split; [left; reflexivity|]. intros x [<- | []]. apply Qle_refl.
  - destruct (IH (if Qgtb (snd y) (snd first) then y else first)) as [Hin Hle].
    split.
    + destruct Hin as [E | Hin]; [|right; right; exact Hin].
      rewrite <- E. destruct (Qgtb (snd y) (snd first)); [right; left | left];
        reflexivity.
    + intros x Hx.
      assert (Hb : snd first <= snd (if Qgtb (snd y) (snd first) then y else first)
                   /\ snd y <= snd (if Qgtb (snd y) (snd first) then y else first)).
      { destruct (Qgtb (snd y) (snd first)) eqn:L.
        - apply Qgtb_gt in L. split; lra.
        - apply Qgtb_le in L. split; lra. }
      destruct Hb as [Hb1 Hb2].
      pose proof (Hle _ (or_introl eq_refl)) as H0.
      destruct Hx as [<- | [<- | Hx]].
      * lra.
      * lra.
      * apply Hle. right. exact Hx.
Qed.

(** X21: [get_arbitrage_opportunities] always returns, with at most one
    opportunity.  When it reports one, its buy price is the least and its
    sell price the greatest strictly positive raw ask ([sell_min]) over
    the cities, each quoted in the named city, the sell price is more
    than 1.1 times the buy price, the profit per unit is their positive
    difference and the margin is above 10; it reports none when no city
    has a positive raw ask. *)
Theorem raw_arbitrage_opportunity (market_prices : dict city_data)
    (tier resource_type : string) :
  exists ops,
    PriceManager.get_arbitrage_opportunities market_prices tier resource_type = Ok ops
    /\ (length ops <= 1)%nat
    /\ (PriceManager.raw_asks market_prices = [] -> ops = [])
    /\ forall o, In o ops ->
         In (PriceManager.ra_buy_city o, PriceManager.ra_buy_price o)
            (PriceManager.raw_asks market_prices)
         /\ In (PriceManager.ra_sell_city o, PriceManager.ra_sell_price o)
               (PriceManager.raw_asks market_prices)
         /\ (forall city cd q, In (city, cd) market_prices -> cd_raw cd = Some q ->
               0 < sell_min q ->
               PriceManager.ra_buy_price o <= sell_min q
               /\ sell_min q <= PriceManager.ra_sell_price o)
         /\ 0 < PriceManager.ra_buy_price o
         /\ PriceManager.ra_buy_price o * 1.1 < PriceManager.ra_sell_price o
         /\ PriceManager.ra_profit_per_unit o
            = PriceManager.ra_sell_price o - PriceManager.ra_buy_price o
         /\ 0 < PriceManager.ra_profit_per_unit o
         /\ 10 < PriceManager.ra_profit_margin o.
Proof.
  unfold PriceManager.get_arbitrage_opportunities.
  destruct (PriceManager.raw_asks market_prices) as [| first rest] eqn:Easks.
  - exists []. split; [reflexivity|]. split; [cbn; lia|].
    split; [reflexivity | intros o []].
  - destruct (min_item_spec first rest) as [Hmin_in Hmin].
    destruct (max_item_spec first rest) as [Hmax_in Hmax].
    set (mn := PriceManager.min_item first rest) in *.
    set (mx := PriceManager.max_item first rest) in *.
    assert (Hpos : 0 < snd mn).
    { rewrite <- Easks in Hmin_in. destruct mn as [c p].
      apply raw_asks_entries in Hmin_in.
      destruct Hmin_in as [cd [q [_ [_ [Hq ->]]]]]. exact Hq. }
    destruct (Qgtb (snd mx) (snd mn * 1.1)) eqn:G.
    + apply Qgtb_gt in G. rewrite pydiv_pos by exact Hpos. cbn [bind].
      eexists. split; [reflexivity|]. split; [cbn; lia|]. split; [discriminate|].
      intros o [<- | []]. cbn.
      split; [destruct mn; exact Hmin_in|]. split; [destruct mx; exact Hmax_in|].
      split.
      { intros city cd q Hin Hr Hq.
        assert (Ha : In (city, sell_min q) (first :: rest)).
        { rewrite <- Easks. apply raw_asks_entries. exists cd, q. auto. }
        split; [apply (Hmin _ Ha) | apply (Hmax _ Ha)]. }
      split; [exact Hpos|]. split; [exact G|]. split; [reflexivity|].
      split; [lra|].
      assert (E : (snd mx - snd mn) / snd mn * 100
                  == (snd mx - snd mn * 1.1) / snd mn * 100 + 10).
      { field. lra. }
      rewrite E.
      assert (0 < (snd mx - snd mn * 1.1) / snd mn).
      { apply Qlt_shift_div_l; lra. }
      lra.
    + exists []. split; [reflexivity|]. split; [cbn; lia|].
      split; [discriminate | intros o []].
Qed.

Lemma raw_arbitrage_opportunity_witness :
  exists o,
    PriceManager.get_arbitrage_opportunities one_sided_quotes "T5" "ORE" = Ok [o]
    /\ PriceManager.ra_buy_city o = "Thetford"
    /\ 10 < PriceManager.ra_profit_margin o.
Proof.
  destruct (raw_arbitrage_opportunity one_sided_quotes "T5" "ORE")
    as [ops [Hops [_ [_ Hall]]]].
  assert (E : exists o, ops = [o] /\ PriceManager.ra_buy_city o = "Thetford").
  { vm_compute in Hops. injection Hops as <-. eexists. split; reflexivity. }
  destruct E as [o [-> Ho]]. exists o. split; [exact Hops|]. split; [exact Ho|].
  apply (Hall o (or_introl eq_refl)).
Defined.

(** ** The price formatter *)

Lemma key_eqb_eq (a b : string * string) : DataCollector.key_eqb a b = true <-> a = b.
Proof.
  destruct a as [a1 a2], b as [b1 b2]. unfold DataCollector.key_eqb. cbn [fst snd].
  rewrite andb_true_iff, !String.eqb_eq. split.
  - intros [-> ->]. reflexivity.
  - intro H. injection H as -> ->. auto.
Qed.

Lemma key_eqb_refl (a : string * string) : DataCollector.key_eqb a a = true.
Proof. apply key_eqb_eq. reflexivity. Qed.

Lemma pget_add_row (grouped : DataCollector.pair_dict (list DataCollector.api_row))
    (key k : string * string) (item : DataCollector.api_row) :
  DataCollector.pget (DataCollector.add_row grouped key item) k
  = if DataCollector.key_eqb key k
    then Some (match DataCollector.pget grouped key with
               | Some l => l
               | None => []
               end ++ [item])%list
    else DataCollector.pget grouped k.
Proof.
  induction grouped as [| [k' items] rest IH];
    cbn [DataCollector.add_row DataCollector.pget].
  - destruct (DataCollector.key_eqb key k); reflexivity.
  - destruct (DataCollector.key_eqb k' key) eqn:E1.
    + apply key_eqb_eq in E1. subst k'. cbn [DataCollector.pget].
      destruct (DataCollector.key_eqb key k); reflexivity.
    + cbn [DataCollector.pget]. rewrite IH.
      destruct (DataCollector.key_eqb k' k) eqn:E2.
      * apply key_eqb_eq in E2. subst k'.
        destruct (DataCollector.key_eqb key k) eqn:E3; [|reflexivity].
        apply key_eqb_eq in E3. subst key. rewrite key_eqb_refl in E1. discriminate.
      * reflexivity.
Qed.

Lemma non_empty_app {A : Type} (l : list A) (x : A) :
  non_empty (l ++ [x]) = Some (match non_empty l with Some l' => l' | None => [] end
                               ++ [x])%list.
Proof. destruct l; reflexivity. Qed.

Lemma grouped_prices_lookup (data : list DataCollector.api_row) (city item : string) :
  DataCollector.pget (DataCollector.grouped_prices data) (city, item)
  = non_empty (rows_for data city item).
Proof.
  unfold DataCollector.grouped_prices.
  apply (fold_left_invariant
           (fun seen grouped =>
              forall c i, DataCollector.pget grouped (c, i)
                          = non_empty (rows_for seen c i))
           DataCollector.group_step) with (seen := []) (l := data).
  - intros seen grouped x H c i.
    unfold rows_for in *. rewrite filter_app. cbn [filter].
    unfold DataCollector.group_step, row_matches at 2.
    destruct (DataCollector.row_city x) as [xc |]; [|rewrite app_nil_r; apply H].
    destruct (DataCollector.row_item_id x) as [xi |]; [|rewrite app_nil_r; apply H].
    destruct (DataCollector.truthy (Some xc) && DataCollector.truthy (Some xi)) eqn:T;
      [|cbn [andb]; rewrite app_nil_r; apply H].
    rewrite pget_add_row. cbn [andb].
    destruct (DataCollector.key_eqb (xc, xi) (c, i)) eqn:K.
    + apply key_eqb_eq in K. injection K as -> ->.
      rewrite !String.eqb_refl. cbn [andb]. rewrite H. symmetry. apply non_empty_app.
    + assert (E : String.eqb xc c && String.eqb xi i = false).
      { destruct (String.eqb_spec xc c) as [-> | ?]; [|reflexivity].
        destruct (String.eqb_spec xi i) as [-> | ?]; [|reflexivity].
        rewrite key_eqb_refl in K. discriminate. }
      rewrite E, app_nil_r. apply H.
  - intros c i. reflexivity.
Qed.

Lemma pget_map {V W : Type} (f : V -> W) (d : DataCollector.pair_dict V)
    (k : string * string) :
  DataCollector.pget (map (fun entry => (fst entry, f (snd entry))) d) k
  = option_map f (DataCollector.pget d k).
Proof.
  induction d as [| [k' v] d IH]; cbn [map DataCollector.pget fst snd]; [reflexivity|].
  destruct (DataCollector.key_eqb k' k); [reflexivity | exact IH].
Qed.

Lemma min_or_zero_spec (x : Q) (l : list Q) :
  In (DataCollector.min_or_zero (x :: l)) (x :: l)
  /\ forall y, In y (x :: l) -> DataCollector.min_or_zero (x :: l) <= y.
Proof.
  unfold DataCollector.min_or_zero. revert x.
  induction l as [| z l IH]; intro x; cbn [fold_left].
  - split; [left; reflexivity|]. intros y [<- | []]. apply Qle_refl.
  - destruct (IH (if Qltb z x then z else x)) as [Hin Hle]. split.
    + destruct Hin as [E | Hin]; [|right; right; exact Hin].
      rewrite <- E. destruct (Qltb z x); [right; left | left]; reflexivity.
    + intros y Hy.
      assert (Hb : (if Qltb z x then z else x) <= x /\ (if Qltb z x then z else x) <= z).
      { destruct (Qltb z x) eqn:L.
        - apply Qltb_lt in L. split; lra.
        - apply Qltb_ge in L. split; lra. }
      destruct Hb as [Hb1 Hb2].
      pose proof (Hle _ (or_introl eq_refl)) as H0.
      destruct Hy as [<- | [<- | Hy]]; [lra | lra | apply Hle; right; exact Hy].
Qed.

Lemma max_or_zero_spec (x : Q) (l : list Q) :
  In (DataCollector.max_or_zero (x :: l)) (x :: l)
  /\ forall y, In y (x :: l) -> y <= DataCollector.max_or_zero (x :: l).
Proof.
  unfold DataCollector.max_or_zero. revert x.
  induction l as [| z l IH]; intro x; cbn [fold_left].
  - split; [left; reflexivity|]. intros y [<- | []]. apply Qle_refl.
  - destruct (IH (if Qgtb z x then z else x)) as [Hin Hle]. split.
    + destruct Hin as [E | Hin]; [|right; right; exact Hin].
      rewrite <- E. destruct (Qgtb z x); [right; left | left]; reflexivity.
    + intros y Hy.
      assert (Hb : x <= (if Qgtb z x then z else x) /\ z <= (if Qgtb z x then z else x)).
      { destruct (Qgtb z x) eqn:L.
        - apply Qgtb_gt in L. split; lra.
        - apply Qgtb_le in L. split; lra. }
      destruct Hb as [Hb1 Hb2].
      pose proof (Hle _ (or_introl eq_refl)) as H0.
      destruct Hy as [<- | [<- | Hy]]; [lra | lra | apply Hle; right; exact Hy].
Qed.

(** The best ask and the best bid of a group of rows. *)
Lemma best_of_spec (items : list DataCollector.api_row) :
  (0 < DataCollector.info_sell_price_min (DataCollector.best_of items) ->
   (exists row, In row items
                /\ DataCollector.sell_price_min row
                   = DataCollector.info_sell_price_min (DataCollector.best_of items))
   /\ forall row, In row items -> 0 < DataCollector.sell_price_min row ->
        DataCollector.info_sell_price_min (DataCollector.best_of items)
        <= DataCollector.sell_price_min row)
  /\ (0 < DataCollector.info_buy_price_max (DataCollector.best_of items) ->
      exists row, In row items
                  /\ DataCollector.buy_price_max row
                     = DataCollector.info_buy_price_max (DataCollector.best_of items))
  /\ 0 <= DataCollector.info_buy_price_max (DataCollector.best_of items)
  /\ 0 <= DataCollector.info_sell_price_min (DataCollector.best_of items)
  /\ (forall row, In row items ->
        DataCollector.buy_price_max row
        <= DataCollector.info_buy_price_max (DataCollector.best_of items)).
Proof.
  unfold DataCollector.best_of. cbn [DataCollector.info_sell_price_min
                                     DataCollector.info_buy_price_max].
  set (vs := map DataCollector.sell_price_min
               (filter (fun i => Qgtb (DataCollector.sell_price_min i) 0) items)).
  set (vb := map DataCollector.buy_price_max
               (filter (fun i => Qgtb (DataCollector.buy_price_max i) 0) items)).
  assert (Hvs : forall y, In y vs <->
                  exists row, In row items /\ 0 < DataCollector.sell_price_min row
                              /\ DataCollector.sell_price_min row = y).
  { intro y. unfold vs. rewrite in_map_iff. split.
    - intros [row [E H]]. apply filter_In in H. destruct H as [H G].
      apply Qgtb_gt in G. exists row. auto.
    - intros [row [H [G E]]]. exists row. split; [exact E|].
      apply filter_In. split; [exact H | apply Qgtb_gt, G]. }
  assert (Hvb : forall y, In y vb <->
                  exists row, In row items /\ 0 < DataCollector.buy_price_max row
                              /\ DataCollector.buy_price_max row = y).
  { intro y. unfold vb. rewrite in_map_iff. split.
    - intros [row [E H]]. apply filter_In in H. destruct H as [H G].
      apply Qgtb_gt in G. exists row. auto.
    - intros [row [H [G E]]]. exists row. split; [exact E|].
      apply filter_In. split; [exact H | apply Qgtb_gt, G]. }
  split; [|split; [|split; [|split]]].
  - intro Hpos. destruct vs as [| x l] eqn:Evs; [cbn in Hpos; lra|].
    destruct (min_or_zero_spec x l) as [Hin Hle]. split.
    + apply Hvs in Hin. destruct Hin as [row [H [_ E]]]. exists row. auto.
    + intros row H G. apply Hle. apply Hvs. exists row. auto.
  - intro Hpos. destruct vb as [| x l] eqn:Evb; [cbn in Hpos; lra|].
    destruct (max_or_zero_spec x l) as [Hin _].
    apply Hvb in Hin. destruct Hin as [row [H [_ E]]]. exists row. auto.
  - destruct vb as [| x l] eqn:Evb; [apply Qle_refl|].
    destruct (max_or_zero_spec x l) as [Hin _].
    apply Hvb in Hin. destruct Hin as [row [_ [G E]]]. rewrite <- E. lra.
  - destruct vs as [| x l] eqn:Evs; [apply Qle_refl|].
    destruct (min_or_zero_spec x l) as [Hin _].
    apply Hvs in Hin. destruct Hin as [row [_ [G E]]]. rewrite <- E. lra.
  - intros row H.
    destruct (Qlt_le_dec 0 (DataCollector.buy_price_max row)) as [G | G].
    + assert (Hin : In (DataCollector.buy_price_max row) vb)
        by (apply Hvb; exists row; auto).
      destruct vb as [| x l] eqn:Evb; [destruct Hin|].
      destruct (max_or_zero_spec x l) as [_ Hle]. apply Hle, Hin.
    + destruct vb as [| x l] eqn:Evb; [exact G|].
      destruct (max_or_zero_spec x l) as [Hin _].
      apply Hvb in Hin. destruct Hin as [row' [_ [G' E]]]. rewrite <- E. lra.
Qed.

Lemma rows_for_In (data : list DataCollector.api_row) (city item : string)
    (row : DataCollector.api_row) :
  In row (rows_for data city item) <->
  In row data /\ DataCollector.row_city row = Some city
  /\ DataCollector.row_item_id row = Some item
  /\ city <> "" /\ item <> "".
Proof.
  unfold rows_for. rewrite filter_In. unfold row_matches.
  destruct (DataCollector.row_city row) as [c |];
    [|split; [intros [_ H]; discriminate | intros [_ [H _]]; discriminate]].
  destruct (DataCollector.row_item_id row) as [i |];
    [|split; [intros [_ H]; discriminate | intros [_ [_ [H _]]]; discriminate]].
  rewrite !andb_true_iff, !String.eqb_eq. split.
  - intros [Hin [[[Tc Ti] ->] ->]]. repeat split; try assumption.
    + intros ->. discriminate.
    + intros ->. discriminate.
  - intros [Hin [Hc [Hi [Nc Ni]]]]. injection Hc as ->. injection Hi as ->.
    split; [exact Hin|]. repeat split.
    + destruct city; [contradiction | reflexivity].
    + destruct item; [contradiction | reflexivity].
Qed.

Lemma info_for_spec (data : list DataCollector.api_row) (city : string)
    (item : option string) (info : DataCollector.price_info) :
  DataCollector.info_for (DataCollector.best_prices data) city item = Some info ->
  exists item_id row0,
    item = Some item_id
    /\ In row0 (rows_for data city item_id)
    /\ info = DataCollector.best_of (rows_for data city item_id).
Proof.
  unfold DataCollector.info_for, DataCollector.best_prices.
  destruct item as [item_id |]; [|discriminate].
  rewrite pget_map, grouped_prices_lookup.
  destruct (rows_for data city item_id) as [| row0 rest] eqn:E; [discriminate|].
  cbn. intro H. injection H as <-.
  exists item_id, row0. split; [reflexivity|]. rewrite E.
  split; [left; reflexivity | reflexivity].
Qed.

Lemma quote_of_info (data : list DataCollector.api_row) (city : string)
    (item : option string) :
  (0 < DataCollector.sell_of
         (DataCollector.info_for (DataCollector.best_prices data) city item)
   \/ 0 < DataCollector.buy_of
            (DataCollector.info_for (DataCollector.best_prices data) city item)) ->
  exists item_id,
    item = Some item_id
    /\ (0 < DataCollector.sell_of
             (DataCollector.info_for (DataCollector.best_prices data) city item) ->
        least_positive_ask data city item_id
          (DataCollector.sell_of
             (DataCollector.info_for (DataCollector.best_prices data) city item)))
    /\ greatest_bid_or_zero data city item_id
         (DataCollector.buy_of
            (DataCollector.info_for (DataCollector.best_prices data) city item))
    /\ 0 <= DataCollector.sell_of
              (DataCollector.info_for (DataCollector.best_prices data) city item).
Proof.
  intro Hpos.
  destruct (DataCollector.info_for (DataCollector.best_prices data) city item)
    as [info |] eqn:Ei.
  2:{ cbn in Hpos. destruct Hpos; lra. }
  destruct (info_for_spec data city item info Ei) as [item_id [row0 [-> [Hrow0 ->]]]].
  exists item_id. split; [reflexivity|]. cbn [DataCollector.sell_of DataCollector.buy_of].
  destruct (best_of_spec (rows_for data city item_id))
    as [Hs [Hb [Hb0 [Hs0 Hbmax]]]].
  apply rows_for_In in Hrow0. destruct Hrow0 as [_ [_ [_ [Nc Ni]]]].
  split; [|split; [|exact Hs0]].
  - intro Hp. destruct (Hs Hp) as [[row [Hin E]] Hle].
    split; [exact Hp|]. split.
    + apply rows_for_In in Hin. destruct Hin as [H1 [H2 [H3 _]]]. exists row. auto.
    + intros row' H1 H2 H3 H4. apply Hle; [|exact H4].
      apply rows_for_In. auto.
  - split; [exact Hb0|]. split.
    + intro Hp. destruct (Hb Hp) as [row [Hin E]].
      apply rows_for_In in Hin. destruct Hin as [H1 [H2 [H3 _]]]. exists row. auto.
    + intros row H1 H2 H3. apply Hbmax. apply rows_for_In. auto.
Qed.

Lemma format_cities_spec (int_of_str : string -> result Z)
    (best : DataCollector.pair_dict DataCollector.price_info)
    (raw_item prev_item refined_item : option string) (tier resource_type : string)
    (enchantment : Z) (cities : list string) :
  forall res,
    DataCollector.format_cities int_of_str best raw_item prev_item refined_item tier
      resource_type enchantment cities = Ok res ->
    keys res = cities
    /\ forall city cd, In (city, cd) res ->
         DataCollector.format_city int_of_str best raw_item prev_item refined_item
           tier resource_type enchantment city = Ok (city, cd).
Proof.
  induction cities as [| c cs IH]; intros res; cbn [DataCollector.format_cities].
  - intro H. injection H as <-. split; [reflexivity | intros ? ? []].
  - destruct (DataCollector.format_city int_of_str best raw_item prev_item
                refined_item tier resource_type enchantment c) as [entry | e] eqn:Ec;
      cbn [bind]; [|discriminate].
    destruct (DataCollector.format_cities int_of_str best raw_item prev_item
                refined_item tier resource_type enchantment cs) as [others | e] eqn:Eo;
      cbn [bind]; [|discriminate].
    intro H. injection H as <-.
    destruct (IH others eq_refl) as [Hk Hall].
    assert (Efst : fst entry = c).
    { unfold DataCollector.format_city in Ec.
      destruct (if Qgtb _ 0 then Ok _ else _) as [p | e]; cbn [bind] in Ec;
        [|discriminate].
      injection Ec as <-. reflexivity. }
    split.
    + cbn. rewrite Efst. f_equal. exact Hk.
    + intros city cd [H | H].
      * subst entry. cbn in Efst. subst c. exact Ec.
      * apply Hall, H.
Qed.

(** X22: in the price data [_format_price_data] returns, every city that
    names a row appears once; a raw quote is given exactly under the
    first requested item, with a strictly positive [sell_min] that is the
    least positive ask of that city's rows for the item and a [buy_max]
    that is their greatest positive bid, or 0 when there is none; a
    refined quote has a strictly positive [buy_max], the greatest bid for
    the third requested item, and a previous-tier quote a strictly
    positive [sell_min].  Without enchantment the formatter always
    returns. *)
Theorem formatted_quotes_are_best_prices (int_of_str : string -> result Z)
    (data : list DataCollector.api_row) (items_to_fetch : list string)
    (tier resource_type : string) (enchantment : Z) :
  ((enchantment <= 0)%Z ->
   exists res, DataCollector._format_price_data int_of_str data items_to_fetch tier
                 resource_type enchantment = Ok res)
  /\ forall res,
       DataCollector._format_price_data int_of_str data items_to_fetch tier
         resource_type enchantment = Ok res ->
       keys res = DataCollector.all_cities data
       /\ NoDup (keys res)
       /\ forall city cd, In (city, cd) res ->
            (forall q, cd_raw cd = Some q ->
               exists item, nth_error items_to_fetch 0 = Some item
                 /\ quote_item_id q = item
                 /\ least_positive_ask data city item (sell_min q)
                 /\ greatest_bid_or_zero data city item (buy_max q))
            /\ (forall q, cd_refined cd = Some q ->
                  exists item, nth_error items_to_fetch 2 = Some item
                    /\ quote_item_id q = item
                    /\ 0 < buy_max q
                    /\ greatest_bid_or_zero data city item (buy_max q)
                    /\ 0 <= sell_min q)
            /\ (forall q, cd_prev_refined cd = Some q -> 0 < sell_min q).
Proof.
  split.
  - intro Hench. unfold DataCollector._format_price_data.
    destruct data as [| row rows]; [eexists; reflexivity|].
    generalize (DataCollector.all_cities (row :: rows)). intro cities.
    induction cities as [| c cs IH]; cbn [DataCollector.format_cities];
      [eexists; reflexivity|].
    destruct IH as [others Ho]. rewrite Ho.
    unfold DataCollector.format_city.
    destruct (Z.gtb_spec enchantment 0) as [L | _]; [lia|].
    destruct (Qgtb (DataCollector.sell_of _) 0); cbn [bind]; eexists; reflexivity.
  - intros res Hres. unfold DataCollector._format_price_data in Hres.
    destruct data as [| row rows].
    { injection Hres as <-. split; [reflexivity|]. split; [constructor|].
      intros ? ? []. }
    set (data := row :: rows) in *.
    destruct (format_cities_spec int_of_str _ _ _ _ _ _ _ _ res Hres) as [Hk Hall].
    split; [exact Hk|]. split; [rewrite Hk; apply NoDup_nodup|].
    intros city cd Hin. specialize (Hall city cd Hin).
    unfold DataCollector.format_city in Hall.
    set (raw_info := DataCollector.info_for (DataCollector.best_prices data) city
                       (nth_error items_to_fetch 0)) in *.
    set (prev_info := DataCollector.info_for (DataCollector.best_prices data) city
                        (nth_error items_to_fetch 1)) in *.
    set (ref_info := DataCollector.info_for (DataCollector.best_prices data) city
                       (nth_error items_to_fetch 2)) in *.
    match type of Hall with
    | (x <- ?P ;; _) = _ => destruct P as [prev | e] eqn:Eprev
    end; cbn [bind] in Hall; [|discriminate].
    injection Hall as <-. cbn [cd_raw cd_refined cd_prev_refined].
    split; [|split].
    + intros q Hq. destruct (Qgtb (DataCollector.sell_of raw_info) 0) eqn:G;
        [|discriminate].
      injection Hq as <-. apply Qgtb_gt in G. cbn [sell_min buy_max quote_item_id].
      destruct (quote_of_info data city (nth_error items_to_fetch 0) (or_introl G))
        as [item [Ei [Hask [Hbid _]]]].
      exists item. split; [exact Ei|]. fold raw_info in Hask, Hbid.
      split; [cbn [nth_error] in Ei |- *; rewrite Ei; reflexivity|]. split; [apply Hask, G | exact Hbid].
    + intros q Hq. destruct (Qgtb (DataCollector.buy_of ref_info) 0) eqn:G;
        [|discriminate].
      injection Hq as <-. apply Qgtb_gt in G. cbn [sell_min buy_max quote_item_id].
      destruct (quote_of_info data city (nth_error items_to_fetch 2) (or_intror G))
        as [item [Ei [_ [Hbid Hs0]]]].
      exists item. split; [exact Ei|]. fold ref_info in Hbid, Hs0.
      split; [cbn [nth_error] in Ei |- *; rewrite Ei; reflexivity|]. split; [exact G|]. split; assumption.
    + intros q Hq. subst prev.
      destruct (Qgtb (DataCollector.sell_of prev_info) 0) eqn:G.
      * injection Eprev as <-. apply Qgtb_gt in G. exact G.
      * destruct (enchantment >? 0)%Z; [|discriminate].
        destruct (int_of_str (DataCollector.tail_of tier)) as [tier_num | e];
          cbn [bind] in Eprev; [|discriminate].
        destruct (ItemMapping.get_refined_item_id _ _ _ _) as [normal | e];
          cbn [bind] in Eprev; [|discriminate].
        match type of Eprev with
        | (if ?b then _ else _) = _ => destruct b eqn:G2
        end; [|discriminate Eprev].
        injection Eprev as <-. apply Qgtb_gt in G2. exact G2.
Qed.

Lemma formatted_quotes_are_best_prices_witness :
  exists res,
    DataCollector._format_price_data (fun _ => Ok 5%Z)
      [DataCollector.mkRow (Some "Thetford") (Some "T5_ORE") 50 0;
       DataCollector.mkRow (Some "Thetford") (Some "T5_ORE") 45 0;
       DataCollector.mkRow (Some "Thetford") (Some "T5_METALBAR") 0 300]
      ["T5_ORE"; "T4_METALBAR"; "T5_METALBAR"] "T5" "ORE" 0 = Ok res
    /\ get res "Thetford"
       = Some {| cd_raw := Some (mkQuote 0 45 "T5_ORE");
                 cd_prev_refined := None;
                 cd_refined := Some (mkQuote 300 0 "T5_METALBAR") |}.
Proof.
  destruct (formatted_quotes_are_best_prices (fun _ => Ok 5%Z)
              [DataCollector.mkRow (Some "Thetford") (Some "T5_ORE") 50 0;
               DataCollector.mkRow (Some "Thetford") (Some "T5_ORE") 45 0;
               DataCollector.mkRow (Some "Thetford") (Some "T5_METALBAR") 0 300]
              ["T5_ORE"; "T4_METALBAR"; "T5_METALBAR"] "T5" "ORE" 0) as [H _].
  destruct (H ltac:(lia)) as [res Hres]. exists res. split; [exact Hres|].
  vm_compute in Hres. injection Hres as <-. reflexivity.
Defined.
